(** * F5 BIG-IP Ansible modules: virtual server and node reconciliation

    A shallow embedding of [library/_bigip_virtual_server.py] (the bigsuds /
    iControl SOAP module) and [library/bigip_node.py] (the f5-sdk / iControl
    REST module), followed by the properties of the specification that were
    checked against them.

    Conventions.
    - Python strings are byte strings ([string]); the character classes of
      [re] and of [str.strip] are the ASCII ones of Python 2, the interpreter
      bigsuds targets.
    - The device is an abstract deterministic state machine: a type [D] of
      device states with one function for queries and one for mutating calls.
      Nothing is assumed about how the answers of different calls relate, so
      a device that answers "exists" and then fails a delete with "not
      found" (another actor got there first) is one of its instances.
    - Code that talks to the device lives in a state-and-exception monad over
      a [world]: the device state plus the log of the mutating calls issued
      so far. *)

From Stdlib Require Import ZArith String Ascii List Bool Lia DecimalString DecimalPos.
From stdpp Require Import base list strings gmap sets.
Import ListNotations.
Open Scope string_scope.
Open Scope list_scope.

(** ** Python values and string operations *)

Module Py.

(** [c in ' \t\n\r\x0b\x0c'] *)
Definition isspace (c : ascii) : bool :=
  let n := nat_of_ascii c in
  Nat.eqb n 32 || (Nat.leb 9 n && Nat.leb n 13).

Definition isdigit (c : ascii) : bool :=
  let n := nat_of_ascii c in Nat.leb 48 n && Nat.leb n 57.

Definition isupper (c : ascii) : bool :=
  let n := nat_of_ascii c in Nat.leb 65 n && Nat.leb n 90.

Definition islower (c : ascii) : bool :=
  let n := nat_of_ascii c in Nat.leb 97 n && Nat.leb n 122.

(** [\w] of [re] without flags: [[a-zA-Z0-9_]] *)
Definition isword (c : ascii) : bool :=
  isdigit c || isupper c || islower c || Nat.eqb (nat_of_ascii c) 95.

(** [s.startswith(p)] *)
Definition startswith (p s : string) : bool := String.prefix p s.

(** [needle in hay] on strings *)
Fixpoint contains (needle hay : string) : bool :=
  String.prefix needle hay ||
  match hay with
  | EmptyString => false
  | String _ hay' => contains needle hay'
  end.

(** [x in l] on lists of strings, for [x] a string and for [x] a value
    that may be [None] *)
Definition mem (x : string) (l : list string) : bool := bool_decide (x ∈ l).
Definition mem_opt (x : option string) (l : list string) : bool :=
  match x with None => false | Some x => mem x l end.

Fixpoint lstrip (s : string) : string :=
  match s with
  | EmptyString => EmptyString
  | String c s' => if isspace c then lstrip s' else s
  end.

Fixpoint rstrip (s : string) : string :=
  match s with
  | EmptyString => EmptyString
  | String c s' =>
      match rstrip s' with
      | EmptyString => if isspace c then EmptyString else String c EmptyString
      | r => String c r
      end
  end.

(** [s.strip()] *)
Definition strip (s : string) : string := rstrip (lstrip s).

Definition upper_char (c : ascii) : ascii :=
  if islower c then ascii_of_nat (nat_of_ascii c - 32) else c.

Definition lower_char (c : ascii) : ascii :=
  if isupper c then ascii_of_nat (nat_of_ascii c + 32) else c.

Fixpoint map_chars (f : ascii -> ascii) (s : string) : string :=
  match s with
  | EmptyString => EmptyString
  | String c s' => String (f c) (map_chars f s')
  end.

Definition upper : string -> string := map_chars upper_char.
Definition lower : string -> string := map_chars lower_char.

(** [if x:] on a string or a list that may be [None]; [len(l) > 0] *)
Definition truthy_str (s : option string) : bool :=
  match s with None | Some EmptyString => false | Some _ => true end.
Definition truthy_list {A} (l : option (list A)) : bool :=
  match l with None | Some [] => false | Some _ => true end.
Definition nonempty {A} (l : list A) : bool := Nat.ltb 0 (length l).

(** [sep.join(l)] *)
Definition join (sep : string) (l : list string) : string := String.concat sep l.

(** [s.split(sep)] for a non-empty [sep]: occurrences are taken from the
    left and do not overlap.  [skip] counts the characters of an occurrence
    still to be passed over, [acc] is the piece being read. *)
Fixpoint split_from (sep : string) (skip : nat) (acc s : string) : list string :=
  match s with
  | EmptyString => [acc]
  | String c s' =>
      match skip with
      | S k => split_from sep k acc s'
      | O =>
          if String.prefix sep s
          then acc :: split_from sep (String.length sep - 1) EmptyString s'
          else split_from sep 0 (acc +:+ String c EmptyString) s'
      end
  end.

Definition split (sep s : string) : list string := split_from sep 0 EmptyString s.

(** [l[-1]] of a list that [split] returned (never empty) *)
Definition last_piece (l : list string) : string := List.last l EmptyString.

(** ['%s' % n] and [int(s)] for a string of decimal digits *)
Definition str_of_int (n : Z) : string := NilZero.string_of_int (Z.to_int n).

Fixpoint int_of_digits (acc : Z) (s : string) : Z :=
  match s with
  | EmptyString => acc
  | String c s' => int_of_digits (10 * acc + Z.of_nat (nat_of_ascii c - 48)) s'
  end.

Definition int (s : string) : Z := int_of_digits 0 s.

(** ['%s' % v] for a value that may be [None] *)
Definition str_of_opt_int (v : option Z) : string :=
  match v with
  | None => "None"
  | Some n => str_of_int n
  end.

(** The exception classes the two modules raise, catch or let through.
    [SystemExit] is what [module.fail_json] raises; it is not an
    [Exception], so [except Exception] does not stop it.  [Diverges] is
    the outcome of a polling loop that was given too little fuel; no
    handler sees it. *)
Inductive exn :=
| OperationFailed (msg : string)   (* bigsuds.OperationFailed *)
| IOError (msg : string)           (* includes iControlUnexpectedHTTPError *)
| F5ModuleError (msg : string)
| AttributeError (msg : string)
| KeyError (msg : string)
| TypeError (msg : string)
| ValueError (msg : string)
| Exception (msg : string)         (* any other subclass of Exception *)
| SystemExit (msg : string)
| Diverges.                        (* no exception: a loop out of fuel *)

(** [str(e)] *)
Definition str_of_exn (e : exn) : string :=
  match e with
  | OperationFailed m | IOError m | F5ModuleError m | AttributeError m
  | KeyError m | TypeError m | ValueError m | Exception m | SystemExit m => m
  | Diverges => EmptyString
  end.

Definition is_Exception (e : exn) : bool :=
  match e with SystemExit _ | Diverges => false | _ => true end.

Inductive result (A : Type) :=
| Ok (a : A)
| Raise (e : exn).
Arguments Ok {A} a.
Arguments Raise {A} e.

(** [repr(s)] of a byte string.  The quote is ['], or the double quote
    when [s] holds a ['] and no double quote; the quote and the backslash
    are escaped, tab, newline and carriage return are written [\t], [\n],
    [\r], and any other byte below the blank or from 127 on is written
    [\xNN]. *)
Definition double_quote : ascii := ascii_of_nat 34.
Definition backslash : ascii := ascii_of_nat 92.

Definition hex_digit (n : nat) : ascii :=
  ascii_of_nat (if Nat.ltb n 10 then 48 + n else 87 + n).

Definition repr_char (quote c : ascii) : string :=
  let n := nat_of_ascii c in
  if Ascii.eqb c quote || Ascii.eqb c backslash then String backslash (String c "")
  else if Nat.eqb n 9 then String backslash "t"
  else if Nat.eqb n 10 then String backslash "n"
  else if Nat.eqb n 13 then String backslash "r"
  else if Nat.ltb n 32 || Nat.leb 127 n then
    String backslash
      (String "x" (String (hex_digit (n / 16)) (String (hex_digit (n mod 16)) "")))
  else String c "".

Fixpoint repr_chars (quote : ascii) (s : string) : string :=
  match s with
  | EmptyString => EmptyString
  | String c s' => repr_char quote c +:+ repr_chars quote s'
  end.

Definition repr (s : string) : string :=
  let quote :=
    if contains "'" s && negb (contains (String double_quote "") s)
    then double_quote else "'"%char in
  String quote (repr_chars quote s +:+ String quote "").

(** [s.isdigit()]: [s] is not empty and holds decimal digits only. *)
Fixpoint all_digits (s : string) : bool :=
  match s with
  | EmptyString => true
  | String c s' => isdigit c && all_digits s'
  end.
Definition str_isdigit (s : string) : bool :=
  negb (String.eqb s "") && all_digits s.

(** [int(s)] for a byte string [s]: the blanks on both sides are dropped,
    then an optional sign and at least one decimal digit must be all that is
    left; any other string raises [ValueError]. *)
Definition int_of_str (s : string) : result Z :=
  let invalid :=
    Raise (ValueError ("invalid literal for int() with base 10: " +:+ repr s)) in
  match strip s with
  | String "-" digits => if str_isdigit digits then Ok (- int digits)%Z else invalid
  | String "+" digits => if str_isdigit digits then Ok (int digits) else invalid
  | digits => if str_isdigit digits then Ok (int digits) else invalid
  end.

End Py.
Export Py.


(** ** The state-and-exception monad

    Python code that reads and writes mutable state and may raise: a function
    from the state to an outcome and the state left behind.  The state
    survives a raise, so what was done before the exception stays done. *)

Module Effect.

Section Monad.
Context {W : Type}.

Definition M (A : Type) : Type := W -> result A * W.

Definition ret {A} (a : A) : M A := fun w => (Ok a, w).

Definition bind {A B} (m : M A) (k : A -> M B) : M B :=
  fun w =>
    match m w with
    | (Ok a, w') => k a w'
    | (Raise e, w') => (Raise e, w')
    end.

(** [raise e] *)
Definition raise {A} (e : exn) : M A := fun w => (Raise e, w).

(** [try: body except <class> as e: handler(e)], the class given as a
    predicate on exceptions. *)
Definition try_except {A} (body : M A) (catches : exn -> bool)
    (handler : exn -> M A) : M A :=
  fun w =>
    match body w with
    | (Ok a, w') => (Ok a, w')
    | (Raise e, w') => if catches e then handler e w' else (Raise e, w')
    end.

(** A pure computation that may raise. *)
Definition lift {A} (r : result A) : M A := fun w => (r, w).

Definition get_state : M W := fun w => (Ok w, w).
Definition modify_state (f : W -> W) : M unit := fun w => (Ok tt, f w).
End Monad.

(** Run code written against a part [V] of the state on the whole [W]. *)
Definition zoom {W V A} (part : W -> V) (set_part : V -> W -> W)
    (m : V -> result A * V) : W -> result A * W :=
  fun w => let (r, v') := m (part w) in (r, set_part v' w).

Arguments M : clear implicits.

#[global] Instance M_ret W : MRet (M W) := @ret W.
#[global] Instance M_bind W : MBind (M W) := fun A B k m => bind m k.
#[global] Instance M_fmap W : FMap (M W) :=
  fun A B f m => bind m (fun a => ret (f a)).

Section World.
Context {D C : Type}.

(** [D]: device states; [C]: mutating calls.  The world of device code
    is the device state and the log of the mutating calls issued. *)
Record world := World { dev : D; log : list C }.

(** A query: answered from the device state, which it leaves alone. *)
Definition observe {A} (q : D -> result A) : M world A :=
  fun w => (q (dev w), w).

(** A mutating call: logged when issued, then answered by the device,
    which moves to a new state whether the call succeeds or fails. *)
Definition mutate {A} (c : C) (f : D -> result A * D) : M world A :=
  fun w =>
    let (r, d') := f (dev w) in
    (r, World d' (log w ++ [c])).
End World.

Arguments world : clear implicits.
Arguments World {D C} dev log.

Definition catch_OperationFailed (e : exn) : bool :=
  match e with OperationFailed _ => true | _ => false end.
Definition catch_IOError (e : exn) : bool :=
  match e with IOError _ => true | _ => false end.
Definition catch_AttributeError (e : exn) : bool :=
  match e with AttributeError _ => true | _ => false end.
Definition catch_F5ModuleError (e : exn) : bool :=
  match e with F5ModuleError _ => true | _ => false end.
Definition catch_Exception : exn -> bool := is_Exception.

End Effect.
Export Effect.

(** ** [library/_bigip_virtual_server.py] *)

Module VirtualServer.

(** *** The iControl SOAP interface (bigsuds), as the module uses it

    Every [LocalLB.VirtualServer.get_*] call is made for the one virtual
    server and indexed with [[0]]; a query stands for that element. *)

Record profile := Profile { profile_context : string; profile_name : string }.
Record rule := Rule { priority : Z; rule_name : string }.
Record vlan_filter := VlanFilter { vlan_state : string; vlans : list string }.
Record address_port := AddressPort { address : string; port : Z }.
Record persistence_profile :=
  PersistenceProfile { pp_profile_name : string; default_profile : bool }.

#[global] Instance profile_eq_dec : EqDecision profile.
Proof. solve_decision. Defined.
#[global] Instance rule_eq_dec : EqDecision rule.
Proof. solve_decision. Defined.

Module API.
Inductive query : Type -> Type :=
| get_object_status (vs : string) : query unit
| get_rule (vs : string) : query (list rule)
| get_profile (vs : string) : query (list profile)
| get_content_policy (vs : string) : query (list string)
| get_vlan (vs : string) : query vlan_filter
| get_source_address_translation_type (vs : string) : query string
| get_source_address_translation_snat_pool (vs : string) : query string
| get_default_pool_name (vs : string) : query string
| get_destination_v2 (vs : string) : query address_port
| get_enabled_state (vs : string) : query string
| get_description (vs : string) : query string
| get_persistence_profile (vs : string) : query (list persistence_profile)
| get_fallback_persistence_profile (vs : string) : query string
| get_route_advertisement_state (virtual_address : option string) : query (list string).

Inductive call :=
| create (name destination : string) (port : Z) (protocol wildmask : string)
    (resource_type : string) (default_pool_name : option string)
    (profiles : list profile)
| delete_virtual_server (vs : string)
| remove_rule (vs : string) (rules : list rule)
| add_rule (vs : string) (rules : list rule)
| remove_profile (vs : string) (profiles : list profile)
| add_profile (vs : string) (profiles : list profile)
| remove_content_policy (vs : string) (policies : list string)
| add_content_policy (vs : string) (policies : list string)
| set_vlan (vs : string) (state : string) (vlans : list (list string))
| set_source_address_translation_none (vs : string)
| set_source_address_translation_automap (vs : string)
| set_source_address_translation_snat_pool (vs : string) (pool : string)
| set_default_pool_name (vs : string) (pool : string)
| set_destination_v2 (vs : string) (destination : address_port)
| set_enabled_state (vs : string) (state : string)
| set_description (vs : string) (description : string)
| remove_persistence_profile (vs : string) (p : persistence_profile)
| add_persistence_profile (vs : string) (p : persistence_profile)
| set_fallback_persistence_profile (vs : string) (profile_name : string)
| set_route_advertisement_state (virtual_address : option string) (state : string)
| start_transaction
| submit_transaction.

Record bigsuds (D : Type) := BigSuds {
  ask : forall A, query A -> D -> result A;
  tell : call -> D -> result unit * D
}.
Arguments ask {D} _ {A} _ _.
Arguments tell {D} _ _ _.
End API.

(** Modelled from the spec: [fq_name] and [fq_list_names] of
    [ansible.module_utils.f5_utils], which the sources import but do not
    contain.  A reference that does not begin with the partition delimiter
    is prefixed with [/<partition>/]; [None] stays [None]. *)
Definition fq_name (partition : string) (name : option string) : option string :=
  match name with
  | None => None
  | Some n =>
      if startswith "/" n then Some n
      else Some ("/" +:+ partition +:+ "/" +:+ n)
  end.

Definition fq_list_names (partition : string) (list_names : option (list string))
    : option (list string) :=
  match list_names with
  | None => None
  | Some l =>
      Some (map (fun x => default x (fq_name partition (Some x))) l)
  end.

(** [STATES] *)
Definition STATES (state : string) : option string :=
  if String.eqb state "enabled" then Some "STATE_ENABLED"
  else if String.eqb state "disabled" then Some "STATE_DISABLED"
  else None.

Definition PROFILE_CONTEXT_TYPE_ALL : string := "PROFILE_CONTEXT_TYPE_ALL".

(** [list(enumerate(l))] *)
Definition enumerate (l : list string) : list (Z * string) :=
  imap (fun i x => (Z.of_nat i, x)) l.

(** Python 2 orders [None] below every integer. *)
Definition int_gt_opt (a : Z) (b : option Z) : bool :=
  match b with None => true | Some b => (a >? b)%Z end.
Definition opt_gt_int (a : option Z) (b : Z) : bool :=
  match a with None => false | Some a => (a >? b)%Z end.

Section Module.
Context {D : Type} (api : API.bigsuds D).

(** [a is "LITERAL"]: object identity between a string the device
    returned and a literal of the module.  Identity is not a function of
    the characters, so it is a parameter: it may answer [false] on equal
    strings, and does so for every string object bigsuds builds from a
    SOAP response. *)
Variable str_is : string -> string -> bool.

Local Abbreviation M := (Effect.M (world D API.call)).

Definition get {A} (q : API.query A) : M A := observe (API.ask api q).
Definition send (c : API.call) : M unit := mutate c (API.tell api c).

Definition vs_exists (vs : string) : M bool :=
  try_except
    (get (API.get_object_status vs);; mret true)
    catch_OperationFailed
    (fun e =>
       if contains "was not found" (str_of_exn e) then mret false
       else raise e).

(** The call [vs_create] makes: protocol TCP, a host wildmask, the pool as
    default pool, and the profiles given or else [tcp]. *)
Definition create_call (name destination : string) (port : Z)
    (pool : option string) (profiles : option (list string)) : API.call :=
  let _profiles :=
    if truthy_list profiles
    then map (fun profile => Profile PROFILE_CONTEXT_TYPE_ALL profile)
             (default [] profiles)
    else [Profile PROFILE_CONTEXT_TYPE_ALL "tcp"] in
  API.create name destination port "PROTOCOL_TCP" "255.255.255.255"
    "RESOURCE_TYPE_POOL" pool _profiles.

Definition vs_create (name destination : string) (port : Z)
    (pool : option string) (profiles : option (list string)) : M bool :=
  try_except
    (send (create_call name destination port pool profiles);;
     mret true)
    catch_OperationFailed
    (fun e => raise (Exception ("Error on creating Virtual Server : " +:+ str_of_exn e))).

Definition vs_remove (name : string) : M unit :=
  send (API.delete_virtual_server name).

Definition get_rules (name : string) : M (list rule) := get (API.get_rule name).

Definition set_rules (name : string) (rules_list : option (list string)) : M bool :=
  match rules_list with
  | None => mret false
  | Some rules_list =>
      let rules_list := enumerate rules_list in
      try_except
        (rs ← get_rules name;
         let current_rules := map (fun x => (priority x, rule_name x)) rs in
         let to_add_rules :=
           map (fun '(i, x) => Rule i x)
               (List.filter (fun ix => negb (bool_decide (ix ∈ current_rules))) rules_list) in
         let to_del_rules :=
           map (fun '(i, x) => Rule i x)
               (List.filter (fun ix => negb (bool_decide (ix ∈ rules_list))) current_rules) in
         updated ←
           (if nonempty to_del_rules
            then send (API.remove_rule name to_del_rules);; mret true
            else mret false);
         updated ←
           (if nonempty to_add_rules
            then send (API.add_rule name to_add_rules);; mret true
            else mret updated);
         mret updated)
        catch_OperationFailed
        (fun e => raise (Exception ("Error on setting rules : " +:+ str_of_exn e)))
  end.

Definition get_profiles (name : string) : M (list profile) := get (API.get_profile name).

(** The two loops of [set_profiles]. *)
Definition to_add_profiles (profiles_list current_profiles : list string) : list profile :=
  map (fun x => Profile PROFILE_CONTEXT_TYPE_ALL x)
      (List.filter (fun x => negb (mem x current_profiles)) profiles_list).

Definition to_del_profiles (profiles_list current_profiles : list string) : list profile :=
  map (fun x => Profile PROFILE_CONTEXT_TYPE_ALL x)
      (List.filter
         (fun x => negb (mem x profiles_list) && negb (String.eqb x "/Common/tcp"))
         current_profiles).

Definition set_profiles (name : string) (profiles_list : option (list string)) : M bool :=
  try_except
    (match profiles_list with
     | None => mret false
     | Some profiles_list =>
         ps ← get_profiles name;
         let current_profiles := map profile_name ps in
         let to_add := to_add_profiles profiles_list current_profiles in
         let to_del := to_del_profiles profiles_list current_profiles in
         updated ←
           (if nonempty to_del
            then send (API.remove_profile name to_del);; mret true
            else mret false);
         updated ←
           (if nonempty to_add
            then send (API.add_profile name to_add);; mret true
            else mret updated);
         ps ← get_profiles name;
         let current_profiles := map profile_name ps in
         if Nat.eqb (length current_profiles) 0
         then raise (F5ModuleError "Virtual servers must has at least one profile")
         else mret updated
     end)
    catch_OperationFailed
    (fun e => raise (Exception ("Error on setting profiles : " +:+ str_of_exn e))).

Definition get_policies (name : string) : M (list string) :=
  get (API.get_content_policy name).

(** The two loops of [set_policies]. *)
Definition to_add_policies (policies_list current_policies : list string) : list string :=
  List.filter (fun x => negb (mem x current_policies)) policies_list.

Definition to_del_policies (policies_list current_policies : list string) : list string :=
  List.filter (fun x => negb (mem x policies_list)) current_policies.

Definition set_policies (name : string) (policies_list : option (list string)) : M bool :=
  try_except
    (match policies_list with
     | None => mret false
     | Some policies_list =>
         current_policies ← get_policies name;
         let to_add := to_add_policies policies_list current_policies in
         let to_del := to_del_policies policies_list current_policies in
         updated ←
           (if nonempty to_del
            then send (API.remove_content_policy name to_del);; mret true
            else mret false);
         updated ←
           (if nonempty to_add
            then send (API.add_content_policy name to_add);; mret true
            else mret updated);
         mret updated
     end)
    catch_OperationFailed
    (fun e => raise (Exception ("Error on setting policies : " +:+ str_of_exn e))).

Definition get_vlan (name : string) : M vlan_filter := get (API.get_vlan name).

Definition set_enabled_vlans (name : string) (vlans_enabled_list : option (list string))
    : M bool :=
  try_except
    (match vlans_enabled_list with
     | None => mret false
     | Some vlans_enabled_list =>
         current_vlans ← get_vlan name;
         if mem "ALL" vlans_enabled_list then
           if nonempty (vlans current_vlans)
              || str_is (vlan_state current_vlans) "STATE_ENABLED"
           then send (API.set_vlan name "STATE_DISABLED" []);; mret true
           else mret false
         else
           let '(updated, to_add_vlans) :=
             if str_is (vlan_state current_vlans) "STATE_DISABLED"
             then (false, vlans_enabled_list)
             else if existsb (fun vlan => negb (mem vlan (vlans current_vlans)))
                             vlans_enabled_list
                  then (true, vlans_enabled_list)
                  else (false, []) in
           if updated
           then send (API.set_vlan name "STATE_ENABLED" [to_add_vlans]);; mret updated
           else mret updated
     end)
    catch_OperationFailed
    (fun e => raise (Exception ("Error on setting enabled vlans : " +:+ str_of_exn e))).

Definition get_snat_type (name : string) : M string :=
  get (API.get_source_address_translation_type name).

Definition get_snat_pool (name : string) : M string :=
  get (API.get_source_address_translation_snat_pool name).

Definition snat_settings_need_updating (snat current_state current_snat_pool : string)
    : bool :=
  if String.eqb snat "None" || String.eqb snat "Automap" then false
  else if truthy_str (Some snat) && negb (String.eqb current_state "SRC_TRANS_SNATPOOL")
  then true
  else if truthy_str (Some snat) && String.eqb current_state "SRC_TRANS_SNATPOOL"
          && negb (String.eqb current_snat_pool snat)
  then true
  else false.

Definition set_snat (name : string) (snat : option string) : M bool :=
  try_except
    (current_state ← get_snat_type name;
     current_snat_pool ← get_snat_pool name;
     match snat with
     | None => mret false
     | Some snat =>
         if String.eqb snat "None" && negb (String.eqb current_state "SRC_TRANS_NONE")
         then send (API.set_source_address_translation_none name);; mret true
         else if String.eqb snat "Automap"
                 && negb (String.eqb current_state "SRC_TRANS_AUTOMAP")
         then send (API.set_source_address_translation_automap name);; mret true
         else if snat_settings_need_updating snat current_state current_snat_pool
         then send (API.set_source_address_translation_snat_pool name snat);; mret false
         else mret false
     end)
    catch_OperationFailed
    (fun e => raise (Exception ("Error on setting snat : " +:+ str_of_exn e))).

Definition get_pool (name : string) : M string := get (API.get_default_pool_name name).

Definition set_pool (name : string) (pool : option string) : M bool :=
  try_except
    (current_pool ← get_pool name;
     match pool with
     | Some pool =>
         if negb (String.eqb pool current_pool)
         then send (API.set_default_pool_name name pool);; mret true
         else mret false
     | None => mret false
     end)
    catch_OperationFailed
    (fun e => raise (Exception ("Error on setting pool : " +:+ str_of_exn e))).

Definition get_destination (name : string) : M address_port :=
  get (API.get_destination_v2 name).

Definition set_destination (name : string) (destination : option string) : M bool :=
  try_except
    (current_destination ← get_destination name;
     match destination with
     | Some destination =>
         if negb (String.eqb destination (address current_destination))
         then send (API.set_destination_v2 name
                      (AddressPort destination (port current_destination)));;
              mret true
         else mret false
     | None => mret false
     end)
    catch_OperationFailed
    (fun e => raise (Exception ("Error on setting destination : " +:+ str_of_exn e))).

Definition set_port (name : string) (port_ : option Z) : M bool :=
  try_except
    (current_destination ← get_destination name;
     match port_ with
     | Some p =>
         if negb (Z.eqb p (port current_destination))
         then send (API.set_destination_v2 name
                      (AddressPort (address current_destination) p));;
              mret true
         else mret false
     | None => mret false
     end)
    catch_OperationFailed
    (fun e => raise (Exception ("Error on setting port : " +:+ str_of_exn e))).

Definition get_state (name : string) : M string := get (API.get_enabled_state name).

Definition set_state (name : string) (state : string) : M bool :=
  try_except
    (current_state ← get_state name;
     let state := if String.eqb state "present" then "enabled" else state in
     match STATES state with
     | None => raise (KeyError state)
     | Some s =>
         if negb (String.eqb s current_state)
         then send (API.set_enabled_state name s);; mret true
         else mret false
     end)
    catch_OperationFailed
    (fun e => raise (Exception ("Error on setting state : " +:+ str_of_exn e))).

Definition get_description (name : string) : M string := get (API.get_description name).

Definition set_description (name : string) (description : option string) : M bool :=
  try_except
    (current_description ← get_description name;
     match description with
     | Some description =>
         if negb (String.eqb current_description description)
         then send (API.set_description name description);; mret true
         else mret false
     | None => mret false
     end)
    catch_OperationFailed
    (fun e => raise (Exception ("Error on setting description : " +:+ str_of_exn e +:+ " "))).

Definition get_persistence_profiles (name : string) : M (list persistence_profile) :=
  get (API.get_persistence_profile name).

Definition set_default_persistence_profiles (name : string)
    (persistence_profile : option string) : M bool :=
  match persistence_profile with
  | None => mret false
  | Some persistence_profile =>
      try_except
        (current_persistence_profiles ← get_persistence_profiles name;
         let default_ :=
           pp_profile_name <$> List.find default_profile current_persistence_profiles in
         (match default_ with
          | Some d =>
              if negb (String.eqb d persistence_profile)
              then send (API.remove_persistence_profile name (PersistenceProfile d true))
              else mret tt
          | None => mret tt
          end);;
         if negb (bool_decide (default_ = Some persistence_profile))
         then send (API.add_persistence_profile name
                      (PersistenceProfile persistence_profile true));;
              mret true
         else mret false)
        catch_OperationFailed
        (fun e => raise (Exception
           ("Error on setting default persistence profile : " +:+ str_of_exn e)))
  end.

Definition get_fallback_persistence_profile (name : string) : M string :=
  get (API.get_fallback_persistence_profile name).

Definition set_fallback_persistence_profile (partition name : string)
    (persistence_profile : option string) : M bool :=
  match persistence_profile with
  | None => mret false
  | Some persistence_profile =>
      try_except
        (let persistence_profile :=
           if negb (String.eqb persistence_profile "")
           then default persistence_profile (fq_name partition (Some persistence_profile))
           else persistence_profile in
         current_fallback_profile ← get_fallback_persistence_profile name;
         if negb (String.eqb current_fallback_profile persistence_profile)
         then send (API.set_fallback_persistence_profile name persistence_profile);;
              mret true
         else mret false)
        catch_OperationFailed
        (fun e => raise (Exception
           ("Error on setting fallback persistence profile : " +:+ str_of_exn e)))
  end.

Definition get_route_advertisement_status (address_ : option string)
    : M (option string) :=
  results ← get (API.get_route_advertisement_state address_);
  match results with
  | [] => mret None
  | result :: _ => mret (Some (lower (last_piece (split "STATE_" result))))
  end.

Definition set_route_advertisement_state (destination : option string)
    (partition : string) (route_advertisement_state : option string) : M bool :=
  match route_advertisement_state with
  | None => mret false
  | Some route_advertisement_state =>
      try_except
        (let state := "STATE_" +:+ upper (strip route_advertisement_state) in
         let address_ := fq_name partition destination in
         current_route_advertisement_state ← get_route_advertisement_status address_;
         if negb (bool_decide
                    (current_route_advertisement_state = Some route_advertisement_state))
         then send (API.set_route_advertisement_state address_ state);; mret true
         else mret false)
        catch_OperationFailed
        (fun e => raise (Exception ("Error on setting profiles : " +:+ str_of_exn e)))
  end.

(** The arguments as [main] holds them once it has read [module.params]
    (source 697-725), plus [module.check_mode].  [p_port] is the port after
    [int(port)] ([None] for a missing or empty one). *)
Record params := Params {
  p_state : string;
  p_partition : string;
  p_name : string;
  p_destination : option string;
  p_port : option Z;
  p_all_policies : option (list string);
  p_all_profiles : option (list string);
  p_all_rules : option (list string);
  p_enabled_vlans : option (list string);
  p_pool : option string;
  p_description : option string;
  p_snat : option string;
  p_route_advertisement_state : option string;
  p_default_persistence_profile : option string;
  p_fallback_persistence_profile : option string;
  check_mode : bool
}.

(** [name = fq_name(partition, module.params['name'])] *)
Definition vs_name (module : params) : string :=
  default (p_name module) (fq_name (p_partition module) (Some (p_name module))).

(** The [result] dictionary handed to [module.exit_json]. *)
Record result_dict := Result { changed : bool; deleted : option string }.

(** [module.fail_json(msg=...)] *)
Definition fail_json {A} (msg : string) : M A := raise (SystemExit msg).

(** The [try:] block of [main], with its handler. *)
Definition main_try (module : params) : M result_dict :=
  let state := p_state module in
  let partition := p_partition module in
  let name := vs_name module in
  let destination := p_destination module in
  let port := p_port module in
  let all_profiles := fq_list_names partition (p_all_profiles module) in
  let all_policies := fq_list_names partition (p_all_policies module) in
  let all_rules := fq_list_names partition (p_all_rules module) in
  let enabled_vlans := p_enabled_vlans module in
  let all_enabled_vlans :=
    match enabled_vlans with
    | None => None
    | Some l => if mem "ALL" l then Some l else fq_list_names partition (Some l)
    end in
  let pool := fq_name partition (p_pool module) in
  let description := p_description module in
  let snat := p_snat module in
  let route_advertisement_state := p_route_advertisement_state module in
  let default_persistence_profile :=
    fq_name partition (p_default_persistence_profile module) in
  let fallback_persistence_profile := p_fallback_persistence_profile module in
  try_except
    (if String.eqb state "absent" then
       if negb (check_mode module) then
         e ← vs_exists name;
         if (e : bool) then
           try_except
             (vs_remove name;; mret (Result true (Some name)))
             catch_OperationFailed
             (fun e =>
                if contains "was not found" (str_of_exn e)
                then mret (Result false None)
                else raise e)
         else mret (Result false None)
       else mret (Result true None)
     else
       e ← vs_exists name;
       if negb (e : bool) then
         match (if truthy_str destination then destination else None), port with
         | Some destination_, Some port_ =>
             if negb (check_mode module) then
               try_except
                 (vs_create name destination_ port_ pool all_profiles;;
                  set_policies name all_policies;;
                  set_enabled_vlans name all_enabled_vlans;;
                  set_rules name all_rules;;
                  set_snat name snat;;
                  set_description name description;;
                  set_default_persistence_profiles name default_persistence_profile;;
                  set_fallback_persistence_profile partition name
                    fallback_persistence_profile;;
                  set_state name state;;
                  set_route_advertisement_state destination partition
                    route_advertisement_state;;
                  mret (Result true None))
                 catch_OperationFailed
                 (fun e => raise (Exception
                    ("Error on creating Virtual Server : " +:+ str_of_exn e)))
             else mret (Result true None)
         | _, _ => fail_json "both destination and port must be supplied to create a VS"
         end
       else
         if negb (check_mode module) then
           try_except
             (send API.start_transaction;;
              c ← set_destination name (fq_name partition destination);
              c ← orb c <$> set_port name port;
              c ← orb c <$> set_pool name pool;
              c ← orb c <$> set_description name description;
              c ← orb c <$> set_snat name snat;
              c ← orb c <$> set_profiles name all_profiles;
              c ← orb c <$> set_policies name all_policies;
              c ← orb c <$> set_enabled_vlans name all_enabled_vlans;
              c ← orb c <$> set_rules name all_rules;
              c ← orb c <$> set_default_persistence_profiles name
                              default_persistence_profile;
              c ← orb c <$> set_fallback_persistence_profile partition name
                              fallback_persistence_profile;
              c ← orb c <$> set_state name state;
              c ← orb c <$> set_route_advertisement_state destination partition
                              route_advertisement_state;
              send API.submit_transaction;;
              mret (Result c None))
             catch_Exception
             (fun e => raise (Exception
                ("Error on updating Virtual Server : " +:+ str_of_exn e)))
         else mret (Result true None))
    catch_Exception
    (fun e => fail_json ("received exception: " +:+ str_of_exn e)).

(** [0 > port > 65535], a chained comparison: [0 > port and port > 65535] *)
Definition port_out_of_range (port : option Z) : bool :=
  int_gt_opt 0 port && opt_gt_int port 65535.

(** [module.params] as [AnsibleModule] hands them to [main], plus
    [module.check_mode].  [port] is declared [type='str']: [m_port] is the
    string given, or [None]. *)
Record module_params := ModuleParams {
  m_state : string;
  m_partition : string;
  m_name : string;
  m_destination : option string;
  m_port : option string;
  m_all_policies : option (list string);
  m_all_profiles : option (list string);
  m_all_rules : option (list string);
  m_enabled_vlans : option (list string);
  m_pool : option string;
  m_description : option string;
  m_snat : option string;
  m_route_advertisement_state : option string;
  m_default_persistence_profile : option string;
  m_fallback_persistence_profile : option string;
  m_check_mode : bool
}.

(** [port = module.params['port']] and the conversion that follows it
    (source 707-711): [None] for a missing or empty port, else [int(port)],
    which raises [ValueError] on a string that is not an integer.  The
    statement stands before the [try:] of [main]. *)
Definition read_port (port : option string) : result (option Z) :=
  match port with
  | None => Ok None
  | Some s =>
      if String.eqb s "" then Ok None
      else match int_of_str s with
           | Ok n => Ok (Some n)
           | Raise e => Raise e
           end
  end.

(** [main], on a host where bigsuds is installed and, when certificates
    are to be validated, [ssl] has [SSLContext] (the two tests of source
    689-695 then pass): the arguments are read and the port converted, the
    port is checked, and the [try:] block runs.  [Ok r] is
    [module.exit_json] on [r], [Raise (SystemExit msg)] is
    [module.fail_json(msg=msg)]; any other [Raise] is an exception that
    leaves [main]. *)
Definition main (module : module_params) : M result_dict :=
  port ← lift (read_port (m_port module));
  (if port_out_of_range port
   then fail_json "valid ports must be in range 0 - 65535"
   else mret tt);;
  main_try
    {| p_state := m_state module; p_partition := m_partition module;
       p_name := m_name module; p_destination := m_destination module;
       p_port := port; p_all_policies := m_all_policies module;
       p_all_profiles := m_all_profiles module; p_all_rules := m_all_rules module;
       p_enabled_vlans := m_enabled_vlans module; p_pool := m_pool module;
       p_description := m_description module; p_snat := m_snat module;
       p_route_advertisement_state := m_route_advertisement_state module;
       p_default_persistence_profile := m_default_persistence_profile module;
       p_fallback_persistence_profile := m_fallback_persistence_profile module;
       check_mode := m_check_mode module |}.

(** [module.params] for a task whose port is an integer (or missing):
    [type='str'] hands the integer over as its decimal string. *)
Definition arguments (module : params) : module_params :=
  {| m_state := p_state module; m_partition := p_partition module;
     m_name := p_name module; m_destination := p_destination module;
     m_port := str_of_int <$> p_port module;
     m_all_policies := p_all_policies module;
     m_all_profiles := p_all_profiles module; m_all_rules := p_all_rules module;
     m_enabled_vlans := p_enabled_vlans module; m_pool := p_pool module;
     m_description := p_description module; m_snat := p_snat module;
     m_route_advertisement_state := p_route_advertisement_state module;
     m_default_persistence_profile := p_default_persistence_profile module;
     m_fallback_persistence_profile := p_fallback_persistence_profile module;
     m_check_mode := check_mode module |}.

(** A run of [main] on the device state [d], for the task [module]. *)
Definition run_main (module : params) (d : D)
    : result result_dict * world D API.call :=
  main (arguments module) (World d []).

End Module.
End VirtualServer.

(** ** The two regular expressions of [bigip_node.py]

    Both patterns are sequences of literals and greedy character-class
    repetitions in which no class can match the character that follows its
    repetition, so a match attempt at a position has one way to succeed: each
    repetition takes the longest run. *)

Module Re.

(** Every character of [s] satisfies [p]. *)
Fixpoint all_chars (p : ascii -> bool) (s : string) : bool :=
  match s with
  | EmptyString => true
  | String c s' => p c && all_chars p s'
  end.

(** The longest prefix of [s] whose characters satisfy [p], and the rest. *)
Fixpoint span (p : ascii -> bool) (s : string) : string * string :=
  match s with
  | EmptyString => (EmptyString, EmptyString)
  | String c s' =>
      if p c then let (a, b) := span p s' in (String c a, b)
      else (EmptyString, s)
  end.

(** [s] without its prefix [p], when it has it. *)
Fixpoint drop_prefix (p s : string) : option string :=
  match p, s with
  | EmptyString, _ => Some s
  | String a p', String b s' => if Ascii.eqb a b then drop_prefix p' s' else None
  | String _ _, EmptyString => None
  end.

(** One or more characters of the class [p] at the head of [s]. *)
Definition plus (p : ascii -> bool) (s : string) : option (string * string) :=
  match span p s with
  | (EmptyString, _) => None
  | (a, b) => Some (a, b)
  end.

(** [[^\s}]] *)
Definition not_space_or_brace (c : ascii) : bool :=
  negb (isspace c) && negb (Ascii.eqb c "}"%char).

(** A match of [/\w+/[^\s}]+] starting at the head of [s]. *)
Definition match_monitor_at (s : string) : option string :=
  r1 ← drop_prefix "/" s;
  '(w, r2) ← plus isword r1;
  r3 ← drop_prefix "/" r2;
  '(n, _) ← plus not_space_or_brace r3;
  Some ("/" +:+ w +:+ "/" +:+ n).

(** [re.findall(r'/\w+/[^\s}]+', s)]: the matches from left to right,
    each search resuming where the previous match ended.  [skip] counts
    the characters of the last match still to be passed over. *)
Fixpoint findall_from (skip : nat) (s : string) : list string :=
  match s with
  | EmptyString => []
  | String _ s' =>
      match skip with
      | S k => findall_from k s'
      | O =>
          match match_monitor_at s with
          | Some m => m :: findall_from (String.length m - 1) s'
          | None => findall_from 0 s'
          end
      end
  end.

Definition findall_monitors (s : string) : list string := findall_from 0 s.

(** A match of [min\s+(?P<quorum>\d+)\s+of] starting at the head of [s]:
    the text of the group. *)
Definition match_quorum_at (s : string) : option string :=
  r1 ← drop_prefix "min" s;
  '(_, r2) ← plus isspace r1;
  '(q, r3) ← plus isdigit r2;
  '(_, r4) ← plus isspace r3;
  _ ← drop_prefix "of" r4;
  Some q.

(** The classes of the characters that are no [/] and no blank. *)
Definition not_slash (c : ascii) : bool := negb (Ascii.eqb c "/"%char).
Definition not_space (c : ascii) : bool := negb (isspace c).

(** The first character of [s] is of the class [p]. *)
Definition head_is (p : ascii -> bool) (s : string) : bool :=
  match s with
  | EmptyString => false
  | String c _ => p c
  end.

(** Somewhere in [s] a blank is followed by a digit, as it is inside
    every match of the quorum pattern. *)
Fixpoint blank_then_digit (s : string) : bool :=
  match s with
  | EmptyString => false
  | String c s' => (isspace c && head_is isdigit s') || blank_then_digit s'
  end.

(** [re.search(r'min\s+(?P<quorum>\d+)\s+of', s)]: the leftmost match. *)
Fixpoint search_quorum (s : string) : option string :=
  match match_quorum_at s with
  | Some q => Some q
  | None =>
      match s with
      | EmptyString => None
      | String _ s' => search_quorum s'
      end
  end.

End Re.


(** ** [library/bigip_node.py] *)

Module Node.

(** *** [Parameters]

    [self._values], a [defaultdict] whose missing keys read [None], as a
    record of optional fields, one per key the module reads or writes.
    Module parameters arrive typed by [ArgumentSpec] ([quorum] an integer,
    [monitors] a list); the attributes of a node read from the device
    arrive as the REST API types them ([monitor] a string, stored under
    the key [monitors] by [api_map]). *)

Inductive monitors_value :=
| MonitorsStr (s : string)
| MonitorsList (l : list string).

Inductive fqdn_value :=
| FqdnName (tmName : string)
| FqdnAttrs (attrs : list (string * string))
| FqdnDict (addressFamily autopopulate : string) (downInterval : Z)
    (tmName : fqdn_value).

#[global] Instance monitors_value_eq_dec : EqDecision monitors_value.
Proof. solve_decision. Defined.

(** [partition] holds the value of the property [partition] of the base
    class [AnsibleF5Parameters] (of [ansible.module_utils.f5_utils], not
    among the sources), taken as given. *)
Record Parameters := {
  kind : option string;
  name : option string;
  partition : string;
  address : option string;
  v_fqdn : option fqdn_value;
  description : option string;
  v_monitor_type : option string;
  v_quorum : option Z;
  v_monitors : option monitors_value;
  state : option string;
  session : option string;
  is_offline : option bool
}.

(** [Parameters()] with no argument but the partition. *)
Definition empty (partition : string) : Parameters :=
  {| kind := None; name := None; partition := partition; address := None;
     v_fqdn := None; description := None; v_monitor_type := None;
     v_quorum := None; v_monitors := None; state := None; session := None;
     is_offline := None |}.

(** [update(dict(key=value))], one key at a time.  None of the keys has a
    property with a setter, so each lands in [_values]. *)
Definition update_monitor_type (v : option string) (p : Parameters) : Parameters :=
  {| kind := kind p; name := name p; partition := partition p; address := address p;
     v_fqdn := v_fqdn p; description := description p; v_monitor_type := v;
     v_quorum := v_quorum p; v_monitors := v_monitors p; state := state p;
     session := session p; is_offline := is_offline p |}.

Definition update_quorum (v : option Z) (p : Parameters) : Parameters :=
  {| kind := kind p; name := name p; partition := partition p; address := address p;
     v_fqdn := v_fqdn p; description := description p;
     v_monitor_type := v_monitor_type p; v_quorum := v;
     v_monitors := v_monitors p; state := state p;
     session := session p; is_offline := is_offline p |}.

Definition update_address (v : option string) (p : Parameters) : Parameters :=
  {| kind := kind p; name := name p; partition := partition p; address := v;
     v_fqdn := v_fqdn p; description := description p;
     v_monitor_type := v_monitor_type p; v_quorum := v_quorum p;
     v_monitors := v_monitors p; state := state p;
     session := session p; is_offline := is_offline p |}.

Definition update_session_state (session_ state_ : option string)
    (offline : option bool) (p : Parameters) : Parameters :=
  {| kind := kind p; name := name p; partition := partition p; address := address p;
     v_fqdn := v_fqdn p; description := description p;
     v_monitor_type := v_monitor_type p; v_quorum := v_quorum p;
     v_monitors := v_monitors p; state := state_;
     session := session_; is_offline := offline |}.

Definition node_kind : string := "tm:ltm:node:nodestate".
Definition pool_kind : string := "tm:ltm:pool:poolstate".

Definition _fqdn_name (p : Parameters) (value : string) : string :=
  if negb (startswith "/" value)
  then "/" +:+ partition p +:+ "/" +:+ value
  else value.

(** [re.findall] raises [TypeError] on a list, which the property
    catches to return the list itself. *)
Definition monitors_list (p : Parameters) : list string :=
  match v_monitors p with
  | None => []
  | Some (MonitorsStr s) => Re.findall_monitors s
  | Some (MonitorsList l) => l
  end.

Definition re_type_error {A} : result A :=
  Raise (TypeError "expected string or buffer").

(** [int(quorum)] is applied to an integer parameter or to the digits the
    pattern matched, so its [ValueError] branch is never entered. *)
Definition quorum (p : Parameters) : result (option Z) :=
  if bool_decide (kind p = Some pool_kind) then
    match v_monitors p with
    | None => Ok None
    | Some (MonitorsList _) => re_type_error
    | Some (MonitorsStr s) => Ok (int <$> Re.search_quorum s)
    end
  else Ok (v_quorum p).

Definition monitor_type (p : Parameters) : result (option string) :=
  if bool_decide (kind p = Some node_kind) then
    match v_monitors p with
    | None => Ok None
    | Some (MonitorsList _) => re_type_error
    | Some (MonitorsStr s) =>
        if bool_decide (is_Some (Re.search_quorum s))
        then Ok (Some "m_of_n") else Ok (Some "and_list")
    end
  else Ok (v_monitor_type p).

Definition bind_result {A B} (r : result A) (k : A -> result B) : result B :=
  match r with
  | Ok a => k a
  | Raise e => Raise e
  end.

Definition monitors (p : Parameters) : result (option string) :=
  match v_monitors p with
  | None => Ok None
  | Some _ =>
      let monitors := map (_fqdn_name p) (monitors_list p) in
      bind_result (monitor_type p) (fun mt =>
        if bool_decide (mt = Some "m_of_n") then
          bind_result (quorum p) (fun q =>
            Ok (Some ("min " +:+ str_of_opt_int q +:+ " of { "
                        +:+ join " " monitors +:+ " }")))
        else Ok (Some (strip (join " and " monitors))))
  end.

Definition fqdn (p : Parameters) : option fqdn_value :=
  match v_fqdn p with
  | None => None
  | Some v => Some (FqdnDict "ipv4" "disabled" 3600 v)
  end.

(** The keyword arguments of [create] and [modify]: the dictionary
    [api_params] builds from [api_attributes].  [_filter_params] (base
    class) drops the entries that are [None]; here a field that is [None]
    is a key that is not sent. *)
Record payload := Payload {
  monitor : option string;
  p_description : option string;
  p_address : option string;
  p_fqdn : option fqdn_value;
  p_session : option string;
  p_state : option string
}.

Definition api_params (p : Parameters) : result payload :=
  bind_result (monitors p) (fun m =>
    Ok (Payload m (description p) (address p) (fqdn p) (session p) (state p))).

(** *** [Difference]

    The properties of [Difference] update [self.want] while they compare,
    so they run in the monad whose state is [want]; [have] is read only. *)

Section Difference.
Variable have : Parameters.

Local Abbreviation W := (M Parameters).

(** [self.want.<property>] *)
Definition self_want {A} (property : Parameters -> result A) : W A :=
  w ← get_state; lift (property w).
Definition self_want_ {A} (attribute : Parameters -> A) : W A :=
  attribute <$> get_state.

Definition Difference_monitor_type : W (option string) :=
  mt ← self_want monitor_type;
  (if bool_decide (mt = None)
   then hmt ← lift (monitor_type have); modify_state (update_monitor_type hmt)
   else mret tt);;
  q ← self_want quorum;
  (if bool_decide (q = None)
   then hq ← lift (quorum have); modify_state (update_quorum hq)
   else mret tt);;
  mt ← self_want monitor_type;
  m_of_n_without_quorum ←
    (if bool_decide (mt = Some "m_of_n")
     then q ← self_want quorum; mret (bool_decide (q = None))
     else mret false);
  (if (m_of_n_without_quorum : bool) then
     raise (F5ModuleError "Quorum value must be specified with monitor_type 'm_of_n'.")
   else if bool_decide (mt = Some "single") then
     wl ← self_want_ monitors_list;
     if Nat.ltb 1 (length wl) then
       raise (F5ModuleError
         "When using a 'monitor_type' of 'single', only one monitor may be provided.")
     else if Nat.ltb 1 (length (monitors_list have)) && Nat.eqb (length wl) 0 then
       raise (F5ModuleError
         "A single monitor must be specified if more than one monitor currently exists on your pool.")
     else modify_state (update_monitor_type (Some "and_list"))
   else mret tt);;
  mt ← self_want monitor_type;
  hmt ← lift (monitor_type have);
  if negb (bool_decide (mt = hmt)) then mret mt else mret None.

(** [self.want.monitors = ...] assigns to a property without a setter:
    Python raises [AttributeError] there. *)
Definition Difference_monitors : W (option string) :=
  mt ← self_want monitor_type;
  (if bool_decide (mt = None)
   then hmt ← lift (monitor_type have); modify_state (update_monitor_type hmt)
   else mret tt);;
  wl ← self_want_ monitors_list;
  (if negb (nonempty wl)
   then raise (AttributeError "can't set attribute")
   else mret tt);;
  wm ← self_want monitors;
  mt ← (if negb (truthy_str wm) then self_want monitor_type else mret None);
  (if negb (truthy_str wm) && negb (bool_decide (mt = None)) then
     raise (F5ModuleError
       "The 'monitors' parameter cannot be empty when 'monitor_type' parameter is specified")
   else mret tt);;
  wm ← self_want monitors;
  hm ← lift (monitors have);
  if negb (bool_decide (wm = hm)) then self_want monitors else mret None.

(** The dictionary [Difference.state] returns: [(session, state)]. *)
Definition Difference_state : W (option (string * string)) :=
  ws ← self_want_ state;
  if bool_decide (ws = Some "present") || bool_decide (ws = Some "enabled") then
    if negb (bool_decide (session have = Some "user-enabled"))
    then mret (Some ("user-enabled", "user-up"))
    else mret None
  else if bool_decide (ws = Some "disabled") then
    if negb (bool_decide (session have = Some "user-disabled"))
       || bool_decide (state have = Some "user-down")
    then mret (Some ("user-disabled", "user-up"))
    else mret None
  else if bool_decide (ws = Some "offline") then
    if negb (bool_decide (state have = Some "user-down"))
    then mret (Some ("user-disabled", "user-down"))
    else mret None
  else mret None.

(** [__default(param)] for [param] a property of [Parameters] with
    values of type [A]: the wanted value when it differs from the
    current one. *)
Definition __default {A} `{EqDecision A} (param : Parameters -> result (option A))
    : W (option A) :=
  attr1 ← self_want param;
  attr2 ← lift (param have);
  if negb (bool_decide (attr1 = attr2)) then mret attr1 else mret None.

(** [compare(param)]: the property of [Difference] when there is one
    and it does not raise [AttributeError], [__default] otherwise. *)
Definition compare_monitor_type : W (option string) :=
  try_except Difference_monitor_type catch_AttributeError
    (fun _ => __default monitor_type).
Definition compare_quorum : W (option Z) := __default quorum.
Definition compare_monitors : W (option string) :=
  try_except Difference_monitors catch_AttributeError
    (fun _ => __default monitors).
Definition compare_description : W (option string) :=
  __default (fun p => Ok (description p)).
(** [Difference.state] raises nothing, so [compare] returns its value. *)
Definition compare_state : W (option (string * string)) := Difference_state.
End Difference.

(** *** The iControl REST interface (f5-sdk), as the module uses it

    [api.tm.ltm.nodes.node]: [exists] and [load] are queries; [create],
    [modify] (on a loaded node) and [delete] (on a loaded node) are the
    mutating calls.  [refresh] re-reads a node that is being polled: the
    device may have moved on by the time it answers, so it returns a new
    device state, but it is not a mutation and is not logged. *)

Module API.
(** What a loaded or created node carries: the [attrs] the module reads,
    and its truth value ([bool(resource)], which [remove_from_device]
    tests). *)
Record resource := Resource {
  r_kind : option string;
  r_name : option string;
  r_partition : string;
  r_address : option string;
  r_monitor : option string;
  r_description : option string;
  r_session : option string;
  r_state : option string;
  r_fqdn : option (list (string * string));
  r_truthy : bool
}.

Inductive call :=
| create (name : option string) (partition : string) (params : payload)
| modify (name : option string) (partition : string) (params : payload)
| delete (name : option string) (partition : string).

Record f5sdk (D : Type) := F5Sdk {
  exists_ : option string -> string -> D -> result bool;
  load : option string -> string -> D -> result resource;
  do_create : option string -> string -> payload -> D -> result resource * D;
  do_modify : option string -> string -> payload -> D -> result unit * D;
  do_delete : option string -> string -> D -> result unit * D;
  refresh : option string -> string -> D -> result resource * D
}.
Arguments exists_ {D} _ _ _ _.
Arguments load {D} _ _ _ _.
Arguments do_create {D} _ _ _ _ _.
Arguments do_modify {D} _ _ _ _ _.
Arguments do_delete {D} _ _ _ _.
Arguments refresh {D} _ _ _ _.
End API.

(** [Parameters(resource.attrs)]: [monitor] is stored under [monitors]. *)
Definition Parameters_of_attrs (r : API.resource) : Parameters :=
  {| kind := API.r_kind r; name := API.r_name r; partition := API.r_partition r;
     address := API.r_address r; v_fqdn := FqdnAttrs <$> API.r_fqdn r;
     description := API.r_description r; v_monitor_type := None; v_quorum := None;
     v_monitors := MonitorsStr <$> API.r_monitor r; state := API.r_state r;
     session := API.r_session r; is_offline := None |}.

(** [Changes(changed)] for a dictionary [changed] with the given entries
    ([None]: no entry).  It has no partition of its own: the property
    answers the default, [Common]. *)
Definition Changes (monitor_type_ : option string) (quorum_ : option Z)
    (monitors_ : option string) (description_ : option string)
    (fqdn_ : option fqdn_value) (session_ state_ : option string) : Parameters :=
  {| kind := None; name := None; partition := "Common"; address := None;
     v_fqdn := fqdn_; description := description_;
     v_monitor_type := monitor_type_; v_quorum := quorum_;
     v_monitors := MonitorsStr <$> monitors_; state := state_;
     session := session_; is_offline := None |}.

(** *** [ModuleManager] *)

Record Self := {
  want : Parameters;
  have : option Parameters;
  changes : Parameters;
  check_mode : bool            (* [self.client.check_mode] *)
}.

Definition set_want (p : Parameters) (s : Self) : Self :=
  {| want := p; have := have s; changes := changes s; check_mode := check_mode s |}.
Definition set_have (p : Parameters) (s : Self) : Self :=
  {| want := want s; have := Some p; changes := changes s;
     check_mode := check_mode s |}.
Definition set_changes (p : Parameters) (s : Self) : Self :=
  {| want := want s; have := have s; changes := p; check_mode := check_mode s |}.

(** [ModuleManager(client)] *)
Definition ModuleManager (params : Parameters) (check_mode_ : bool) : Self :=
  {| want := params; have := None; changes := empty "Common";
     check_mode := check_mode_ |}.

(** [params] of [update_node_offline_on_device] *)
Definition offline_payload : payload :=
  Payload None None None None (Some "user-disabled") (Some "user-down").

Section ModuleManager.
Context {D : Type} (api : API.f5sdk D).

(** The state of a run: the device with its log, and [self]. *)
Record run := Run { device : world D API.call; self : Self }.

Local Abbreviation M := (Effect.M run).

Definition on_device {A} (m : Effect.M (world D API.call) A) : M A :=
  zoom device (fun w r => Run w (self r)) m.
Definition on_self {A} (m : Effect.M Self A) : M A :=
  zoom self (fun s r => Run (device r) s) m.
Definition on_want {A} (m : Effect.M Parameters A) : M A :=
  on_self (zoom want set_want m).

(** [self.want.<attribute>], [self.client.check_mode] *)
Definition the_want {A} (attribute : Parameters -> A) : M A :=
  on_want (self_want_ attribute).
Definition client_check_mode : M bool := on_self (check_mode <$> get_state).

Definition any_entry (l : list bool) : bool := existsb id l.

Definition _set_changed_options : M unit :=
  mt ← on_want (self_want monitor_type);
  q ← on_want (self_want quorum);
  m ← on_want (self_want monitors);
  d ← the_want description;
  f ← the_want fqdn;
  se ← the_want session;
  st ← the_want state;
  if any_entry [bool_decide (is_Some mt); bool_decide (is_Some q);
                bool_decide (is_Some m); bool_decide (is_Some d);
                bool_decide (is_Some f); bool_decide (is_Some se);
                bool_decide (is_Some st)]
  then on_self (modify_state (set_changes (Changes mt q m d f se st)))
  else mret tt.

(** [have] is [self.have], which [update] has just set. *)
Definition _update_changed_options (have : Parameters) : M bool :=
  mt ← on_want (compare_monitor_type have);
  q ← on_want (compare_quorum have);
  m ← on_want (compare_monitors have);
  d ← on_want (compare_description have);
  st ← on_want (compare_state have);
  if any_entry [bool_decide (is_Some mt); bool_decide (is_Some q);
                bool_decide (is_Some m); bool_decide (is_Some d);
                bool_decide (is_Some st)]
  then on_self (modify_state
                  (set_changes (Changes mt q m d None (fst <$> st) (snd <$> st))));;
       mret true
  else mret false.

Definition _check_required_creation_vars : M unit :=
  a ← the_want address;
  f ← the_want fqdn;
  if bool_decide (a = None) && bool_decide (f = None) then
    raise (F5ModuleError
      "At least one of 'address' or 'fqdn' is required when creating a node")
  else if negb (bool_decide (a = None)) && negb (bool_decide (f = None)) then
    raise (F5ModuleError
      "Only one of 'address' or 'fqdn' can be provided when creating a node")
  else if negb (bool_decide (f = None)) then
    on_want (modify_state (update_address (Some "any6")))
  else mret tt.

(** [self.want.state in 'disabled'] is a substring test. *)
Definition _munge_creation_state_for_device : M unit :=
  st ← the_want state;
  if bool_decide (st = Some "present") || bool_decide (st = Some "enabled") then
    on_want (w ← get_state;
             modify_state (update_session_state (Some "user-enabled")
                             (Some "user-up") (is_offline w)))
  else
    match st with
    | None => raise (TypeError "'in <string>' requires string as left operand")
    | Some s =>
        if contains s "disabled" then
          on_want (w ← get_state;
                   modify_state (update_session_state (Some "user-disabled")
                                   (Some "user-up") (is_offline w)))
        else
          on_want (modify_state (update_session_state (Some "user-disabled")
                                   (Some "user-down") (Some true)))
    end.

Definition exists_ : M bool :=
  n ← the_want name; p ← the_want partition;
  on_device (observe (API.exists_ api n p)).

Definition load : M API.resource :=
  n ← the_want name; p ← the_want partition;
  on_device (observe (API.load api n p)).

Definition read_current_from_device : M Parameters :=
  resource ← load;
  mret (Parameters_of_attrs resource).

(** [while True:] polls the node until it has left [fqdn-checking].
    A device may keep a node there for ever; [fuel] bounds the number
    of refreshes, and running out of it is the outcome [Diverges]. *)
Fixpoint _wait_for_fqdn_checks (fuel : nat) (resource : API.resource) : M unit :=
  if bool_decide (API.r_state resource = Some "fqdn-checking") then
    match fuel with
    | O => raise Diverges
    | S fuel' =>
        n ← the_want name; p ← the_want partition;
        resource' ← on_device (fun w =>
                      let (r, d') := API.refresh api n p (dev w) in
                      (r, World d' (log w)));
        _wait_for_fqdn_checks fuel' resource'
    end
  else mret tt.

Definition create_on_device (fuel : nat) : M unit :=
  params ← on_want (self_want api_params);
  n ← the_want name; p ← the_want partition;
  resource ← on_device (mutate (API.create n p params) (API.do_create api n p params));
  _wait_for_fqdn_checks fuel resource.

Definition modify_loaded (params : payload) : M unit :=
  n ← the_want name; p ← the_want partition;
  on_device (mutate (API.modify n p params) (API.do_modify api n p params)).

Definition update_node_offline_on_device : M unit :=
  let params := offline_payload in
  load;;
  modify_loaded params.

Definition update_on_device : M unit :=
  params ← on_self (c ← changes <$> get_state; lift (api_params c));
  load;;
  modify_loaded params.

Definition remove_from_device : M unit :=
  result ← load;
  if API.r_truthy result then
    n ← the_want name; p ← the_want partition;
    on_device (mutate (API.delete n p) (API.do_delete api n p))
  else mret tt.

Definition create (fuel : nat) : M bool :=
  _check_required_creation_vars;;
  _munge_creation_state_for_device;;
  _set_changed_options;;
  cm ← client_check_mode;
  if (cm : bool) then mret true
  else
    create_on_device fuel;;
    e ← exists_;
    (if negb (e : bool) then raise (F5ModuleError "Failed to create the node")
     else mret tt);;
    off ← the_want is_offline;
    (if bool_decide (off = Some true) then update_node_offline_on_device
     else mret tt);;
    mret true.

Definition should_update (have : Parameters) : M bool :=
  result ← _update_changed_options have;
  if (result : bool) then mret true else mret false.

Definition update : M bool :=
  have ← read_current_from_device;
  on_self (modify_state (set_have have));;
  su ← should_update have;
  if negb (su : bool) then mret false
  else
    cm ← client_check_mode;
    if (cm : bool) then mret true
    else
      update_on_device;;
      st ← the_want state;
      (if bool_decide (st = Some "offline") then update_node_offline_on_device
       else mret tt);;
      mret true.

Definition remove : M bool :=
  cm ← client_check_mode;
  if (cm : bool) then mret true
  else
    remove_from_device;;
    e ← exists_;
    (if (e : bool) then raise (F5ModuleError "Failed to delete the node.")
     else mret tt);;
    mret true.

Definition absent : M bool :=
  e ← exists_;
  if (e : bool) then remove else mret false.

Definition present (fuel : nat) : M bool :=
  e ← exists_;
  if (e : bool) then update else create fuel.

(** [exec_module]: the [changed] entry of the result; its other entries
    are read off [self.changes] by [to_return], which swallows what it
    raises. *)
Definition exec_module (fuel : nat) : M bool :=
  state ← the_want state;
  try_except
    (if mem_opt state ["present"; "enabled"; "disabled"; "offline"]
     then present fuel
     else if bool_decide (state = Some "absent") then absent
     else mret false)
    catch_IOError
    (fun e => raise (F5ModuleError (str_of_exn e))).

(** [module.fail_json(msg=...)] *)
Definition fail_json {A} (msg : string) : M A := raise (SystemExit msg).

(** [main] once the client is built, with f5-sdk and netaddr installed:
    [Ok changed] is [exit_json], [Raise (SystemExit msg)] is
    [fail_json]; any other exception leaves the module uncaught. *)
Definition main (fuel : nat) : M bool :=
  try_except (exec_module fuel) catch_F5ModuleError
    (fun e => fail_json (str_of_exn e)).

(** A run of [main] for the module parameters [params] on the device
    state [d]. *)
Definition run_main (fuel : nat) (params : Parameters) (check_mode_ : bool) (d : D)
    : result bool * run :=
  main fuel (Run (World d []) (ModuleManager params check_mode_)).

End ModuleManager.

(** A fully-qualified monitor name: [/<partition>/<name>], the partition
    made of word characters, the name free of blanks and of [}]. *)
Definition qualified (x : string) : Prop :=
  exists part nm,
    x = "/" +:+ part +:+ "/" +:+ nm
    ∧ part ≠ "" ∧ Re.all_chars isword part = true
    ∧ nm ≠ "" ∧ Re.all_chars Re.not_space_or_brace nm = true.

(** [self.want] once [create] has checked and munged the parameters of a
    node that is to be offline. *)
Definition offline_want (params : Parameters) : Parameters :=
  update_session_state (Some "user-disabled") (Some "user-down") (Some true)
    (if bool_decide (v_fqdn params = None) then params
     else update_address (Some "any6") params).

(** The device lets the node [resource] leave [fqdn-checking] after [k]
    refreshes, going from state [d] to state [d']. *)
Inductive leaves_checking {D} (api : API.f5sdk D) (n : option string) (p : string)
    : nat -> API.resource -> D -> D -> Prop :=
| leaves_now resource d :
    API.r_state resource ≠ Some "fqdn-checking" ->
    leaves_checking api n p 0 resource d d
| leaves_later k resource d resource' d' d'' :
    API.r_state resource = Some "fqdn-checking" ->
    API.refresh api n p d = (Ok resource', d') ->
    leaves_checking api n p k resource' d' d'' ->
    leaves_checking api n p (S k) resource d d''.

End Node.

(** ** Notions in which the check-mode properties of the node module are
    stated *)

Module DryRun.
Section DryRun.
Context {D : Type}.

Local Abbreviation M := (Effect.M (Node.run (D:=D))).

(** The same run state with another value of [client.check_mode]. *)
Definition with_mode (c : bool) (s : Node.run (D:=D)) : Node.run :=
  Node.Run (Node.device s)
    {| Node.want := Node.want (Node.self s); Node.have := Node.have (Node.self s);
       Node.changes := Node.changes (Node.self s); Node.check_mode := c |}.

(** [m] only inspects: it neither reads nor writes [check_mode], so it
    runs the same way under either value, and it leaves the device and its
    log as they are. *)
Definition inspects {A} (m : M A) : Prop :=
  forall c s,
    m (with_mode c s) = (fst (m s), with_mode c (snd (m s)))
    ∧ Node.device (snd (m s)) = Node.device s.

(** [m] run in check mode issues no call, and agrees with [m] run for real
    on the same state: when the dry run returns [b], the real run returns
    [b] unless a device call fails it; when the dry run raises, it raised
    before any device call was due, and the real run raises the same. *)
Definition dry_run_agrees (m : M bool) : Prop :=
  forall s,
    Node.device (snd (m (with_mode true s))) = Node.device s
    ∧ match fst (m (with_mode true s)) with
      | Ok b =>
          fst (m (with_mode false s)) = Ok b
          ∨ exists e, fst (m (with_mode false s)) = Raise e
      | Raise e =>
          fst (m (with_mode false s)) = Raise e
          ∧ Node.device (snd (m (with_mode false s))) = Node.device s
      end.

(** [m] returns [true] when it returns. *)
Definition returns_true (m : M bool) : Prop :=
  forall s b, fst (m s) = Ok b -> b = true.

(** [m] only appends to the log of calls. *)
Definition appends {A} (m : M A) : Prop :=
  forall s, exists l,
    log (Node.device (snd (m s))) = log (Node.device s) ++ l.



End DryRun.
End DryRun.

(** ** Notions in which the properties of whole runs are stated *)

Module Calls.
Import VirtualServer.

Section Log.
Context {D C : Type}.

Local Abbreviation M := (Effect.M (world D C)).

(** Whatever the device answers, [m] only adds to the log, and every call
    it adds satisfies [P]. *)
Definition calls_only {A} (P : C -> Prop) (m : M A) : Prop :=
  forall w, exists l, log (snd (m w)) = log w ++ l ∧ Forall P l.

(** Every exception [m] can end in satisfies [P]. *)
Definition raises_only {A} (P : exn -> Prop) (m : M A) : Prop :=
  forall w e, fst (m w) = Raise e -> P e.

(** [m] reports a change exactly when it has issued a call that counts as
    one ([loud]): when it returns [b], the calls it has added to the log
    hold a loud one if and only if [b] is true. *)
Definition reports_its_calls (loud : C -> bool) (m : M bool) : Prop :=
  forall w b w', m w = (Ok b, w') ->
    exists l, log w' = log w ++ l ∧ b = existsb loud l.
End Log.

(** The object a call of the virtual-server module addresses: the virtual
    server [name], or the virtual address [address_]; the two transaction
    calls address the session. *)
Definition on_server (name : string) (address_ : option string) (c : API.call)
    : Prop :=
  match c with
  | API.create vs _ _ _ _ _ _ _
  | API.delete_virtual_server vs
  | API.remove_rule vs _ | API.add_rule vs _
  | API.remove_profile vs _ | API.add_profile vs _
  | API.remove_content_policy vs _ | API.add_content_policy vs _
  | API.set_vlan vs _ _
  | API.set_source_address_translation_none vs
  | API.set_source_address_translation_automap vs
  | API.set_source_address_translation_snat_pool vs _
  | API.set_default_pool_name vs _
  | API.set_destination_v2 vs _
  | API.set_enabled_state vs _
  | API.set_description vs _
  | API.remove_persistence_profile vs _
  | API.add_persistence_profile vs _
  | API.set_fallback_persistence_profile vs _ => vs = name
  | API.set_route_advertisement_state a _ => a = address_
  | API.start_transaction | API.submit_transaction => True
  end.

Definition is_delete (c : API.call) : bool :=
  match c with API.delete_virtual_server _ => true | _ => false end.

Definition is_transaction (c : API.call) : bool :=
  match c with
  | API.start_transaction | API.submit_transaction => true
  | _ => false
  end.

Definition is_snat_pool (c : API.call) : bool :=
  match c with
  | API.set_source_address_translation_snat_pool _ _ => true
  | _ => false
  end.

(** The calls that count as a change of the virtual server. *)
Definition loud (c : API.call) : bool :=
  negb (is_transaction c) && negb (is_snat_pool c).

(** The profiles a create call carries ([None] for another call). *)
Definition created_profiles (c : API.call) : option (list profile) :=
  match c with
  | API.create _ _ _ _ _ _ _ ps => Some ps
  | _ => None
  end.

(** The node a call of the node module addresses. *)
Definition on_node (n : option string) (p : string) (c : Node.API.call) : Prop :=
  match c with
  | Node.API.create n' p' _ | Node.API.modify n' p' _ | Node.API.delete n' p' =>
      n' = n ∧ p' = p
  end.

Section NodeLog.
Context {D : Type}.

(** [m], a step on [self.want], keeps its name and its partition. *)
Definition keeps_the_name {A} (m : Effect.M Node.Parameters A) : Prop :=
  forall w,
    Node.name (snd (m w)) = Node.name w
    ∧ Node.partition (snd (m w)) = Node.partition w.

(** Run while [self.want] names the node [n] of the partition [p], [m]
    leaves that name and that partition in place, and every call it adds to
    the log addresses that node. *)
Definition on_the_node {A} (n : option string) (p : string)
    (m : Effect.M (Node.run (D:=D)) A) : Prop :=
  forall s,
    Node.name (Node.want (Node.self s)) = n ->
    Node.partition (Node.want (Node.self s)) = p ->
    Node.name (Node.want (Node.self (snd (m s)))) = n
    ∧ Node.partition (Node.want (Node.self (snd (m s)))) = p
    ∧ exists l,
        log (Node.device (snd (m s))) = log (Node.device s) ++ l
        ∧ Forall (on_node n p) l.
End NodeLog.

End Calls.

(** ** Concrete devices

    Small devices on which the modules are run in the examples below. *)

Module Scenario.
Import VirtualServer.

(** A BIG-IP holding at most one virtual server.  [create_error] and
    [delete_error], when set, are the messages with which the device
    refuses the call: what a module sees when another actor has created
    or removed the object since it last looked. *)
Record bigip := BigIP {
  vs_present : bool;
  vs_profiles : list profile;
  vs_policies : list string;
  vs_vlan : vlan_filter;
  create_error : option string;
  delete_error : option string
}.

Definition bigip_ask (A : Type) (q : API.query A) (d : bigip) : result A :=
  match q in API.query T return result T with
  | API.get_object_status _ =>
      if vs_present d then Ok tt
      else Raise (OperationFailed "01020036:3: The requested virtual server was not found.")
  | API.get_rule _ => Ok []
  | API.get_profile _ => Ok (vs_profiles d)
  | API.get_content_policy _ => Ok (vs_policies d)
  | API.get_vlan _ => Ok (vs_vlan d)
  | API.get_source_address_translation_type _ => Ok "SRC_TRANS_NONE"
  | API.get_source_address_translation_snat_pool _ => Ok ""
  | API.get_default_pool_name _ => Ok ""
  | API.get_destination_v2 _ => Ok (AddressPort "/Common/10.0.0.5" 443)
  | API.get_enabled_state _ => Ok "STATE_ENABLED"
  | API.get_description _ => Ok ""
  | API.get_persistence_profile _ => Ok []
  | API.get_fallback_persistence_profile _ => Ok ""
  | API.get_route_advertisement_state _ => Ok ["STATE_DISABLED"]
  end.

Definition remove_profiles (gone l : list profile) : list profile :=
  List.filter (fun p => negb (mem (profile_name p) (map profile_name gone))) l.

Definition bigip_tell (c : API.call) (d : bigip) : result unit * bigip :=
  match c with
  | API.create _ _ _ _ _ _ _ ps =>
      match create_error d with
      | Some msg => (Raise (OperationFailed msg), d)
      | None =>
          (Ok tt, BigIP true ps [] (VlanFilter "STATE_DISABLED" []) None (delete_error d))
      end
  | API.delete_virtual_server _ =>
      match delete_error d with
      | Some msg => (Raise (OperationFailed msg), d)
      | None =>
          (Ok tt, BigIP false [] [] (VlanFilter "STATE_DISABLED" []) (create_error d) None)
      end
  | API.remove_profile _ ps =>
      (Ok tt, BigIP (vs_present d) (remove_profiles ps (vs_profiles d)) (vs_policies d)
                (vs_vlan d) (create_error d) (delete_error d))
  | API.add_profile _ ps =>
      (Ok tt, BigIP (vs_present d) (vs_profiles d ++ ps) (vs_policies d)
                (vs_vlan d) (create_error d) (delete_error d))
  | API.set_vlan _ st vl =>
      (Ok tt, BigIP (vs_present d) (vs_profiles d) (vs_policies d)
                (VlanFilter st (concat vl)) (create_error d) (delete_error d))
  | _ => (Ok tt, d)
  end.

Definition bigip_api : API.bigsuds bigip := API.BigSuds bigip bigip_ask bigip_tell.

(** String objects built from a SOAP response are never the module's
    literals. *)
Definition fresh_strings : string -> string -> bool := fun _ _ => false.

Definition tcp : profile := Profile PROFILE_CONTEXT_TYPE_ALL "/Common/tcp".
Definition http : profile := Profile PROFILE_CONTEXT_TYPE_ALL "/Common/http".

Definition no_vs : bigip :=
  BigIP false [] [] (VlanFilter "STATE_DISABLED" []) None None.
Definition vs1 : bigip :=
  BigIP true [tcp; http] [] (VlanFilter "STATE_DISABLED" []) None None.

(** A virtual server on which [get_profile] answers the empty list. *)
Definition bare_vs : bigip :=
  BigIP true [] [] (VlanFilter "STATE_DISABLED" []) None None.

(** A virtual server restricted to the empty list of VLANs. *)
Definition vs_on_no_vlan : bigip :=
  BigIP true [tcp] [] (VlanFilter "STATE_ENABLED" []) None None.

(** No virtual server, and a device that answers a create with "already
    exists": another actor has created it since the module looked. *)
Definition raced_create : bigip :=
  BigIP false [] [] (VlanFilter "STATE_DISABLED" []) 
    (Some "01020066:3: The requested virtual server (/Common/vs1) already exists in partition Common.")
    None.

(** A virtual server, and a device that answers a delete with "was not
    found": another actor has removed it since the module looked. *)
Definition raced_delete : bigip :=
  BigIP true [tcp] [] (VlanFilter "STATE_DISABLED" [])  None
    (Some "01020036:3: The requested virtual server (/Common/vs1) was not found.").

(** [name=vs1 partition=Common] and nothing else. *)
Definition task (state : string) (check : bool) : params :=
  {| p_state := state; p_partition := "Common"; p_name := "vs1";
     p_destination := None; p_port := None; p_all_policies := None;
     p_all_profiles := None; p_all_rules := None; p_enabled_vlans := None;
     p_pool := None; p_description := None; p_snat := None;
     p_route_advertisement_state := None; p_default_persistence_profile := None;
     p_fallback_persistence_profile := None; check_mode := check |}.

(** A BIG-IP holding at most one node.  A node created by FQDN stays in
    [fqdn-checking] for [checks_left] more refreshes.  [node_create_error]
    and [node_delete_error], when set, are the messages of the HTTP error
    with which the device refuses the call. *)
Record bigip_rest := BigIPRest {
  node_present : bool;
  the_node : Node.API.resource;
  checks_left : nat;
  node_create_error : option string;
  node_delete_error : option string
}.

Definition node_with (r : Node.API.resource) (monitor_ description_ session_
    state_ : option string) : Node.API.resource :=
  Node.API.Resource (Node.API.r_kind r) (Node.API.r_name r) (Node.API.r_partition r)
    (Node.API.r_address r) monitor_ description_ session_ state_
    (Node.API.r_fqdn r) true.

(** A field of the payload overrides the node's when it is sent. *)
Definition sent (new old : option string) : option string :=
  match new with Some _ => new | None => old end.

Definition rest_create (n : option string) (p : string) (params : Node.payload)
    (d : bigip_rest) : result Node.API.resource * bigip_rest :=
  match node_create_error d with
  | Some msg => (Raise (IOError msg), d)
  | None =>
      let r := Node.API.Resource (Some Node.node_kind) n p (Node.p_address params)
                 (Node.monitor params) (Node.p_description params)
                 (Node.p_session params)
                 (if Nat.ltb 0 (checks_left d) then Some "fqdn-checking"
                  else Some "unchecked")
                 None true in
      (Ok r, BigIPRest true r (checks_left d) None (node_delete_error d))
  end.

Definition rest_refresh (n : option string) (p : string) (d : bigip_rest)
    : result Node.API.resource * bigip_rest :=
  let left := Nat.pred (checks_left d) in
  let r := the_node d in
  let r' := node_with r (Node.API.r_monitor r) (Node.API.r_description r)
              (Node.API.r_session r)
              (if Nat.ltb 0 left then Some "fqdn-checking" else Some "unchecked") in
  (Ok r', BigIPRest (node_present d) r' left (node_create_error d) (node_delete_error d)).

Definition rest_modify (n : option string) (p : string) (params : Node.payload)
    (d : bigip_rest) : result unit * bigip_rest :=
  let r := the_node d in
  let r' := node_with r (sent (Node.monitor params) (Node.API.r_monitor r))
              (sent (Node.p_description params) (Node.API.r_description r))
              (sent (Node.p_session params) (Node.API.r_session r))
              (sent (Node.p_state params) (Node.API.r_state r)) in
  (Ok tt, BigIPRest (node_present d) r' (checks_left d) (node_create_error d)
            (node_delete_error d)).

Definition rest_delete (n : option string) (p : string) (d : bigip_rest)
    : result unit * bigip_rest :=
  match node_delete_error d with
  | Some msg => (Raise (IOError msg), d)
  | None =>
      (Ok tt, BigIPRest false (the_node d) (checks_left d) (node_create_error d) None)
  end.

Definition rest_api : Node.API.f5sdk bigip_rest :=
  Node.API.F5Sdk bigip_rest
    (fun _ _ d => Ok (node_present d))
    (fun _ _ d =>
       if node_present d then Ok (the_node d)
       else Raise (IOError "404 Unexpected Error: Not Found for uri"))
    rest_create rest_modify rest_delete rest_refresh.

Definition a_node (monitor_ session_ state_ : option string) : Node.API.resource :=
  Node.API.Resource (Some Node.node_kind) (Some "node1") "Common" (Some "10.0.0.1")
    monitor_ None session_ state_ None true.

(** A node, and a device that answers a delete with "not found": another
    actor has removed it since the module looked. *)
Definition raced_node_delete : bigip_rest :=
  BigIPRest true (a_node None (Some "user-enabled") (Some "unchecked")) 0 None
    (Some "404 Unexpected Error: Not Found for uri: /mgmt/tm/ltm/node/~Common~node1 01020036:3: The requested node (/Common/node1) was not found.").

(** No node, and a device that answers a create with "already exists". *)
Definition raced_node_create : bigip_rest :=
  BigIPRest false (a_node None None None) 0
    (Some "409 Unexpected Error: Conflict for uri: /mgmt/tm/ltm/node/ 01020066:3: The requested Node (/Common/node1) already exists in partition Common.")
    None.

(** No node, and a device that keeps a node created by FQDN in
    [fqdn-checking] for two refreshes. *)
Definition slow_dns : bigip_rest :=
  BigIPRest false (a_node None None None) 2 None None.

(** [name=node1 partition=Common fqdn=foo.bar.com state=offline] *)
Definition offline_fqdn_task : Node.Parameters :=
  {| Node.kind := None; Node.name := Some "node1"; Node.partition := "Common";
     Node.address := None; Node.v_fqdn := Some (Node.FqdnName "foo.bar.com");
     Node.description := None; Node.v_monitor_type := None; Node.v_quorum := None;
     Node.v_monitors := None; Node.state := Some "offline";
     Node.session := None; Node.is_offline := None |}.

Definition no_node : bigip_rest :=
  BigIPRest false (a_node None None None) 0 None None.
Definition node1 : bigip_rest :=
  BigIPRest true (a_node (Some "/Common/icmp and /Common/tcp") (Some "user-enabled")
                    (Some "unchecked")) 0 None None.

(** [name=node1 partition=Common address=10.0.0.1] and the given state,
    monitor type and monitors. *)
Definition node_task (state_ : string) (monitor_type_ : option string)
    (monitors_ : option (list string)) : Node.Parameters :=
  {| Node.kind := None; Node.name := Some "node1"; Node.partition := "Common";
     Node.address := Some "10.0.0.1"; Node.v_fqdn := None; Node.description := None;
     Node.v_monitor_type := monitor_type_; Node.v_quorum := None;
     Node.v_monitors := Node.MonitorsList <$> monitors_; Node.state := Some state_;
     Node.session := None; Node.is_offline := None |}.

(** [name=vs1 partition=Common destination=10.0.0.5 port=443] *)
Definition create_task (check : bool) : params :=
  {| p_state := "present"; p_partition := "Common"; p_name := "vs1";
     p_destination := Some "10.0.0.5"; p_port := Some 443%Z; p_all_policies := None;
     p_all_profiles := None; p_all_rules := None; p_enabled_vlans := None;
     p_pool := None; p_description := None; p_snat := None;
     p_route_advertisement_state := None; p_default_persistence_profile := None;
     p_fallback_persistence_profile := None; check_mode := check |}.

(** [name=vs1 partition=Common destination=10.0.0.5 port=http], as
    [AnsibleModule] hands it to [main]. *)
Definition http_port_task : module_params :=
  {| m_state := "present"; m_partition := "Common"; m_name := "vs1";
     m_destination := Some "10.0.0.5"; m_port := Some "http";
     m_all_policies := None; m_all_profiles := None; m_all_rules := None;
     m_enabled_vlans := None; m_pool := None; m_description := None;
     m_snat := None; m_route_advertisement_state := None;
     m_default_persistence_profile := None;
     m_fallback_persistence_profile := None; m_check_mode := false |}.

(** A device that answers every query from a table and accepts every
    call without changing. *)
Definition scripted (answers : forall A, API.query A -> result A)
    : API.bigsuds unit :=
  API.BigSuds unit (fun A q _ => answers A q) (fun _ d => (Ok tt, d)).

(** The answers of a virtual server that is disabled, translates source
    addresses by automap, advertises its route, and holds two rules. *)
Definition disabled_answers (A : Type) (q : API.query A) : result A :=
  match q in API.query T return result T with
  | API.get_object_status _ => Ok tt
  | API.get_rule _ => Ok [Rule 0 "/Common/b"; Rule 1 "/Common/a"]
  | API.get_profile _ => Ok [tcp]
  | API.get_content_policy _ => Ok []
  | API.get_vlan _ => Ok (VlanFilter "STATE_DISABLED" [])
  | API.get_source_address_translation_type _ => Ok "SRC_TRANS_AUTOMAP"
  | API.get_source_address_translation_snat_pool _ => Ok ""
  | API.get_default_pool_name _ => Ok ""
  | API.get_destination_v2 _ => Ok (AddressPort "/Common/10.0.0.5" 443)
  | API.get_enabled_state _ => Ok "STATE_DISABLED"
  | API.get_description _ => Ok ""
  | API.get_persistence_profile _ => Ok []
  | API.get_fallback_persistence_profile _ => Ok ""
  | API.get_route_advertisement_state _ => Ok ["STATE_ENABLED"]
  end.

Definition disabled_vs : API.bigsuds unit := scripted disabled_answers.

(** [name=vs1 partition=Common description=<text>] *)
Definition described_task (text : string) : params :=
  {| p_state := "present"; p_partition := "Common"; p_name := "vs1";
     p_destination := None; p_port := None; p_all_policies := None;
     p_all_profiles := None; p_all_rules := None; p_enabled_vlans := None;
     p_pool := None; p_description := Some text; p_snat := None;
     p_route_advertisement_state := None; p_default_persistence_profile := None;
     p_fallback_persistence_profile := None; check_mode := false |}.

(** A node whose monitor rule is [m_of_n]. *)
Definition m_of_n_node : bigip_rest :=
  BigIPRest true
    (a_node (Some "min 1 of { /Common/icmp /Common/tcp }") (Some "user-enabled")
       (Some "unchecked")) 0 None None.

(** [name=node1 partition=Common state=present description=<text>] *)
Definition described_node_task (text : string) : Node.Parameters :=
  {| Node.kind := None; Node.name := Some "node1"; Node.partition := "Common";
     Node.address := None; Node.v_fqdn := None; Node.description := Some text;
     Node.v_monitor_type := None; Node.v_quorum := None;
     Node.v_monitors := None; Node.state := Some "present";
     Node.session := None; Node.is_offline := None |}.

(** A device on which a node never leaves [fqdn-checking]. *)
Definition stuck_api : Node.API.f5sdk unit :=
  Node.API.F5Sdk unit
    (fun _ _ _ => Ok true)
    (fun _ _ _ => Ok (a_node None None (Some "fqdn-checking")))
    (fun _ _ _ d => (Ok (a_node None None (Some "fqdn-checking")), d))
    (fun _ _ _ d => (Ok tt, d))
    (fun _ _ d => (Ok tt, d))
    (fun _ _ d => (Ok (a_node None None (Some "fqdn-checking")), d)).

End Scenario.

(** * Properties *)

Import VirtualServer Scenario DryRun.

(** ** Sanity checks of the string operations and of the two patterns *)

Example strip_spaces : Py.strip "  a b	 " = "a b".
Proof. reflexivity. Qed.
Example split_state : Py.split "STATE_" "STATE_ENABLED" = [""; "ENABLED"].
Proof. reflexivity. Qed.
Example split_no_overlap : Py.split "aa" "aaa" = [""; "a"].
Proof. reflexivity. Qed.
Example lower_state : Py.lower "ENABLED_x1" = "enabled_x1".
Proof. reflexivity. Qed.
Example offline_not_in_disabled : Py.contains "offline" "disabled" = false.
Proof. reflexivity. Qed.
Example findall_m_of_n :
  Re.findall_monitors "min 2 of { /Common/icmp /Common/tcp }"
  = ["/Common/icmp"; "/Common/tcp"].
Proof. reflexivity. Qed.
Example findall_restarts :
  Re.findall_monitors "//a/b /a/ /x-y/z /q/r}s" = ["/a/b"; "/q/r"].
Proof. reflexivity. Qed.
Example search_skips_blanks : Re.search_quorum "xmin  	12 of" = Some "12".
Proof. reflexivity. Qed.
Example search_rejects_sign : Re.search_quorum "min -1 of { /Common/icmp }" = None.
Proof. reflexivity. Qed.

(** ** Decimal numerals *)

Lemma digits_of_uint (u : Decimal.uint) :
  Re.all_chars isdigit (NilEmpty.string_of_uint u) = true.
Proof. induction u; simpl; auto. Qed.

Lemma int_of_digits_pos (u : Decimal.uint) (p : positive) :
  int_of_digits (Z.pos p) (NilEmpty.string_of_uint u)
  = Z.pos (Pos.of_uint_acc u p).
Proof.
  revert p.
  induction u as [|u IH|u IH|u IH|u IH|u IH|u IH|u IH|u IH|u IH|u IH];
    intros p; [reflexivity | ..];
    cbn [NilEmpty.string_of_uint int_of_digits Pos.of_uint_acc];
    rewrite <- IH; f_equal;
    match goal with
    | |- context [Z.of_nat ?n] =>
        let d := eval vm_compute in (Z.of_nat n) in
        change (Z.of_nat n) with d
    end; lia.
Qed.

Lemma int_of_digits_zero (u : Decimal.uint) :
  int_of_digits 0 (NilEmpty.string_of_uint u) = Z.of_N (Pos.of_uint u).
Proof.
  induction u as [|u IH|u IH|u IH|u IH|u IH|u IH|u IH|u IH|u IH|u IH];
    [reflexivity | exact IH | ..];
    cbn [NilEmpty.string_of_uint int_of_digits Pos.of_uint Z.of_N];
    rewrite <- int_of_digits_pos; reflexivity.
Qed.

(** [int('%s' % q) == q] for a quorum that is not negative. *)
Lemma int_str_of_int (q : Z) : (0 <= q)%Z -> int (str_of_int q) = q.
Proof.
  intros Hq. destruct q as [|p|p]; [reflexivity | | lia].
  unfold int, str_of_int, Z.to_int, NilZero.string_of_int, NilZero.string_of_uint.
  pose proof (DecimalPos.Unsigned.to_uint_nonnil p) as Hnil.
  pose proof (DecimalPos.Unsigned.of_to p) as Hp.
  destruct (Pos.to_uint p) eqn:E; [congruence | ..];
    rewrite int_of_digits_zero, Hp; reflexivity.
Qed.

Lemma str_of_int_digits (q : Z) :
  (0 <= q)%Z ->
  str_of_int q ≠ "" ∧ Re.all_chars isdigit (str_of_int q) = true.
Proof.
  intros Hq. destruct q as [|p|p]; [split; [discriminate | reflexivity] | | lia].
  unfold str_of_int, Z.to_int, NilZero.string_of_int, NilZero.string_of_uint.
  pose proof (DecimalPos.Unsigned.to_uint_nonnil p) as Hnil.
  destruct (Pos.to_uint p) eqn:E; [congruence | ..];
    (split; [discriminate | apply digits_of_uint]).
Qed.

Lemma all_digits_all_chars (s : string) : all_digits s = Re.all_chars isdigit s.
Proof. induction s as [|c s IH]; simpl; [reflexivity|by rewrite IH]. Qed.

Lemma digit_not_blank (c : ascii) : isdigit c = true -> isspace c = false.
Proof. destruct c as [[] [] [] [] [] [] [] []]; vm_compute; congruence. Qed.

Lemma lstrip_no_blank (c : ascii) (s : string) :
  isspace c = false -> lstrip (String c s) = String c s.
Proof. intros H. simpl. by rewrite H. Qed.

Lemma rstrip_digits (s : string) : all_digits s = true -> rstrip s = s.
Proof.
  induction s as [|c s IH]; [reflexivity|]. simpl.
  intros [Hc Hs]%andb_prop. rewrite (IH Hs), (digit_not_blank c Hc).
  by destruct s.
Qed.

Lemma strip_digits (s : string) : all_digits s = true -> strip s = s.
Proof.
  intros Hs. unfold strip. destruct s as [|c s]; [reflexivity|].
  pose proof Hs as [Hc _]%andb_prop.
  rewrite (lstrip_no_blank c s (digit_not_blank c Hc)). by apply rstrip_digits.
Qed.

Lemma strip_signed (s : string) :
  all_digits s = true -> strip (String "-" s) = String "-" s.
Proof.
  intros Hs. unfold strip. rewrite lstrip_no_blank by reflexivity.
  change (rstrip (String "-" s))
    with (match rstrip s with
          | EmptyString => String "-" EmptyString
          | r => String "-" r
          end).
  rewrite (rstrip_digits s Hs). by destruct s.
Qed.

(** [int] on a string of digits is its value. *)
Lemma int_of_str_digits (s : string) :
  str_isdigit s = true -> int_of_str s = Ok (int s).
Proof.
  intros [Hne Hs]%andb_prop. unfold int_of_str. rewrite (strip_digits s Hs).
  destruct s as [|c s]; [discriminate|].
  assert (Hd : str_isdigit (String c s) = true) by (unfold str_isdigit; by rewrite Hs).
  pose proof Hs as [Hc _]%andb_prop.
  destruct c as [[] [] [] [] [] [] [] []]; try discriminate Hc; by rewrite Hd.
Qed.

Lemma int_of_str_minus (s : string) :
  str_isdigit s = true -> int_of_str (String "-" s) = Ok (- int s)%Z.
Proof.
  intros Hd. pose proof Hd as [_ Hs]%andb_prop.
  unfold int_of_str. rewrite (strip_signed s Hs). by rewrite Hd.
Qed.

Lemma str_isdigit_of_uint (p : positive) :
  str_isdigit (NilZero.string_of_uint (Pos.to_uint p)) = true
  ∧ int (NilZero.string_of_uint (Pos.to_uint p)) = Z.pos p.
Proof.
  unfold str_isdigit, int, NilZero.string_of_uint.
  pose proof (DecimalPos.Unsigned.to_uint_nonnil p) as Hnil.
  pose proof (DecimalPos.Unsigned.of_to p) as Hp.
  pose proof (digits_of_uint (Pos.to_uint p)) as Hdigits.
  rewrite all_digits_all_chars.
  destruct (Pos.to_uint p) eqn:E; [congruence | ..];
    rewrite Hdigits, int_of_digits_zero, Hp; by split.
Qed.

(** What [type='str'] makes of an integer is read back by [int] as that
    integer. *)
Lemma int_of_str_of_int (z : Z) : int_of_str (str_of_int z) = Ok z.
Proof.
  destruct z as [|p|p]; [reflexivity| |].
  - destruct (str_isdigit_of_uint p) as [Hd Hv].
    change (str_of_int (Z.pos p)) with (NilZero.string_of_uint (Pos.to_uint p)).
    by rewrite (int_of_str_digits _ Hd), Hv.
  - destruct (str_isdigit_of_uint p) as [Hd Hv].
    change (str_of_int (Z.neg p))
      with (String "-" (NilZero.string_of_uint (Pos.to_uint p))).
    by rewrite (int_of_str_minus _ Hd), Hv.
Qed.

Lemma str_of_int_not_empty (z : Z) : str_of_int z ≠ "".
Proof.
  destruct z as [|p|p]; [discriminate| |discriminate].
  destruct (str_isdigit_of_uint p) as [[Hne _]%andb_prop _].
  change (str_of_int (Z.pos p)) with (NilZero.string_of_uint (Pos.to_uint p)).
  intros E. rewrite E in Hne. discriminate.
Qed.

(** The port of a task that gives an integer, or none, is read as
    given. *)
Lemma read_port_arguments (port : option Z) :
  read_port (str_of_int <$> port) = Ok port.
Proof.
  destruct port as [z|]; [|reflexivity]. simpl.
  destruct (String.eqb_spec (str_of_int z) "") as [E|_].
  - by destruct (str_of_int_not_empty z).
  - by rewrite int_of_str_of_int.
Qed.

(** ** The virtual server module *)

Section VirtualServerFacts.
Context {D : Type} (api : API.bigsuds D).

(** *** The port check *)

Lemma port_out_of_range_false (port : option Z) : port_out_of_range port = false.
Proof.
  unfold port_out_of_range, int_gt_opt, opt_gt_int.
  destruct port as [p|]; [|reflexivity].
  destruct (Z.gtb_spec 0 p), (Z.gtb_spec p 65535); try reflexivity; lia.
Qed.

(** *** Membership in the computed differences *)

Lemma mem_true x l : mem x l = true <-> x ∈ l.
Proof. unfold mem. apply bool_decide_eq_true. Qed.

Lemma mem_false x l : mem x l = false <-> x ∉ l.
Proof. unfold mem. apply bool_decide_eq_false. Qed.

Lemma elem_of_to_add_policies x L_d L_o :
  x ∈ to_add_policies L_d L_o <-> (x ∈ L_d ∧ x ∉ L_o).
Proof.
  unfold to_add_policies.
  by rewrite !list_elem_of_In, filter_In, negb_true_iff, mem_false, list_elem_of_In.
Qed.

Lemma elem_of_to_del_policies x L_d L_o :
  x ∈ to_del_policies L_d L_o <-> (x ∈ L_o ∧ x ∉ L_d).
Proof.
  unfold to_del_policies.
  by rewrite !list_elem_of_In, filter_In, negb_true_iff, mem_false, list_elem_of_In.
Qed.

Lemma elem_of_to_add_profiles x L_d L_o :
  x ∈ map profile_name (to_add_profiles L_d L_o) <-> (x ∈ L_d ∧ x ∉ L_o).
Proof.
  unfold to_add_profiles. rewrite map_map. simpl. rewrite map_id.
  apply elem_of_to_add_policies.
Qed.

Lemma elem_of_to_del_profiles x L_d L_o :
  x ∈ map profile_name (to_del_profiles L_d L_o)
  <-> (x ∈ L_o ∧ (x ∉ L_d) ∧ x ≠ "/Common/tcp").
Proof.
  unfold to_del_profiles. rewrite map_map. simpl. rewrite map_id.
  rewrite !list_elem_of_In, filter_In, andb_true_iff, !negb_true_iff.
  rewrite mem_false, String.eqb_neq, list_elem_of_In. tauto.
Qed.

Lemma to_add_profiles_difference L_d L_o :
  list_to_set (map profile_name (to_add_profiles L_d L_o))
  =@{gset string} list_to_set L_d ∖ list_to_set L_o.
Proof.
  apply set_eq. intros x.
  rewrite elem_of_difference, !elem_of_list_to_set, elem_of_to_add_profiles. tauto.
Qed.

Lemma to_del_profiles_difference L_d L_o :
  list_to_set (map profile_name (to_del_profiles L_d L_o))
  =@{gset string} (list_to_set L_o ∖ list_to_set L_d) ∖ {["/Common/tcp"]}.
Proof.
  apply set_eq. intros x.
  rewrite !elem_of_difference, !elem_of_list_to_set, elem_of_to_del_profiles,
    elem_of_singleton. tauto.
Qed.

Lemma to_add_policies_difference L_d L_o :
  list_to_set (to_add_policies L_d L_o)
  =@{gset string} list_to_set L_d ∖ list_to_set L_o.
Proof.
  apply set_eq. intros x.
  rewrite elem_of_difference, !elem_of_list_to_set, elem_of_to_add_policies. tauto.
Qed.

Lemma to_del_policies_difference L_d L_o :
  list_to_set (to_del_policies L_d L_o)
  =@{gset string} list_to_set L_o ∖ list_to_set L_d.
Proof.
  apply set_eq. intros x.
  rewrite elem_of_difference, !elem_of_list_to_set, elem_of_to_del_policies. tauto.
Qed.

Lemma nonempty_nil {A} (l : list A) : nonempty l = false <-> l = [].
Proof. destruct l; split; intros H; reflexivity || discriminate. Qed.

(** *** What [set_profiles] and [set_policies] do *)

(** Unfolds the monad and splits on the answers of the device. *)
Ltac run :=
  unfold set_profiles, set_policies, get_profiles, get_policies, get, send,
    fail_json, try_except, observe, mutate, raise, lift, mbind, M_bind, bind,
    mret, M_ret, ret in *;
  simpl in *.

Ltac answers :=
  repeat match goal with
    | H : context [API.ask ?a ?q ?d] |- _ =>
        lazymatch type of H with
        | API.ask a q d = _ => fail
        | _ => let E := fresh "Hask" in destruct (API.ask a q d) eqn:E; simpl in H
        end
    | H : context [API.tell ?a ?c ?d] |- _ =>
        lazymatch type of H with
        | API.tell a c d = _ => fail
        | _ => let E := fresh "Htell" in
               destruct (API.tell a c d) as [[[]|?] ?] eqn:E; simpl in H
        end
    end.

Lemma set_profiles_success name L_d ps w b w' :
  let L_o := map profile_name ps in
  let to_add := to_add_profiles L_d L_o in
  let to_del := to_del_profiles L_d L_o in
  API.ask api (API.get_profile name) (dev w) = Ok ps ->
  set_profiles api name (Some L_d) w = (Ok b, w') ->
  log w' = log w
             ++ (if nonempty to_del then [API.remove_profile name to_del] else [])
             ++ (if nonempty to_add then [API.add_profile name to_add] else [])
  ∧ b = nonempty to_del || nonempty to_add.
Proof.
  intros L_o to_add to_del Hps Hrun. run. rewrite Hps in Hrun. simpl in Hrun.
  fold L_o to_add to_del in Hrun.
  destruct (nonempty to_del), (nonempty to_add); simpl in *; answers;
    repeat case_match; simplify_eq/=;
    rewrite <- ?app_assoc, ?app_nil_r; auto.
Qed.

Lemma set_profiles_nothing_to_do name L_d ps w :
  let L_o := map profile_name ps in
  API.ask api (API.get_profile name) (dev w) = Ok ps ->
  to_add_profiles L_d L_o = [] ->
  to_del_profiles L_d L_o = [] ->
  set_profiles api name (Some L_d) w
  = (if nonempty ps then Ok false
     else Raise (F5ModuleError "Virtual servers must has at least one profile"), w).
Proof.
  intros L_o Hps Hadd Hdel. run. rewrite Hps. simpl.
  fold L_o. rewrite Hadd, Hdel. simpl. rewrite Hps. simpl.
  rewrite length_map. by destruct ps.
Qed.

Lemma set_policies_success name L_d L_o w b w' :
  let to_add := to_add_policies L_d L_o in
  let to_del := to_del_policies L_d L_o in
  API.ask api (API.get_content_policy name) (dev w) = Ok L_o ->
  set_policies api name (Some L_d) w = (Ok b, w') ->
  log w' = log w
             ++ (if nonempty to_del then [API.remove_content_policy name to_del] else [])
             ++ (if nonempty to_add then [API.add_content_policy name to_add] else [])
  ∧ b = nonempty to_del || nonempty to_add.
Proof.
  intros to_add to_del Hps Hrun. run. rewrite Hps in Hrun. simpl in Hrun.
  fold to_add to_del in Hrun.
  destruct (nonempty to_del), (nonempty to_add); simpl in *; answers;
    repeat case_match; simplify_eq/=;
    rewrite <- ?app_assoc, ?app_nil_r; auto.
Qed.

Lemma set_policies_nothing_to_do name L_d L_o w :
  API.ask api (API.get_content_policy name) (dev w) = Ok L_o ->
  to_add_policies L_d L_o = [] ->
  to_del_policies L_d L_o = [] ->
  set_policies api name (Some L_d) w = (Ok false, w).
Proof.
  intros Hps Hadd Hdel. run. rewrite Hps. simpl.
  by rewrite Hadd, Hdel.
Qed.

(** A reconciliation that returns has seen a profile on its last read,
    and nothing came between that read and the return. *)
Lemma set_profiles_leaves_a_profile name L w b w' :
  set_profiles api name (Some L) w = (Ok b, w') ->
  exists ps, API.ask api (API.get_profile name) (dev w') = Ok ps ∧ ps ≠ [].
Proof.
  intros Hrun. run.
  destruct (API.ask api (API.get_profile name) (dev w)) as [ps0|e0] eqn:H0;
    simpl in Hrun; [|by destruct (catch_OperationFailed e0)].
  set (to_del := to_del_profiles L (map profile_name ps0)) in *.
  set (to_add := to_add_profiles L (map profile_name ps0)) in *.
  destruct (nonempty to_del), (nonempty to_add); simpl in *; answers;
    repeat case_match; simplify_eq/=;
    (eexists; split; [eassumption|]; intros ->; simpl in *; discriminate).
Qed.

(** When the device accepts the profile calls and ends up with no
    profile, the reconciliation ends in the module's own error. *)
Lemma set_profiles_raises_on_no_profile name L w r w' ps0 :
  (forall ps d, fst (API.tell api (API.remove_profile name ps) d) = Ok tt) ->
  (forall ps d, fst (API.tell api (API.add_profile name ps) d) = Ok tt) ->
  API.ask api (API.get_profile name) (dev w) = Ok ps0 ->
  set_profiles api name (Some L) w = (r, w') ->
  API.ask api (API.get_profile name) (dev w') = Ok [] ->
  r = Raise (F5ModuleError "Virtual servers must has at least one profile").
Proof.
  intros Hrem Hadd H0 Hrun Hlast. run. rewrite H0 in Hrun. simpl in Hrun.
  set (to_del := to_del_profiles L (map profile_name ps0)) in *.
  set (to_add := to_add_profiles L (map profile_name ps0)) in *.
  destruct (nonempty to_del), (nonempty to_add); simpl in *;
    repeat match goal with
      | H : context [API.tell api (API.remove_profile name ?ps) ?d] |- _ =>
          let E := fresh "Htell" in
          pose proof (Hrem ps d) as E;
          destruct (API.tell api (API.remove_profile name ps) d) as [? ?];
          simpl in E; subst; simpl in H
      | H : context [API.tell api (API.add_profile name ?ps) ?d] |- _ =>
          let E := fresh "Htell" in
          pose proof (Hadd ps d) as E;
          destruct (API.tell api (API.add_profile name ps) d) as [? ?];
          simpl in E; subst; simpl in H
      end;
    answers; repeat case_match; simplify_eq/=; try reflexivity;
    match goal with
    | H : API.ask _ _ ?d = _, H' : API.ask _ _ ?d = Ok [] |- _ =>
        rewrite H' in H; simplify_eq/=
    end.
Qed.

(** *** The arguments of a task *)

(** On the arguments of a task whose port is an integer or missing, the
    conversion succeeds and the port check passes: [main] is its [try:]
    block. *)
Lemma main_arguments str_is (module : params) (w : world D API.call) :
  main api str_is (arguments module) w = main_try api str_is module w.
Proof.
  unfold main, arguments. cbn [m_port]. rewrite read_port_arguments.
  unfold mbind, M_bind, bind, lift. cbn. rewrite port_out_of_range_false.
  by destruct module.
Qed.

End VirtualServerFacts.

(** C9.  The local port validation of the virtual-server module never
    rejects anything: the chained comparison [0 > port > 65535] is false for
    every integer port (and for a missing one), so [main], handed such a
    port, always goes on to its [try:] block and the "valid ports must be in
    range 0 - 65535" failure is never produced by this check. *)
Theorem port_range_check_is_dead {D} (api : API.bigsuds D)
    (str_is : string -> string -> bool) (module : params) (w : world D API.call) :
  (forall port : Z, port_out_of_range (Some port) = false)
  ∧ main api str_is (arguments module) w = main_try api str_is module w.
Proof.
  split; [intros port; apply port_out_of_range_false|].
  apply main_arguments.
Qed.

Example port_70000_accepted : port_out_of_range (Some 70000%Z) = false.
Proof. reflexivity. Qed.
Example port_negative_accepted : port_out_of_range (Some (-1)%Z) = false.
Proof. reflexivity. Qed.

(** C1, as amended.  With [L_o] the profile names the device reports,
    [to_add] is [L_d - L_o] and [to_remove] is [L_o - L_d] without the
    protected ["/Common/tcp"], as sets; a reconciliation that returns has sent
    exactly these (one remove call when [to_remove] is not empty, then one add
    call when [to_add] is not empty) and reports whether either was; when both
    are empty no call is issued, and the property reports unchanged unless
    the observed list is itself empty, in which case the module's "must has
    at least one profile" error is raised.  Policies: the same differences
    without a protected member, and unchanged whenever both are empty. *)
Theorem list_reconciliation {D} (api : API.bigsuds D) (name : string)
    (L_d : list string) (w : world D API.call) :
  (forall ps, API.ask api (API.get_profile name) (dev w) = Ok ps ->
     let L_o := map profile_name ps in
     let to_add := to_add_profiles L_d L_o in
     let to_del := to_del_profiles L_d L_o in
     list_to_set (map profile_name to_add) =@{gset string} list_to_set L_d ∖ list_to_set L_o
     ∧ list_to_set (map profile_name to_del)
       =@{gset string} (list_to_set L_o ∖ list_to_set L_d) ∖ {["/Common/tcp"]}
     ∧ ("/Common/tcp" ∉ map profile_name to_del)
     ∧ (forall b w', set_profiles api name (Some L_d) w = (Ok b, w') ->
          log w' = log w
                     ++ (if nonempty to_del then [API.remove_profile name to_del] else [])
                     ++ (if nonempty to_add then [API.add_profile name to_add] else [])
          ∧ b = nonempty to_del || nonempty to_add)
     ∧ (to_add = [] -> to_del = [] ->
          set_profiles api name (Some L_d) w
          = (if nonempty ps then Ok false
             else Raise (F5ModuleError "Virtual servers must has at least one profile"),
             w)))
  ∧ (forall L_o, API.ask api (API.get_content_policy name) (dev w) = Ok L_o ->
       let to_add := to_add_policies L_d L_o in
       let to_del := to_del_policies L_d L_o in
       list_to_set to_add =@{gset string} list_to_set L_d ∖ list_to_set L_o
       ∧ list_to_set to_del =@{gset string} list_to_set L_o ∖ list_to_set L_d
       ∧ (forall b w', set_policies api name (Some L_d) w = (Ok b, w') ->
            log w' = log w
                       ++ (if nonempty to_del
                           then [API.remove_content_policy name to_del] else [])
                       ++ (if nonempty to_add
                           then [API.add_content_policy name to_add] else [])
            ∧ b = nonempty to_del || nonempty to_add)
       ∧ (to_add = [] -> to_del = [] ->
            set_policies api name (Some L_d) w = (Ok false, w))).
Proof.
  split.
  - intros ps Hps L_o to_add to_del.
    refine (conj _ (conj _ (conj _ (conj _ _)))).
    + apply to_add_profiles_difference.
    + apply to_del_profiles_difference.
    + intros Hin. apply elem_of_to_del_profiles in Hin. tauto.
    + intros b w' Hrun. exact (set_profiles_success api name L_d ps w b w' Hps Hrun).
    + intros Hadd Hdel. exact (set_profiles_nothing_to_do api name L_d ps w Hps Hadd Hdel).
  - intros L_o Hps to_add to_del.
    refine (conj _ (conj _ (conj _ _))).
    + apply to_add_policies_difference.
    + apply to_del_policies_difference.
    + intros b w' Hrun. exact (set_policies_success api name L_d L_o w b w' Hps Hrun).
    + intros Hadd Hdel. exact (set_policies_nothing_to_do api name L_d L_o w Hps Hadd Hdel).
Qed.

(** An instance: the server has [tcp] and [http], [http] alone is wanted.
    Nothing is to be added, [tcp] is protected, so nothing is removed and no
    call is made. *)
Lemma list_reconciliation_witness :
  API.ask bigip_api (API.get_profile "/Common/vs1") vs1 = Ok [tcp; http]
  ∧ set_profiles bigip_api "/Common/vs1" (Some ["/Common/http"]) (World vs1 [])
    = (Ok false, World vs1 []).
Proof.
  split; [reflexivity|].
  destruct (list_reconciliation bigip_api "/Common/vs1" ["/Common/http"] (World vs1 []))
    as [Hprofiles _].
  destruct (Hprofiles [tcp; http] eq_refl) as (_ & _ & _ & _ & Hnothing).
  exact (Hnothing eq_refl eq_refl).
Defined.

(** C1 as stated fails on a server without profiles when none is wanted:
    both differences are empty and no call is made, but the pass does not
    report unchanged, it raises. *)
Lemma empty_profile_list_is_not_unchanged :
  API.ask bigip_api (API.get_profile "/Common/vs1") bare_vs = Ok []
  ∧ to_add_profiles [] [] = []
  ∧ to_del_profiles [] [] = []
  ∧ set_profiles bigip_api "/Common/vs1" (Some []) (World bare_vs [])
    = (Raise (F5ModuleError "Virtual servers must has at least one profile"),
       World bare_vs []).
Proof. repeat apply conj; vm_compute; reflexivity. Qed.

(** C10.  A profile reconciliation that returns leaves the virtual server
    with at least one profile: its last act is to read the profile list
    again and to raise [F5ModuleError] when the list is empty.  So when the
    device has accepted the profile calls and is left without a profile, the
    outcome is that error. *)
Theorem profile_reconciliation_keeps_a_profile {D} (api : API.bigsuds D)
    (name : string) (L : list string) (w w' : world D API.call) (r : result bool) :
  set_profiles api name (Some L) w = (r, w') ->
  (forall b, r = Ok b ->
     exists ps, API.ask api (API.get_profile name) (dev w') = Ok ps ∧ ps ≠ [])
  ∧ ((forall ps d, fst (API.tell api (API.remove_profile name ps) d) = Ok tt) ->
     (forall ps d, fst (API.tell api (API.add_profile name ps) d) = Ok tt) ->
     (exists ps0, API.ask api (API.get_profile name) (dev w) = Ok ps0) ->
     API.ask api (API.get_profile name) (dev w') = Ok [] ->
     r = Raise (F5ModuleError "Virtual servers must has at least one profile")).
Proof.
  intros Hrun. split.
  - intros b Hr. subst r.
    exact (set_profiles_leaves_a_profile api name L w b w' Hrun).
  - intros Hrem Hadd [ps0 H0] Hlast.
    exact (set_profiles_raises_on_no_profile api name L w r w' ps0 Hrem Hadd H0 Hrun Hlast).
Qed.

(** Two runs on the server with [tcp] and [http]: wanting [http] and [ssl]
    returns and leaves three profiles; wanting none removes [http], and the
    protected [tcp] keeps the list from being empty.  On a server whose only
    profile is [http], wanting none empties the list and raises. *)
Lemma profile_reconciliation_keeps_a_profile_witness :
  let returns :=
    set_profiles bigip_api "/Common/vs1" (Some ["/Common/http"; "/Common/ssl"])
      (World vs1 []) in
  let raises :=
    set_profiles bigip_api "/Common/vs1" (Some [])
      (World (BigIP true [http] [] (VlanFilter "STATE_DISABLED" []) None None) []) in
  (fst returns = Ok true
   ∧ exists ps, API.ask bigip_api (API.get_profile "/Common/vs1") (dev (snd returns))
                = Ok ps ∧ ps ≠ [])
  ∧ (API.ask bigip_api (API.get_profile "/Common/vs1") (dev (snd raises)) = Ok []
     ∧ fst raises
       = Raise (F5ModuleError "Virtual servers must has at least one profile")).
Proof.
  intros returns raises. split; split.
  - vm_compute. reflexivity.
  - apply (proj1 (profile_reconciliation_keeps_a_profile bigip_api "/Common/vs1"
                    _ _ _ _ (surjective_pairing returns)) true).
    vm_compute. reflexivity.
  - vm_compute. reflexivity.
  - apply (proj2 (profile_reconciliation_keeps_a_profile bigip_api "/Common/vs1"
                    _ _ _ _ (surjective_pairing raises))).
    + intros ps d. reflexivity.
    + intros ps d. reflexivity.
    + eexists. reflexivity.
    + vm_compute. reflexivity.
Defined.

(** ** The VLAN allow-list *)

Section VlanFacts.
Context {D : Type} (api : API.bigsuds D) (str_is : string -> string -> bool).

Ltac run :=
  unfold set_enabled_vlans, get_vlan, get, send, try_except, observe, mutate, raise,
    mbind, M_bind, bind, mret, M_ret, ret in *;
  simpl in *.

(** Going to the wildcard from a non-empty allow-list: one call, which
    disables the restriction, whatever the identity test answers. *)
Lemma wildcard_disables_a_listed_restriction name l cur w :
  API.ask api (API.get_vlan name) (dev w) = Ok cur ->
  mem "ALL" l = true ->
  vlans cur ≠ [] ->
  exists r d',
    API.tell api (API.set_vlan name "STATE_DISABLED" []) (dev w) = (r, d')
    ∧ set_enabled_vlans api str_is name (Some l) w
      = (match r with
         | Ok _ => Ok true
         | Raise e =>
             if catch_OperationFailed e
             then Raise (Exception ("Error on setting enabled vlans : " +:+ str_of_exn e))
             else Raise e
         end,
         World d' (log w ++ [API.set_vlan name "STATE_DISABLED" []])).
Proof.
  intros Hcur Hall Hne. run. rewrite Hcur. simpl. rewrite Hall.
  destruct (vlans cur) as [|v vs] eqn:Hv; [done|]. simpl.
  destruct (API.tell api (API.set_vlan name "STATE_DISABLED" []) (dev w))
    as [[[]|e] d'] eqn:Htell; simpl; eexists _, _; split; try reflexivity.
  simpl. destruct e; reflexivity.
Qed.

(** Without the wildcard, the only call the function can issue enables the
    restriction with the whole wanted list. *)
Lemma listed_vlans_calls name l w r w' :
  mem "ALL" l = false ->
  set_enabled_vlans api str_is name (Some l) w = (r, w') ->
  log w' = log w ∨ log w' = log w ++ [API.set_vlan name "STATE_ENABLED" [l]].
Proof.
  intros Hall Hrun. run.
  destruct (API.ask api (API.get_vlan name) (dev w)) as [cur|e] eqn:Hcur;
    simpl in Hrun; [|destruct (catch_OperationFailed e); simplify_eq/=; by left].
  rewrite Hall in Hrun.
  destruct (str_is (vlan_state cur) "STATE_DISABLED"); simpl in Hrun;
    [simplify_eq/=; by left|].
  destruct (existsb _ l); simpl in Hrun; [|simplify_eq/=; by left].
  destruct (API.tell api _ (dev w)) as [[[]|e] d'] eqn:Htell; simpl in Hrun;
    [|destruct (catch_OperationFailed e)]; simplify_eq/=; by right.
Qed.

End VlanFacts.

(** C8: the code departs from the claim.  On a server restricted to the
    empty list of VLANs ([STATE_ENABLED], no member), asking for [ALL] issues
    no call and reports unchanged: the test for the enabled restriction
    compares with [is], which is false for a string object read from the
    device.  Were [is] to agree with equality, that call would be issued but
    the other one promised would not: on an unrestricted server asking for a
    list without [ALL] only records the list, without setting [updated]. *)
Theorem wildcard_on_empty_allow_list_is_ignored :
  set_enabled_vlans bigip_api fresh_strings "/Common/vs1" (Some ["ALL"])
    (World vs_on_no_vlan [])
  = (Ok false, World vs_on_no_vlan [])
  ∧ set_enabled_vlans bigip_api String.eqb "/Common/vs1" (Some ["/Common/vlan2"])
      (World vs1 [])
    = (Ok false, World vs1 []).
Proof. split; vm_compute; reflexivity. Qed.

(** With [is] as Python evaluates it, the second half of C8 does hold for a
    non-empty list. *)
Example listed_vlans_enable_the_restriction :
  set_enabled_vlans bigip_api fresh_strings "/Common/vs1" (Some ["/Common/vlan2"])
    (World vs1 [])
  = (Ok true,
     World (BigIP true [tcp; http] [] (VlanFilter "STATE_ENABLED" ["/Common/vlan2"])
              None None)
       [API.set_vlan "/Common/vs1" "STATE_ENABLED" [["/Common/vlan2"]]]).
Proof. vm_compute. reflexivity. Qed.

(** ** Existence, deletion and check mode in [main] *)

Section MainFacts.
Context {D : Type} (api : API.bigsuds D) (str_is : string -> string -> bool).

Ltac run :=
  rewrite ?main_arguments in *;
  unfold main_try, vs_exists, vs_remove, vs_create, get, send, fail_json,
    try_except, observe, mutate, raise, mbind, M_bind, bind, mret, M_ret, ret in *;
  rewrite ?port_out_of_range_false in *;
  simpl in *.




(** A real run with [state=absent] on a server that exists, when the
    device answers the delete with a "was not found" failure: unchanged, and
    no failure. *)
Lemma race_tolerant_delete module w msg d' :
  p_state module = "absent" ->
  check_mode module = false ->
  API.ask api (API.get_object_status (vs_name module)) (dev w) = Ok tt ->
  API.tell api (API.delete_virtual_server (vs_name module)) (dev w)
  = (Raise (OperationFailed msg), d') ->
  contains "was not found" msg = true ->
  main api str_is (arguments module) w
  = (Ok (Result false None),
     World d' (log w ++ [API.delete_virtual_server (vs_name module)])).
Proof.
  intros Hstate Hcheck Hexists Hdelete Hmsg. run.
  rewrite Hstate, Hcheck. simpl. rewrite Hexists. simpl. rewrite Hdelete. simpl.
  by rewrite Hmsg.
Qed.

(** A real run that finds no server and whose create call the device
    refuses: the failure of the call, whatever its message, ends the module
    in [fail_json]. *)
Lemma refused_create_is_fatal module w destination port_ found msg d' :
  p_state module ≠ "absent" ->
  check_mode module = false ->
  API.ask api (API.get_object_status (vs_name module)) (dev w)
  = Raise (OperationFailed found) ->
  contains "was not found" found = true ->
  p_destination module = Some destination ->
  destination ≠ "" ->
  p_port module = Some port_ ->
  let call := create_call (vs_name module) destination port_
                (fq_name (p_partition module) (p_pool module))
                (fq_list_names (p_partition module) (p_all_profiles module)) in
  API.tell api call (dev w) = (Raise (OperationFailed msg), d') ->
  main api str_is (arguments module) w
  = (Raise (SystemExit
              ("received exception: Error on creating Virtual Server : " +:+ msg)),
     World d' (log w ++ [call])).
Proof.
  intros Hstate Hcheck Hexists Hfound Hdest Hne Hport call Hcall. run.
  apply String.eqb_neq in Hstate. rewrite Hstate, Hcheck, Hexists. simpl.
  rewrite Hfound. simpl. rewrite Hdest, Hport. simpl.
  destruct destination; [done|]. simpl.
  fold call. rewrite Hcall. reflexivity.
Qed.

End MainFacts.

(** ** The node module *)

Section NodeFacts.
Context {D : Type} (api : Node.API.f5sdk D).

Local Abbreviation M := (Effect.M (Node.run (D:=D))).

(** *** Code that does not look at [check_mode] *)

Lemma inspects_ret {A} (a : A) : inspects (mret a : M A).
Proof. intros c s. split; reflexivity. Qed.

Lemma inspects_raise {A} (e : exn) : inspects (raise e : M A).
Proof. intros c s. split; reflexivity. Qed.

Lemma inspects_bind {A B} (m : M A) (k : A -> M B) :
  inspects m -> (forall a, inspects (k a)) -> inspects (m ≫= k).
Proof.
  intros Hm Hk c s. unfold mbind, M_bind, bind.
  destruct (Hm c s) as [-> Hdev].
  destruct (m s) as [[a|e] s']; simpl in *; [|by split].
  destruct (Hk a c s') as [-> Hdev']. split; [reflexivity|congruence].
Qed.

Lemma inspects_try {A} (m : M A) catches (h : exn -> M A) :
  inspects m -> (forall e, inspects (h e)) -> inspects (try_except m catches h).
Proof.
  intros Hm Hh c s. unfold try_except.
  destruct (Hm c s) as [-> Hdev].
  destruct (m s) as [[a|e] s']; simpl in *; [by split|].
  destruct (catches e); [|by split].
  destruct (Hh e c s') as [-> Hdev']. split; [reflexivity|congruence].
Qed.

Lemma inspects_on_want {A} (m : Effect.M Node.Parameters A) :
  inspects (D:=D) (Node.on_want m).
Proof.
  intros c s. unfold Node.on_want, Node.on_self, zoom. simpl.
  by destruct (m (Node.want (Node.self s))).
Qed.

Lemma inspects_observe {A} (q : D -> result A) :
  inspects (D:=D) (Node.on_device (observe q)).
Proof.
  intros c s. unfold Node.on_device, zoom, observe. simpl.
  by destruct s as [[d l] self].
Qed.

Lemma inspects_set_changes p :
  inspects (D:=D) (Node.on_self (modify_state (Node.set_changes p)) : M unit).
Proof. intros c s. split; reflexivity. Qed.

Lemma inspects_set_have p :
  inspects (D:=D) (Node.on_self (modify_state (Node.set_have p)) : M unit).
Proof. intros c s. split; reflexivity. Qed.

(** Splits a computation along its binds and branches. *)
Ltac inspect :=
  repeat first
    [ apply inspects_ret
    | apply inspects_raise
    | apply inspects_on_want
    | apply inspects_observe
    | apply inspects_set_changes
    | apply inspects_set_have
    | apply inspects_bind; [|intros ?]
    | apply inspects_try; [|intros ?]
    | match goal with
      | |- inspects (if ?b then _ else _) => destruct b
      | |- inspects (match ?x with _ => _ end) => destruct x
      end ].

Lemma inspects_exists : inspects (D:=D) (Node.exists_ api).
Proof. unfold Node.exists_, Node.the_want. inspect. Qed.

Lemma inspects_load : inspects (D:=D) (Node.load api).
Proof. unfold Node.load, Node.the_want. inspect. Qed.


Lemma inspects_update_changed_options have :
  inspects (D:=D) (Node._update_changed_options have).
Proof. unfold Node._update_changed_options. inspect. Qed.


Lemma inspects_keeps_mode {A} (m : M A) s :
  inspects m ->
  Node.check_mode (Node.self (snd (m s))) = Node.check_mode (Node.self s).
Proof.
  intros Hm. destruct s as [w [wa ha ch cm]].
  destruct (Hm cm (Node.Run w (Node.Build_Self wa ha ch cm))) as [Heq _].
  unfold with_mode in Heq. simpl in Heq. rewrite Heq at 1. reflexivity.
Qed.




(** *** A check-mode run against a real run *)

Lemma returns_true_ret : returns_true (mret true : M bool).
Proof. intros s b [= <-]. reflexivity. Qed.

Lemma returns_true_bind {A} (m : M A) (k : A -> M bool) :
  (forall a, returns_true (k a)) -> returns_true (m ≫= k).
Proof.
  intros Hk s b. unfold mbind, M_bind, bind.
  destruct (m s) as [[a|e] s']; simpl; [apply Hk|discriminate].
Qed.


Lemma dry_run_raise e : dry_run_agrees (raise e : M bool).
Proof. intros s. split; [reflexivity|]. by split. Qed.




Ltac returns_true :=
  repeat (apply returns_true_bind; intros ?); apply returns_true_ret.







(** How the queries and the attribute reads run. *)
Lemma run_the_want {A} (f : Node.Parameters -> A) (s : Node.run (D:=D)) :
  Node.the_want f s = (Ok (f (Node.want (Node.self s))), s).
Proof. by destruct s as [w [? ? ? ?]]. Qed.

Lemma run_check_mode (s : Node.run (D:=D)) :
  Node.client_check_mode s = (Ok (Node.check_mode (Node.self s)), s).
Proof. by destruct s as [w [? ? ? ?]]. Qed.

Lemma run_exists s :
  Node.exists_ api s
  = (Node.API.exists_ api (Node.name (Node.want (Node.self s)))
       (Node.partition (Node.want (Node.self s))) (dev (Node.device s)), s).
Proof.
  unfold Node.exists_, mbind, M_bind, bind. rewrite !run_the_want.
  by destruct s as [[d l] ?].
Qed.

Lemma run_load s :
  Node.load api s
  = (Node.API.load api (Node.name (Node.want (Node.self s)))
       (Node.partition (Node.want (Node.self s))) (dev (Node.device s)), s).
Proof.
  unfold Node.load, mbind, M_bind, bind. rewrite !run_the_want.
  by destruct s as [[d l] ?].
Qed.

(** Unfolds the methods down to the queries, and runs those. *)
Ltac step :=
  unfold Node.run_main, Node.main, Node.exec_module, Node.present, Node.absent,
    Node.update, Node.remove, Node.create, Node.read_current_from_device,
    Node.should_update, Node.fail_json in *;
  unfold mbind, M_bind, bind, try_except, mret, M_ret, ret, raise in *;
  repeat (rewrite ?run_the_want, ?run_check_mode, ?run_exists, ?run_load in *;
          simpl in * ).

(** *** A real run accounts for its calls *)

Lemma appends_inspects {A} (m : M A) : inspects m -> appends m.
Proof.
  intros Hm s. destruct (Hm false s) as [_ ->]. exists []. by rewrite app_nil_r.
Qed.

Lemma appends_ret {A} (a : A) : appends (mret a : M A).
Proof. apply appends_inspects, inspects_ret. Qed.

Lemma appends_raise {A} (e : exn) : appends (raise e : M A).
Proof. apply appends_inspects, inspects_raise. Qed.

Lemma appends_bind {A B} (m : M A) (k : A -> M B) :
  appends m -> (forall a, appends (k a)) -> appends (m ≫= k).
Proof.
  intros Hm Hk s. unfold mbind, M_bind, bind.
  destruct (Hm s) as [l Hl]. destruct (m s) as [[a|e] s1]; simpl in *; [|by exists l].
  destruct (Hk a s1) as [l' Hl']. exists (l ++ l'). by rewrite Hl', Hl, app_assoc.
Qed.

Lemma appends_mutate {A} c (f : D -> result A * D) :
  appends (D:=D) (Node.on_device (mutate c f)).
Proof.
  intros s. exists [c]. unfold Node.on_device, zoom, mutate. simpl.
  by destruct (f (dev (Node.device s))).
Qed.

Lemma appends_on_self {A} (m : Effect.M Node.Self A) :
  appends (D:=D) (Node.on_self m).
Proof.
  intros s. exists []. rewrite app_nil_r. unfold Node.on_self, zoom.
  by destruct (m (Node.self s)).
Qed.

Lemma appends_wait fuel resource :
  appends (D:=D) (Node._wait_for_fqdn_checks api fuel resource).
Proof.
  revert resource. induction fuel as [|fuel IH]; intros resource; simpl;
    (destruct (bool_decide _); [|apply appends_ret]); [apply appends_raise|].
  apply appends_bind; [apply appends_inspects, inspects_on_want|intros n].
  apply appends_bind; [apply appends_inspects, inspects_on_want|intros p].
  apply appends_bind; [|intros resource'; apply IH].
  intros s. exists []. rewrite app_nil_r. unfold Node.on_device, zoom. simpl.
  by destruct (Node.API.refresh api n p (dev (Node.device s))).
Qed.

Ltac appends :=
  repeat first
    [ apply appends_ret
    | apply appends_raise
    | apply appends_mutate
    | apply appends_on_self
    | apply appends_wait
    | apply appends_inspects, inspects_on_want
    | apply appends_inspects, inspects_exists
    | apply appends_inspects, inspects_load
    | apply appends_bind; [|intros ?]
    | match goal with
      | |- appends (if ?b then _ else _) => destruct b
      end ].

Lemma appends_modify_loaded params : appends (D:=D) (Node.modify_loaded api params).
Proof. unfold Node.modify_loaded, Node.the_want. appends. Qed.

Lemma appends_update_node_offline :
  appends (D:=D) (Node.update_node_offline_on_device api).
Proof.
  unfold Node.update_node_offline_on_device.
  apply appends_bind; [apply appends_inspects, inspects_load|intros _].
  apply appends_modify_loaded.
Qed.


















(** Check mode on a node that exists: [changed] is what
    [_update_changed_options] answers for the node as read, that is,
    whether the dictionary of changes has an entry. *)
Lemma dry_run_update_verdict fuel params d r b :
  mem_opt (Node.state params) ["present"; "enabled"; "disabled"; "offline"] = true ->
  Node.API.exists_ api (Node.name params) (Node.partition params) d = Ok true ->
  Node.API.load api (Node.name params) (Node.partition params) d = Ok r ->
  fst (Node._update_changed_options (Node.Parameters_of_attrs r)
         (Node.Run (World d [])
            (Node.set_have (Node.Parameters_of_attrs r)
               (Node.ModuleManager params true)))) = Ok b ->
  fst (Node.run_main api fuel params true d) = Ok b.
Proof.
  intros Hstate Hexists Hload Hdiff. step. rewrite Hstate. step.
  rewrite Hexists. step. rewrite Hload. step.
  unfold Node.set_have, Node.set_want, Node.ModuleManager in *. simpl in *.
  match goal with
  | H : fst (Node._update_changed_options ?h ?s0) = _ |- _ =>
      pose proof (inspects_keeps_mode _ s0 (inspects_update_changed_options h)) as Hmode;
      destruct (Node._update_changed_options h s0) as [[su|e] s']
  end; simpl in *; [|discriminate].
  injection Hdiff as ->. destruct b; simpl; [|reflexivity].
  by rewrite Hmode.
Qed.

(** *** Deletion and creation *)

(** A real run with [state=absent] on a node that exists: when the device
    fails the delete with an HTTP error, the module ends in [fail_json] with
    the message of the error, whatever it says. *)
Lemma node_delete_failure_is_fatal fuel params d r msg d' :
  Node.state params = Some "absent" ->
  Node.API.exists_ api (Node.name params) (Node.partition params) d = Ok true ->
  Node.API.load api (Node.name params) (Node.partition params) d = Ok r ->
  Node.API.r_truthy r = true ->
  Node.API.do_delete api (Node.name params) (Node.partition params) d
  = (Raise (IOError msg), d') ->
  Node.run_main api fuel params false d
  = (Raise (SystemExit msg),
     Node.Run (World d' [Node.API.delete (Node.name params) (Node.partition params)])
       (Node.ModuleManager params false)).
Proof.
  intros Hstate Hexists Hload Htruthy Hdelete. step. rewrite Hstate. step.
  rewrite Hexists. step.
  unfold Node.remove_from_device, mbind, M_bind, bind. step.
  rewrite Hload. step. rewrite Htruthy. step.
  unfold Node.on_device, zoom, mutate. simpl. rewrite Hdelete. reflexivity.
Qed.

(** With enough fuel the polling loop ends when the device lets it. *)
Lemma wait_for_fqdn_checks_terminates fuel k resource d d' l self :
  Node.leaves_checking api (Node.name (Node.want self))
    (Node.partition (Node.want self)) k resource d d' ->
  k <= fuel ->
  Node._wait_for_fqdn_checks api fuel resource (Node.Run (World d l) self)
  = (Ok tt, Node.Run (World d' l) self).
Proof.
  intros Hleaves. revert fuel.
  induction Hleaves as [resource d Hstate|k resource d resource' d' d'' Hstate Hrefresh _ IH];
    intros fuel Hfuel.
  - destruct fuel; simpl; rewrite bool_decide_eq_false_2 by done; reflexivity.
  - destruct fuel as [|fuel]; [lia|]. simpl.
    rewrite bool_decide_eq_true_2 by done.
    unfold mbind, M_bind, bind. rewrite !run_the_want. simpl.
    unfold Node.on_device, zoom. simpl. rewrite Hrefresh. simpl.
    apply IH. lia.
Qed.

(** *** Creation, step by step *)

(** A run state, field by field. *)
Local Abbreviation St d l wa ha ch cm :=
  (Node.Run (World d l)
     {| Node.want := wa; Node.have := ha; Node.changes := ch; Node.check_mode := cm |}).

Ltac on_state :=
  unfold Node.the_want, Node.client_check_mode, Node.on_want, Node.on_self,
    Node.on_device, Node.self_want, Node.self_want_, zoom, observe, mutate, lift,
    get_state, modify_state, fmap, M_fmap, mbind, M_bind, bind, mret, M_ret, ret,
    raise in *;
  simpl in *.

Lemma properties_of_parameters wa :
  Node.kind wa = None ->
  Node.monitor_type wa = Ok (Node.v_monitor_type wa)
  ∧ Node.quorum wa = Ok (Node.v_quorum wa)
  ∧ exists m, Node.monitors wa = Ok m.
Proof.
  intros Hkind. unfold Node.monitors, Node.monitor_type, Node.quorum.
  rewrite Hkind. simpl. repeat split.
  destruct (Node.v_monitors wa); [|by eexists].
  destruct (bool_decide _); by eexists.
Qed.

Lemma run_check_required (d : D) l wa ha ch cm :
  bool_decide (Node.address wa = None)
  = negb (bool_decide (Node.v_fqdn wa = None)) ->
  Node._check_required_creation_vars (St d l wa ha ch cm)
  = (Ok tt,
     St d l (if bool_decide (Node.v_fqdn wa = None) then wa
             else Node.update_address (Some "any6") wa) ha ch cm).
Proof.
  intros Hone. unfold Node._check_required_creation_vars, Node.fqdn. on_state.
  destruct (Node.address wa), (Node.v_fqdn wa); simpl in *; done.
Qed.

Lemma run_munge_offline (d : D) l wa ha ch cm :
  Node.state wa = Some "offline" ->
  Node._munge_creation_state_for_device (St d l wa ha ch cm)
  = (Ok tt,
     St d l (Node.update_session_state (Some "user-disabled") (Some "user-down")
               (Some true) wa) ha ch cm).
Proof.
  intros Hstate. unfold Node._munge_creation_state_for_device. on_state.
  rewrite Hstate. reflexivity.
Qed.

Lemma run_set_changed_options (d : D) l wa ha ch cm :
  Node.kind wa = None ->
  exists ch', Node._set_changed_options (St d l wa ha ch cm) = (Ok tt, St d l wa ha ch' cm).
Proof.
  intros Hkind. destruct (properties_of_parameters wa Hkind) as (Hmt & Hq & m & Hm).
  unfold Node._set_changed_options. on_state. rewrite Hmt, Hq, Hm. simpl.
  match goal with
  | |- context [if ?b then _ else _] => destruct b
  end; by eexists.
Qed.

Lemma run_create_on_device fuel (d : D) l wa ha ch cm payload resource d1 k d2 :
  Node.api_params wa = Ok payload ->
  Node.API.do_create api (Node.name wa) (Node.partition wa) payload d
  = (Ok resource, d1) ->
  Node.leaves_checking api (Node.name wa) (Node.partition wa) k resource d1 d2 ->
  k <= fuel ->
  Node.create_on_device api fuel (St d l wa ha ch cm)
  = (Ok tt,
     St d2 (l ++ [Node.API.create (Node.name wa) (Node.partition wa) payload])
       wa ha ch cm).
Proof.
  intros Hpayload Hcreate Hleaves Hfuel. unfold Node.create_on_device. on_state.
  rewrite Hpayload. simpl. rewrite Hcreate. simpl.
  by apply (wait_for_fqdn_checks_terminates fuel k).
Qed.

Lemma run_update_node_offline (d : D) l wa ha ch cm resource d' :
  Node.API.load api (Node.name wa) (Node.partition wa) d = Ok resource ->
  Node.API.do_modify api (Node.name wa) (Node.partition wa) Node.offline_payload d
  = (Ok tt, d') ->
  Node.update_node_offline_on_device api (St d l wa ha ch cm)
  = (Ok tt,
     St d' (l ++ [Node.API.modify (Node.name wa) (Node.partition wa)
                    Node.offline_payload]) wa ha ch cm).
Proof.
  intros Hload Hmodify.
  unfold Node.update_node_offline_on_device, Node.load, Node.modify_loaded. on_state.
  rewrite Hload. simpl. rewrite Hmodify. reflexivity.
Qed.

#[local] Arguments Node._check_required_creation_vars : simpl never.
#[local] Arguments Node._munge_creation_state_for_device : simpl never.
#[local] Arguments Node._set_changed_options : simpl never.
#[local] Arguments Node.create_on_device : simpl never.
#[local] Arguments Node.update_node_offline_on_device : simpl never.
#[local] Arguments Node.exists_ : simpl never.
#[local] Arguments Node.the_want : simpl never.
#[local] Arguments Node.client_check_mode : simpl never.
#[local] Arguments Node.offline_want : simpl never.

(** Creating a node that is to be offline, on a device that accepts the
    calls: a create whose payload carries the pair ([user-disabled],
    [user-down]), then one modify with the same pair. *)
Lemma offline_creation_calls fuel params d payload resource d1 k d2 resource2 d3 :
  let n := Node.name params in
  let p := Node.partition params in
  Node.state params = Some "offline" ->
  Node.kind params = None ->
  bool_decide (Node.address params = None)
  = negb (bool_decide (Node.v_fqdn params = None)) ->
  Node.API.exists_ api n p d = Ok false ->
  Node.api_params (Node.offline_want params) = Ok payload ->
  Node.API.do_create api n p payload d = (Ok resource, d1) ->
  Node.leaves_checking api n p k resource d1 d2 ->
  k <= fuel ->
  Node.API.exists_ api n p d2 = Ok true ->
  Node.API.load api n p d2 = Ok resource2 ->
  Node.API.do_modify api n p Node.offline_payload d2 = (Ok tt, d3) ->
  Node.p_session payload = Some "user-disabled"
  ∧ Node.p_state payload = Some "user-down"
  ∧ fst (Node.run_main api fuel params false d) = Ok true
  ∧ Node.device (snd (Node.run_main api fuel params false d))
    = World d3 [Node.API.create n p payload; Node.API.modify n p Node.offline_payload].
Proof.
  intros n p Hstate Hkind Hone Hexists Hpayload Hcreate Hleaves Hfuel Hexists2 Hload
    Hmodify.
  assert (Hsent : Node.p_session payload = Some "user-disabled"
                  ∧ Node.p_state payload = Some "user-down").
  { unfold Node.api_params, Node.bind_result in Hpayload.
    destruct (Node.monitors _); simplify_eq/=. by split. }
  destruct Hsent as [Hsession Hdown]. refine (conj Hsession (conj Hdown _)).
  unfold Node.run_main, Node.main, Node.exec_module, Node.present, Node.create,
    Node.ModuleManager, Node.fail_json.
  unfold mbind, M_bind, bind, try_except, mret, M_ret, ret.
  rewrite run_the_want. simpl. rewrite Hstate. simpl.
  rewrite ?run_exists. simpl. fold n p. rewrite Hexists. simpl.
  unfold Node.set_want. simpl.
  rewrite run_check_required by exact Hone.
  rewrite run_munge_offline
    by (destruct (bool_decide (Node.v_fqdn params = None)); exact Hstate).
  fold (Node.offline_want params).
  assert (Hwant : Node.name (Node.offline_want params) = n
                  ∧ Node.partition (Node.offline_want params) = p
                  ∧ Node.kind (Node.offline_want params) = None
                  ∧ Node.is_offline (Node.offline_want params) = Some true).
  { unfold Node.offline_want.
    destruct (bool_decide (Node.v_fqdn params = None)); by repeat split. }
  destruct Hwant as (Hn & Hp & Hk & Hoff).
  generalize dependent (Node.offline_want params). intros want' Hpayload Hn Hp Hk Hoff.
  destruct (run_set_changed_options d [] want' None (Node.empty "Common") false Hk)
    as [ch' ->].
  rewrite ?run_check_mode. simpl.
  rewrite (run_create_on_device fuel d [] _ None ch' false payload resource d1 k d2)
    by (rewrite ?Hn, ?Hp; assumption).
  rewrite ?run_exists. simpl. rewrite Hn, Hp, Hexists2. simpl.
  rewrite ?run_the_want. simpl. unfold Node.set_want. simpl. rewrite Hoff. simpl.
  rewrite (run_update_node_offline d2 _ _ None ch' false resource2 d3)
    by (rewrite ?Hn, ?Hp; assumption).
  rewrite Hn, Hp. split; reflexivity.
Qed.

(** *** The guards of [monitor_type=single] on an existing node *)

Lemma properties_of_attrs r :
  (exists q, Node.quorum (Node.Parameters_of_attrs r) = Ok q)
  ∧ exists mt, Node.monitor_type (Node.Parameters_of_attrs r) = Ok mt.
Proof.
  unfold Node.quorum, Node.monitor_type, Node.Parameters_of_attrs. simpl.
  split.
  - destruct (bool_decide _); [|by eexists].
    destruct (Node.API.r_monitor r); by eexists.
  - destruct (bool_decide _); [|by eexists].
    destruct (Node.API.r_monitor r); [|by eexists].
    simpl. destruct (bool_decide _); by eexists.
Qed.

(** What [Difference.monitor_type] does with [single]: more than one
    wanted monitor is an error; no wanted monitor while the node has several
    is an error; otherwise [want.monitor_type] becomes [and_list], and the
    change reported, if any, is [and_list]. *)
Lemma single_monitor_type r wa :
  let have := Node.Parameters_of_attrs r in
  let wanted := length (Node.monitors_list wa) in
  let current := length (Node.monitors_list have) in
  Node.kind wa = None ->
  Node.v_monitor_type wa = Some "single" ->
  exists q hmt,
    let wa' := Node.update_quorum q wa in
    Node.monitor_type have = Ok hmt
    ∧ Node.Difference_monitor_type have wa
    = if Nat.ltb 1 wanted then
        (Raise (F5ModuleError
           "When using a 'monitor_type' of 'single', only one monitor may be provided."),
         wa')
      else if Nat.ltb 1 current && Nat.eqb wanted 0 then
        (Raise (F5ModuleError
           "A single monitor must be specified if more than one monitor currently exists on your pool."),
         wa')
      else
        (Ok (if bool_decide (hmt = Some "and_list") then None else Some "and_list"),
         Node.update_monitor_type (Some "and_list") wa').
Proof.
  intros have wanted current Hkind Hsingle.
  destruct (properties_of_attrs r) as [[hq Hhq] [hmt Hhmt]]. fold have in Hhq, Hhmt.
  exists (match Node.v_quorum wa with Some q => Some q | None => hq end), hmt.
  split; [exact Hhmt|].
  subst wanted current.
  destruct wa as [k n p a f de mt q ms st se off]. simpl in Hkind, Hsingle. subst k mt.
  unfold Node.Difference_monitor_type, Node.self_want, Node.self_want_.
  unfold mbind, M_bind, bind, fmap, M_fmap, bind, Effect.get_state, lift, modify_state,
    mret, M_ret, ret, raise.
  unfold Node.monitor_type at 1, Node.quorum at 1. simpl.
  destruct q as [q|]; simpl.
  - unfold Node.update_quorum. simpl.
    destruct (Nat.ltb 1 _); [reflexivity|].
    destruct (Nat.ltb 1 _ && Nat.eqb _ 0); [reflexivity|].
    simpl. rewrite Hhmt. simpl.
    repeat case_bool_decide; simplify_eq/=; try reflexivity; congruence.
  - rewrite Hhq. simpl. unfold Node.update_quorum. simpl.
    destruct (Nat.ltb 1 _); [reflexivity|].
    destruct (Nat.ltb 1 _ && Nat.eqb _ 0); [reflexivity|].
    simpl. rewrite Hhmt. simpl.
    repeat case_bool_decide; simplify_eq/=; try reflexivity; congruence.
Qed.

(** On an existing node a violation of the guards ends the module in
    [fail_json], in check mode or not, with no call issued. *)
Lemma single_guards_before_any_call fuel params cm d r :
  let wanted := length (Node.monitors_list params) in
  let current := length (Node.monitors_list (Node.Parameters_of_attrs r)) in
  mem_opt (Node.state params) ["present"; "enabled"; "disabled"; "offline"] = true ->
  Node.API.exists_ api (Node.name params) (Node.partition params) d = Ok true ->
  Node.API.load api (Node.name params) (Node.partition params) d = Ok r ->
  Node.kind params = None ->
  Node.v_monitor_type params = Some "single" ->
  1 < wanted ∨ (wanted = 0 ∧ 1 < current) ->
  exists msg,
    fst (Node.run_main api fuel params cm d) = Raise (SystemExit msg)
    ∧ Node.device (snd (Node.run_main api fuel params cm d)) = World d []
    ∧ msg = if Nat.ltb 1 wanted
            then "When using a 'monitor_type' of 'single', only one monitor may be provided."
            else "A single monitor must be specified if more than one monitor currently exists on your pool.".
Proof.
  intros wanted current Hstate Hexists Hload Hkind Hsingle Hbad.
  destruct (single_monitor_type r params Hkind Hsingle) as (q & hmt & _ & Hdiff).
  fold wanted current in Hdiff.
  assert (Hraise : exists msg,
             Node.Difference_monitor_type (Node.Parameters_of_attrs r) params
             = (Raise (F5ModuleError msg), Node.update_quorum q params)
             ∧ msg = if Nat.ltb 1 wanted
                     then "When using a 'monitor_type' of 'single', only one monitor may be provided."
                     else "A single monitor must be specified if more than one monitor currently exists on your pool.").
  { destruct (Nat.ltb 1 wanted) eqn:Hw; [by eexists|].
    destruct Hbad as [Hbad|[Hw0 Hc]]; [apply Nat.ltb_lt in Hbad; congruence|].
    apply Nat.ltb_lt in Hc. rewrite Hc, Hw0 in Hdiff. simpl in Hdiff. by eexists. }
  destruct Hraise as (msg & Hraise & Hmsg). exists msg.
  step. rewrite Hstate. step. rewrite Hexists. step. rewrite Hload. step.
  unfold Node._update_changed_options, Node.compare_monitor_type. on_state.
  unfold try_except. rewrite Hraise. simpl. by repeat split.
Qed.

End NodeFacts.




(** C4, as amended.  Virtual server: when the existence check answers yes
    and the delete call then fails with a "was not found" message, the pass
    reports unchanged and does not fail.  Node: the failure of the delete
    call is not inspected; whatever its message, the pass ends in
    [fail_json] with that message. *)
Theorem delete_race :
  (forall D (api : API.bigsuds D) str_is module d msg d',
     p_state module = "absent" ->
     check_mode module = false ->
     API.ask api (API.get_object_status (vs_name module)) d = Ok tt ->
     API.tell api (API.delete_virtual_server (vs_name module)) d
     = (Raise (OperationFailed msg), d') ->
     contains "was not found" msg = true ->
     run_main api str_is module d
     = (Ok (Result false None),
        World d' [API.delete_virtual_server (vs_name module)]))
  ∧ (forall D (api : Node.API.f5sdk D) fuel params d r msg d',
       Node.state params = Some "absent" ->
       Node.API.exists_ api (Node.name params) (Node.partition params) d = Ok true ->
       Node.API.load api (Node.name params) (Node.partition params) d = Ok r ->
       Node.API.r_truthy r = true ->
       Node.API.do_delete api (Node.name params) (Node.partition params) d
       = (Raise (IOError msg), d') ->
       Node.run_main api fuel params false d
       = (Raise (SystemExit msg),
          Node.Run
            (World d' [Node.API.delete (Node.name params) (Node.partition params)])
            (Node.ModuleManager params false))).
Proof.
  split.
  - intros D api str_is module d msg d' Hstate Hcheck Hexists Hdelete Hmsg.
    unfold run_main.
    by rewrite (race_tolerant_delete api str_is module (World d []) msg d').
  - intros. by eapply node_delete_failure_is_fatal.
Qed.

Lemma delete_race_witness :
  run_main bigip_api fresh_strings (task "absent" false) raced_delete
  = (Ok (Result false None),
     World raced_delete [API.delete_virtual_server "/Common/vs1"])
  ∧ fst (Node.run_main rest_api 0 (node_task "absent" None None) false
           raced_node_delete)
    = Raise (SystemExit "404 Unexpected Error: Not Found for uri: /mgmt/tm/ltm/node/~Common~node1 01020036:3: The requested node (/Common/node1) was not found.").
Proof.
  destruct delete_race as [Hvs Hnode]. split.
  - exact (Hvs _ bigip_api fresh_strings (task "absent" false) raced_delete _ raced_delete
             eq_refl eq_refl eq_refl eq_refl eq_refl).
  - rewrite (Hnode _ rest_api 0%nat (node_task "absent" None None) raced_node_delete
               _ _ raced_node_delete eq_refl eq_refl eq_refl eq_refl eq_refl).
    reflexivity.
Defined.

(** C4 as stated fails on the node module: the node exists, the delete
    fails with a "was not found" message, and the pass ends in [fail_json]
    rather than in [changed=false]. *)
Lemma node_delete_race_is_fatal :
  Node.API.exists_ rest_api (Some "node1") "Common" raced_node_delete = Ok true
  ∧ contains "was not found" (default "" (node_delete_error raced_node_delete)) = true
  ∧ exists msg,
      fst (Node.run_main rest_api 0 (node_task "absent" None None) false
             raced_node_delete)
      = Raise (SystemExit msg).
Proof.
  split; [reflexivity|]. split; [vm_compute; reflexivity|].
  eexists. vm_compute. reflexivity.
Qed.

(** C5: the code departs from the claim.  The virtual server is not on the
    device when the module looks, and the device answers the create call
    with "already exists": [vs_create] catches the failure only to raise it
    again as an [Exception], and [main] turns that into [fail_json].  The
    message is not inspected. *)
Theorem create_race_is_fatal :
  fst (vs_exists bigip_api "/Common/vs1" (World raced_create [])) = Ok false
  ∧ run_main bigip_api fresh_strings (create_task false) raced_create
    = (Raise (SystemExit "received exception: Error on creating Virtual Server : 01020066:3: The requested virtual server (/Common/vs1) already exists in partition Common."),
       World raced_create
         [create_call "/Common/vs1" "10.0.0.5" 443 None None]).
Proof. split; vm_compute; reflexivity. Qed.

(** The node module does no better: [create_on_device] has no handler, and
    the HTTP error of the create call ends the module in [fail_json]. *)
Example node_create_race_is_fatal :
  exists msg,
    fst (Node.run_main rest_api 0 (node_task "present" None None) false
           raced_node_create)
    = Raise (SystemExit msg)
    ∧ contains "already exists" msg = true.
Proof. eexists. split; vm_compute; reflexivity. Qed.

(** C3, as amended.  Creating a node that is to be offline makes exactly
    two mutating calls when the device accepts them: one create, whose payload
    carries [session=user-disabled] and [state=user-down], and, once the node
    has left [fqdn-checking] and the existence check has confirmed the
    creation, one modify with [session=user-disabled] and [state=user-down]. *)
Theorem offline_creation {D} (api : Node.API.f5sdk D) (fuel : nat)
    (params : Node.Parameters) (d d1 d2 d3 : D) (payload : Node.payload)
    (resource resource2 : Node.API.resource) (k : nat) :
  let n := Node.name params in
  let p := Node.partition params in
  Node.state params = Some "offline" ->
  Node.kind params = None ->
  bool_decide (Node.address params = None)
  = negb (bool_decide (Node.v_fqdn params = None)) ->
  Node.API.exists_ api n p d = Ok false ->
  Node.api_params (Node.offline_want params) = Ok payload ->
  Node.API.do_create api n p payload d = (Ok resource, d1) ->
  Node.leaves_checking api n p k resource d1 d2 ->
  k <= fuel ->
  Node.API.exists_ api n p d2 = Ok true ->
  Node.API.load api n p d2 = Ok resource2 ->
  Node.API.do_modify api n p Node.offline_payload d2 = (Ok tt, d3) ->
  Node.p_session payload = Some "user-disabled"
  ∧ Node.p_state payload = Some "user-down"
  ∧ fst (Node.run_main api fuel params false d) = Ok true
  ∧ Node.device (snd (Node.run_main api fuel params false d))
    = World d3 [Node.API.create n p payload; Node.API.modify n p Node.offline_payload].
Proof. apply offline_creation_calls. Qed.

(** An instance: a node given by FQDN, on a device that keeps it in
    [fqdn-checking] for two refreshes; three units of fuel are enough. *)
Lemma offline_creation_witness :
  let payload :=
    Node.Payload None None (Some "any6")
      (Some (Node.FqdnDict "ipv4" "disabled" 3600 (Node.FqdnName "foo.bar.com")))
      (Some "user-disabled") (Some "user-down") in
  Node.api_params (Node.offline_want offline_fqdn_task) = Ok payload
  ∧ fst (Node.run_main rest_api 3 offline_fqdn_task false slow_dns) = Ok true
  ∧ log (Node.device (snd (Node.run_main rest_api 3 offline_fqdn_task false slow_dns)))
    = [Node.API.create (Some "node1") "Common" payload;
       Node.API.modify (Some "node1") "Common" Node.offline_payload].
Proof.
  intros payload. split; [reflexivity|].
  pose (created := fst (Node.API.do_create rest_api (Some "node1") "Common" payload slow_dns)).
  pose (d1 := snd (Node.API.do_create rest_api (Some "node1") "Common" payload slow_dns)).
  pose (d2 := snd (rest_refresh (Some "node1") "Common"
                     (snd (rest_refresh (Some "node1") "Common" d1)))).
  pose (d3 := snd (rest_modify (Some "node1") "Common" Node.offline_payload d2)).
  destruct (offline_creation rest_api 3 offline_fqdn_task slow_dns d1 d2 d3 payload
              (Node.API.Resource (Some Node.node_kind) (Some "node1") "Common"
                 (Some "any6") None None (Some "user-disabled") (Some "fqdn-checking")
                 None true)
              (the_node d2) 2)
    as (_ & _ & Hresult & Hdevice);
    try reflexivity.
  - eapply Node.leaves_later; [reflexivity|reflexivity|].
    eapply Node.leaves_later; [reflexivity|reflexivity|].
    apply Node.leaves_now. discriminate.
  - lia.
  - split; [exact Hresult|]. rewrite Hdevice. reflexivity.
Defined.

(** C3 as stated fails: the payload of the create call does contain
    [state=user-down]; the pair sent is not ([user-disabled], [user-up]). *)
Lemma offline_create_sends_user_down :
  let payload :=
    Node.Payload None None (Some "10.0.0.1") None (Some "user-disabled")
      (Some "user-down") in
  log (Node.device
         (snd (Node.run_main rest_api 0 (node_task "offline" None None) false no_node)))
  = [Node.API.create (Some "node1") "Common" payload;
     Node.API.modify (Some "node1") "Common" Node.offline_payload]
  ∧ Node.p_state payload = Some "user-down"
  ∧ Node.p_state payload ≠ Some "user-up".
Proof.
  intros payload. split; [vm_compute; reflexivity|].
  split; [reflexivity|discriminate].
Qed.

(** C6: the code departs from the claim.  The guards of [single] sit in
    [Difference.monitor_type], which only the update of an existing node
    runs.  When the node does not exist yet, [monitor_type=single] with two
    monitors raises nothing: the node is created with both. *)
Theorem single_is_not_checked_on_creation :
  Node.run_main rest_api 0
    (node_task "present" (Some "single") (Some ["/Common/icmp"; "/Common/tcp"]))
    false no_node
  = (Ok true,
     Node.Run
       (World
          (BigIPRest true
             (Node.API.Resource (Some Node.node_kind) (Some "node1") "Common"
                (Some "10.0.0.1") (Some "/Common/icmp and /Common/tcp") None
                (Some "user-enabled") (Some "unchecked") None true)
             0 None None)
          [Node.API.create (Some "node1") "Common"
             (Node.Payload (Some "/Common/icmp and /Common/tcp") None (Some "10.0.0.1")
                None (Some "user-enabled") (Some "user-up"))])
       {| Node.want :=
            Node.update_session_state (Some "user-enabled") (Some "user-up") None
              (node_task "present" (Some "single")
                 (Some ["/Common/icmp"; "/Common/tcp"]));
          Node.have := None;
          Node.changes :=
            Node.Changes (Some "single") None (Some "/Common/icmp and /Common/tcp")
              None None (Some "user-enabled") (Some "user-up");
          Node.check_mode := false |}).
Proof. vm_compute. reflexivity. Qed.

(** On a node that exists the guards do fire, before any call. *)
Example single_is_checked_on_update :
  Node.run_main rest_api 0
    (node_task "present" (Some "single") (Some ["/Common/icmp"; "/Common/tcp"]))
    false node1
  = (Raise (SystemExit
       "When using a 'monitor_type' of 'single', only one monitor may be provided."),
     Node.Run (World node1 [])
       (Node.set_have (Node.Parameters_of_attrs (the_node node1))
          (Node.ModuleManager
             (node_task "present" (Some "single")
                (Some ["/Common/icmp"; "/Common/tcp"])) false))).
Proof. vm_compute. reflexivity. Qed.

Example single_without_monitor_is_checked_on_update :
  fst (Node.run_main rest_api 0 (node_task "present" (Some "single") None) false node1)
  = Raise (SystemExit
      "A single monitor must be specified if more than one monitor currently exists on your pool.").
Proof. vm_compute. reflexivity. Qed.

(** C7: the code departs from the claim.  The expression rendered for
    [m_of_n] with quorum 2 is parsed back, on the node that carries it, into
    the same list of monitors and the type [m_of_n], but into no quorum: the
    [quorum] property parses the expression only for an object whose [kind]
    is that of a pool, which a node never has.  Read as a pool, the
    expression gives back the quorum and loses the type. *)
Theorem m_of_n_quorum_is_not_parsed_back :
  let wanted :=
    Node.update_quorum (Some 2%Z)
      (node_task "present" (Some "m_of_n") (Some ["/Common/icmp"; "/Common/tcp"])) in
  let expression := "min 2 of { /Common/icmp /Common/tcp }" in
  let as_node := Node.Parameters_of_attrs (a_node (Some expression) None None) in
  let as_pool := Node.update_session_state None None None
                   {| Node.kind := Some Node.pool_kind; Node.name := None;
                      Node.partition := "Common"; Node.address := None;
                      Node.v_fqdn := None; Node.description := None;
                      Node.v_monitor_type := None; Node.v_quorum := None;
                      Node.v_monitors := Some (Node.MonitorsStr expression);
                      Node.state := None; Node.session := None;
                      Node.is_offline := None |} in
  Node.monitors wanted = Ok (Some expression)
  ∧ Node.monitors_list as_node = ["/Common/icmp"; "/Common/tcp"]
  ∧ Node.monitor_type as_node = Ok (Some "m_of_n")
  ∧ Node.quorum as_node = Ok None
  ∧ Node.quorum as_pool = Ok (Some 2%Z)
  ∧ Node.monitor_type as_pool = Ok None.
Proof. cbv zeta. repeat apply conj; vm_compute; reflexivity. Qed.

(** The [and_list] round trip does hold on this expression. *)
Example and_list_is_parsed_back :
  let wanted :=
    node_task "present" (Some "and_list") (Some ["/Common/icmp"; "/Common/tcp"]) in
  let expression := "/Common/icmp and /Common/tcp" in
  let as_node := Node.Parameters_of_attrs (a_node (Some expression) None None) in
  Node.monitors wanted = Ok (Some expression)
  ∧ Node.monitors_list as_node = ["/Common/icmp"; "/Common/tcp"]
  ∧ Node.monitor_type as_node = Ok (Some "and_list")
  ∧ Node.quorum as_node = Ok None.
Proof. cbv zeta. repeat apply conj; vm_compute; reflexivity. Qed.

(** ** The round trip of monitor expressions, in general

    What holds of rendering and parsing back for every quorum and every
    list of fully-qualified names. *)

Section RoundTrip.

#[local] Arguments String.append : simpl nomatch.

Lemma append_assoc (a b c : string) : (a +:+ b) +:+ c = a +:+ (b +:+ c).
Proof. induction a as [|x a IH]; simpl; [reflexivity | now rewrite IH]. Qed.

Lemma append_empty_r (a : string) : a +:+ "" = a.
Proof. induction a as [|x a IH]; simpl; [reflexivity | now rewrite IH]. Qed.

Lemma all_chars_app p (a b : string) :
  Re.all_chars p (a +:+ b) = Re.all_chars p a && Re.all_chars p b.
Proof.
  induction a as [|x a IH]; simpl; [reflexivity|].
  rewrite IH. now rewrite andb_assoc.
Qed.

Lemma all_chars_weaken (p q : ascii -> bool) (a : string) :
  (forall c, p c = true -> q c = true) ->
  Re.all_chars p a = true -> Re.all_chars q a = true.
Proof.
  intros Hpq. induction a as [|x a IH]; simpl; [reflexivity|].
  intros [Hx Ha]%andb_prop. rewrite (Hpq _ Hx), (IH Ha). reflexivity.
Qed.

(** A greedy repetition takes a run of its class whole when the class
    cannot go on into what follows. *)
Lemma span_app p (a b : string) :
  Re.all_chars p a = true -> Re.head_is p b = false ->
  Re.span p (a +:+ b) = (a, b).
Proof.
  intros Ha Hb. induction a as [|x a IH]; simpl in *.
  - destruct b as [|c b]; simpl in *; [reflexivity | now rewrite Hb].
  - apply andb_prop in Ha as [Hx Ha]. rewrite Hx, (IH Ha). reflexivity.
Qed.

Lemma plus_app p (a b : string) :
  a ≠ "" -> Re.all_chars p a = true -> Re.head_is p b = false ->
  Re.plus p (a +:+ b) = Some (a, b).
Proof.
  intros Hne Ha Hb. unfold Re.plus. rewrite (span_app _ _ _ Ha Hb).
  destruct a; [congruence | reflexivity].
Qed.

Lemma drop_prefix_app (a b : string) : Re.drop_prefix a (a +:+ b) = Some b.
Proof.
  induction a as [|x a IH]; simpl; [now destruct b|].
  now rewrite Ascii.eqb_refl.
Qed.

(** The monitor pattern, tried where a fully-qualified name starts and
    followed by a blank, a brace or nothing, matches that name. *)
Lemma match_monitor_at_qualified (x rest : string) :
  Node.qualified x -> Re.head_is Re.not_space_or_brace rest = false ->
  Re.match_monitor_at (x +:+ rest) = Some x.
Proof.
  intros (part & nm & -> & Hpart & Hword & Hnm & Hname) Hrest.
  unfold Re.match_monitor_at.
  change (("/" +:+ part +:+ "/" +:+ nm) +:+ rest)
    with ("/" +:+ ((part +:+ "/" +:+ nm) +:+ rest)).
  rewrite drop_prefix_app. simpl.
  rewrite append_assoc.
  rewrite plus_app by (assumption || reflexivity). simpl.
  rewrite plus_app by assumption. reflexivity.
Qed.

Lemma findall_from_skip (a b : string) :
  Re.findall_from (String.length a) (a +:+ b) = Re.findall_from 0 b.
Proof. induction a as [|x a IH]; simpl; [now destruct b | exact IH]. Qed.

Lemma findall_from_no_slash (a b : string) :
  Re.all_chars Re.not_slash a = true ->
  Re.findall_from 0 (a +:+ b) = Re.findall_from 0 b.
Proof.
  induction a as [|x a IH]; simpl; [reflexivity|].
  intros [Hx Ha]%andb_prop.
  replace (Re.match_monitor_at (String x (a +:+ b))) with (@None string).
  - exact (IH Ha).
  - clear -Hx. unfold Re.match_monitor_at.
    destruct x as [[] [] [] [] [] [] [] []]; try reflexivity; discriminate.
Qed.

Lemma findall_from_qualified (x rest : string) :
  Node.qualified x -> Re.head_is Re.not_space_or_brace rest = false ->
  Re.findall_from 0 (x +:+ rest) = x :: Re.findall_from 0 rest.
Proof.
  intros Hx Hrest. pose proof (match_monitor_at_qualified _ _ Hx Hrest) as Hm.
  destruct Hx as (part & nm & Hx & _). 
  destruct x as [|c x]; [discriminate|].
  simpl in *. rewrite Hm. f_equal.
  change (String.length (String c x) - 1) with (String.length x - 0).
  rewrite Nat.sub_0_r. apply findall_from_skip.
Qed.

(** [findall] takes the names back out of a list joined by a separator
    that starts with a blank and holds no [/]. *)
Lemma findall_join (sep tail : string) (M : list string) :
  Forall Node.qualified M ->
  sep ≠ "" ->
  Re.head_is Re.not_space_or_brace sep = false ->
  Re.all_chars Re.not_slash sep = true ->
  Re.head_is Re.not_space_or_brace tail = false ->
  Re.findall_from 0 tail = [] ->
  Re.findall_from 0 (join sep M +:+ tail) = M.
Proof.
  intros HM Hne Hsep Hslash Htail Hnone. unfold join.
  induction HM as [|x M Hx HM IH]; [exact Hnone|].
  destruct M as [|y M].
  - simpl. rewrite findall_from_qualified by assumption. now rewrite Hnone.
  - change (String.concat sep (x :: y :: M))
      with (x +:+ sep +:+ String.concat sep (y :: M)).
    rewrite !append_assoc.
    rewrite findall_from_qualified; [|assumption|].
    + rewrite findall_from_no_slash by assumption. now rewrite IH.
    + destruct sep; [congruence | exact Hsep].
Qed.


(** *** Fully-qualified names *)

Lemma isword_not_space (c : ascii) : isword c = true -> Re.not_space c = true.
Proof. destruct c as [[] [] [] [] [] [] [] []]; vm_compute; congruence. Qed.

Lemma name_char_not_space (c : ascii) :
  Re.not_space_or_brace c = true -> Re.not_space c = true.
Proof. unfold Re.not_space_or_brace, Re.not_space. now intros [? _]%andb_prop. Qed.

Lemma isdigit_not_slash (c : ascii) : isdigit c = true -> Re.not_slash c = true.
Proof. destruct c as [[] [] [] [] [] [] [] []]; vm_compute; congruence. Qed.

Lemma qualified_head (x : string) :
  Node.qualified x -> exists x', x = String "/" x'.
Proof. intros (part & nm & -> & _). eexists. reflexivity. Qed.

Lemma qualified_no_space (x : string) :
  Node.qualified x -> Re.all_chars Re.not_space x = true.
Proof.
  intros (part & nm & -> & _ & Hword & _ & Hname).
  rewrite !all_chars_app.
  rewrite (all_chars_weaken _ _ _ isword_not_space Hword).
  rewrite (all_chars_weaken _ _ _ name_char_not_space Hname).
  reflexivity.
Qed.

Lemma join_head (sep : string) (x : string) (M : list string) :
  Node.qualified x -> exists r, join sep (x :: M) = String "/" r.
Proof.
  intros [x' ->]%qualified_head. unfold join.
  destruct M; simpl; eexists; reflexivity.
Qed.

(** [_fqdn_name] leaves a fully-qualified name as it is. *)
Lemma fqdn_name_qualified (p : Node.Parameters) (M : list string) :
  Forall Node.qualified M -> map (Node._fqdn_name p) M = M.
Proof.
  induction 1 as [|x M Hx _ IH]; [reflexivity|].
  simpl. rewrite IH. f_equal.
  destruct (qualified_head _ Hx) as [x' ->]. now destruct x'.
Qed.

(** *** [strip] *)

Lemma lstrip_head (s : string) : Re.head_is isspace s = false -> lstrip s = s.
Proof. destruct s; simpl; [reflexivity | now intros ->]. Qed.

Lemma rstrip_no_space (x : string) :
  Re.all_chars Re.not_space x = true -> rstrip x = x.
Proof.
  induction x as [|c x IH]; simpl; [reflexivity|].
  intros [Hc Hx]%andb_prop. rewrite (IH Hx).
  unfold Re.not_space in Hc. apply negb_true_iff in Hc. rewrite Hc.
  now destruct x.
Qed.

Lemma rstrip_app (a x : string) :
  x ≠ "" -> rstrip x = x -> rstrip (a +:+ x) = a +:+ x.
Proof.
  intros Hne Hx. induction a as [|c a IH]; simpl; [exact Hx|].
  rewrite IH. destruct (a +:+ x) eqn:E; [|reflexivity].
  destruct a; simpl in E; [congruence | discriminate].
Qed.

Lemma rstrip_join (sep : string) (M : list string) :
  Forall Node.qualified M ->
  rstrip (join sep M) = join sep M ∧ (M ≠ [] -> join sep M ≠ "").
Proof.
  unfold join. induction 1 as [|x M Hx HM [IH Hne]]; [now split|].
  destruct (qualified_head _ Hx) as [x' ->].
  destruct M as [|y M].
  - split; [|discriminate]. apply rstrip_no_space, qualified_no_space, Hx.
  - change (String.concat sep (String "/" x' :: y :: M))
      with (String "/" x' +:+ sep +:+ String.concat sep (y :: M)).
    split; [|discriminate].
    rewrite <- append_assoc. apply rstrip_app; [apply Hne; discriminate | exact IH].
Qed.

Lemma strip_join (sep : string) (M : list string) :
  Forall Node.qualified M -> strip (join sep M) = join sep M.
Proof.
  intros HM. unfold strip. rewrite lstrip_head; [now apply rstrip_join|].
  destruct HM as [|x M Hx HM]; [reflexivity|].
  destruct (join_head sep x M Hx) as [r ->]. reflexivity.
Qed.

(** *** The quorum pattern *)

Lemma span_split p (s a b : string) : Re.span p s = (a, b) -> s = a +:+ b.
Proof.
  revert a b. induction s as [|c s IH]; simpl; intros a b.
  - now intros [= <- <-].
  - destruct (p c); [|now intros [= <- <-]].
    destruct (Re.span p s) as [a' b'] eqn:E. intros [= <- <-].
    simpl. f_equal. now apply IH.
Qed.

Lemma plus_head p (s a b : string) :
  Re.plus p s = Some (a, b) -> Re.head_is p s = true.
Proof.
  unfold Re.plus. destruct s as [|c s]; simpl; [discriminate|].
  destruct (p c); [reflexivity|discriminate].
Qed.

Lemma plus_span p (s a b : string) :
  Re.plus p s = Some (a, b) -> Re.span p s = (a, b) ∧ a ≠ "".
Proof.
  unfold Re.plus. destruct (Re.span p s) as [[|c a'] b'];
    [discriminate | intros [= <- <-]; now split].
Qed.

Lemma drop_prefix_split (a s r : string) :
  Re.drop_prefix a s = Some r -> s = a +:+ r.
Proof.
  revert s. induction a as [|c a IH]; intros s; simpl.
  - destruct s; now intros [= <-].
  - destruct s as [|c' s]; [discriminate|].
    destruct (Ascii.eqb_spec c c') as [<-|]; [|discriminate].
    intros H. simpl. f_equal. now apply IH.
Qed.

Lemma blanks_then_digit (s ws r : string) :
  Re.span isspace s = (ws, r) -> ws ≠ "" -> Re.head_is isdigit r = true ->
  Re.blank_then_digit s = true.
Proof.
  revert ws. induction s as [|c s IH]; simpl; intros ws.
  - now intros [= <- <-].
  - destruct (isspace c) eqn:Hc; [|now intros [= <- <-]].
    destruct (Re.span isspace s) as [a b] eqn:E. intros [= <- <-] _ Hr.
    destruct a as [|c' a].
    + apply span_split in E. simpl in E. subst b. now rewrite Hr.
    + rewrite (IH _ eq_refl) by (discriminate || assumption).
      apply orb_true_r.
Qed.

(** The quorum pattern matches nowhere in a text in which no blank is
    followed by a digit. *)
Lemma match_quorum_at_needs_blank_digit (s : string) :
  Re.blank_then_digit s = false -> Re.match_quorum_at s = None.
Proof.
  intros Hs. unfold Re.match_quorum_at.
  destruct (Re.drop_prefix "min" s) as [r1|] eqn:E1; [|reflexivity].
  apply drop_prefix_split in E1. subst s.
  assert (Hr1 : Re.blank_then_digit r1 = false).
  { exact Hs. }
  simpl.
  destruct (Re.plus isspace r1) as [[ws r2]|] eqn:E2; [|reflexivity]. simpl.
  destruct (Re.plus isdigit r2) as [[q r3]|] eqn:E3; [|reflexivity].
  apply plus_span in E2 as [E2 Hws]. apply plus_head in E3.
  rewrite (blanks_then_digit _ _ _ E2 Hws E3) in Hr1. discriminate.
Qed.

Lemma search_quorum_needs_blank_digit (s : string) :
  Re.blank_then_digit s = false -> Re.search_quorum s = None.
Proof.
  induction s as [|c s IH]; [reflexivity|].
  intros Hs. cbn [Re.search_quorum].
  rewrite (match_quorum_at_needs_blank_digit _ Hs).
  simpl in Hs. apply orb_false_elim in Hs as [_ Hs]. now apply IH.
Qed.

Lemma blank_then_digit_app (a b : string) :
  Re.all_chars Re.not_space a = true ->
  Re.blank_then_digit (a +:+ b) = Re.blank_then_digit b.
Proof.
  induction a as [|c a IH]; simpl; [reflexivity|].
  intros [Hc Ha]%andb_prop. unfold Re.not_space in Hc.
  apply negb_true_iff in Hc. rewrite Hc. simpl. now apply IH.
Qed.

Lemma blank_then_digit_and_list (M : list string) :
  Forall Node.qualified M -> Re.blank_then_digit (join " and " M) = false.
Proof.
  unfold join. induction 1 as [|x M Hx HM IH]; [reflexivity|].
  destruct M as [|y M].
  - simpl. rewrite <- (append_empty_r x).
    now rewrite blank_then_digit_app by now apply qualified_no_space.
  - change (String.concat " and " (x :: y :: M))
      with (x +:+ " and " +:+ String.concat " and " (y :: M)).
    rewrite blank_then_digit_app by now apply qualified_no_space.
    inversion HM as [|? ? Hy _]; subst.
    destruct (join_head " and " y M Hy) as [r Hr]. unfold join in Hr.
    rewrite Hr in *. simpl. simpl in IH. exact IH.
Qed.

Lemma search_quorum_here (s q : string) :
  Re.match_quorum_at s = Some q -> Re.search_quorum s = Some q.
Proof.
  intros H. destruct s; [vm_compute in H; discriminate|].
  cbn [Re.search_quorum]. now rewrite H.
Qed.

(** The quorum pattern matches at the head of a rendered [m_of_n]
    expression and its group is the numeral. *)
Lemma search_quorum_rendered (qs rest : string) :
  qs ≠ "" -> Re.all_chars isdigit qs = true ->
  Re.search_quorum ("min " +:+ qs +:+ " of" +:+ rest) = Some qs.
Proof.
  intros Hne Hdigits. apply search_quorum_here. unfold Re.match_quorum_at.
  change ("min " +:+ qs +:+ " of" +:+ rest)
    with ("min" +:+ (" " +:+ (qs +:+ " of" +:+ rest))).
  rewrite drop_prefix_app. cbn [mbind option_bind].
  rewrite plus_app; [ | discriminate | reflexivity | ].
  - cbn [mbind option_bind].
    rewrite plus_app by (assumption || reflexivity). reflexivity.
  - destruct qs as [|c qs]; [congruence|]. simpl in *.
    apply andb_prop in Hdigits as [Hc _]. revert Hc. clear.
    destruct c as [[] [] [] [] [] [] [] []]; vm_compute; congruence.
Qed.


Lemma findall_rendered (qs : string) (M : list string) :
  Re.all_chars isdigit qs = true -> Forall Node.qualified M ->
  Re.findall_monitors ("min " +:+ qs +:+ " of { " +:+ join " " M +:+ " }") = M.
Proof.
  intros Hdigits HM. unfold Re.findall_monitors.
  change ("min " +:+ qs +:+ " of { " +:+ join " " M +:+ " }")
    with ("min " +:+ (qs +:+ (" of { " +:+ (join " " M +:+ " }")))).
  rewrite (findall_from_no_slash "min ") by reflexivity.
  rewrite (findall_from_no_slash qs)
    by now apply (all_chars_weaken _ _ _ isdigit_not_slash).
  rewrite (findall_from_no_slash " of { ") by reflexivity.
  now apply findall_join.
Qed.

(** X24.  The part of the [m_of_n] round trip that holds for every quorum
    that is not negative and every list of names [/<partition>/<name>] whose
    partition is made of word characters and whose name holds no blank and
    no [}] ([Node.qualified]; the pattern of [monitors_list] reads no other
    name back): the expression rendered from the parameters is read back, on
    the node that carries it, into the same list and the type [m_of_n]; the
    quorum is read back from it only by an object whose [kind] is that of a
    pool. *)
Theorem m_of_n_round_trip_on_a_node (p : Node.Parameters) (q : Z)
    (M : list string) (r : Node.API.resource) (pool : Node.Parameters) :
  (0 <= q)%Z -> Forall Node.qualified M ->
  Node.kind p = None ->
  Node.v_monitor_type p = Some "m_of_n" ->
  Node.v_quorum p = Some q ->
  Node.v_monitors p = Some (Node.MonitorsList M) ->
  let expression :=
    "min " +:+ str_of_int q +:+ " of { " +:+ join " " M +:+ " }" in
  Node.monitors p = Ok (Some expression)
  ∧ (Node.API.r_kind r = Some Node.node_kind ->
     Node.API.r_monitor r = Some expression ->
     Node.monitors_list (Node.Parameters_of_attrs r) = M
     ∧ Node.monitor_type (Node.Parameters_of_attrs r) = Ok (Some "m_of_n")
     ∧ Node.quorum (Node.Parameters_of_attrs r) = Ok None)
  ∧ (Node.kind pool = Some Node.pool_kind ->
     Node.v_monitors pool = Some (Node.MonitorsStr expression) ->
     Node.quorum pool = Ok (Some q)).
Proof.
  intros Hq HM Hkind Htype Hquorum Hmonitors expression.
  destruct (str_of_int_digits q Hq) as [Hne Hdigits].
  assert (Hsearch : Re.search_quorum expression = Some (str_of_int q))
    by now apply (search_quorum_rendered _ (" { " +:+ join " " M +:+ " }")).
  assert (Hfind : Re.findall_monitors expression = M)
    by now apply findall_rendered.
  split.
  { unfold Node.monitors, Node.monitor_type, Node.quorum, Node.monitors_list.
    rewrite Hkind, Hmonitors, Htype, Hquorum. simpl.
    now rewrite (fqdn_name_qualified _ _ HM). }
  clearbody expression.
  split; [intros Hk Hr; repeat apply conj | intros Hk Hm].
  - unfold Node.monitors_list. simpl. now rewrite Hr.
  - unfold Node.monitor_type. simpl. rewrite Hk, Hr. simpl.
    now rewrite Hsearch.
  - unfold Node.quorum. simpl. now rewrite Hk.
  - unfold Node.quorum. rewrite Hk, Hm. simpl.
    rewrite Hsearch. simpl. now rewrite int_str_of_int.
Qed.

(** X25.  The [and_list] round trip holds for every list of names
    [/<partition>/<name>] whose partition is made of word characters and
    whose name holds no blank and no [}] ([Node.qualified]). *)
Theorem and_list_round_trip (p : Node.Parameters) (M : list string)
    (r : Node.API.resource) :
  Forall Node.qualified M ->
  Node.kind p = None ->
  Node.v_monitor_type p = Some "and_list" ->
  Node.v_monitors p = Some (Node.MonitorsList M) ->
  let expression := join " and " M in
  Node.monitors p = Ok (Some expression)
  ∧ (Node.API.r_kind r = Some Node.node_kind ->
     Node.API.r_monitor r = Some expression ->
     Node.monitors_list (Node.Parameters_of_attrs r) = M
     ∧ Node.monitor_type (Node.Parameters_of_attrs r) = Ok (Some "and_list")
     ∧ Node.quorum (Node.Parameters_of_attrs r) = Ok None).
Proof.
  intros HM Hkind Htype Hmonitors expression.
  assert (Hsearch : Re.search_quorum expression = None)
    by now apply search_quorum_needs_blank_digit, blank_then_digit_and_list.
  assert (Hfind : Re.findall_monitors expression = M).
  { unfold Re.findall_monitors, expression.
    rewrite <- (append_empty_r (join " and " M)).
    now apply findall_join. }
  split.
  { unfold Node.monitors, Node.monitor_type, Node.monitors_list.
    rewrite Hkind, Hmonitors, Htype. simpl.
    now rewrite (fqdn_name_qualified _ _ HM), strip_join. }
  clearbody expression.
  intros Hk Hr; repeat apply conj.
  - unfold Node.monitors_list. simpl. now rewrite Hr.
  - unfold Node.monitor_type. simpl. rewrite Hk, Hr. simpl.
    now rewrite Hsearch.
  - unfold Node.quorum. simpl. now rewrite Hk.
Qed.

End RoundTrip.

(** ** Whole runs of the virtual-server module *)

Section Runs.
Context {D : Type} (api : API.bigsuds D) (str_is : string -> string -> bool).

Local Abbreviation M := (Effect.M (world D API.call)).

(** *** How [calls_only] composes *)

Lemma calls_only_ret {A} P (a : A) : Calls.calls_only P (mret a : M A).
Proof. intros w. exists []. by rewrite app_nil_r. Qed.

Lemma calls_only_raise {A} P (e : exn) : Calls.calls_only P (raise e : M A).
Proof. intros w. exists []. by rewrite app_nil_r. Qed.

Lemma calls_only_get {A} P (q : API.query A) : Calls.calls_only P (get api q).
Proof. intros w. exists []. by rewrite app_nil_r. Qed.

Lemma calls_only_send (P : API.call -> Prop) c : P c -> Calls.calls_only P (send api c).
Proof.
  intros Hc w. exists [c]. unfold send, mutate.
  destruct (API.tell api c (dev w)). simpl. split; [reflexivity|by constructor].
Qed.

Lemma calls_only_bind {A B} P (m : M A) (k : A -> M B) :
  Calls.calls_only P m -> (forall a, Calls.calls_only P (k a)) ->
  Calls.calls_only P (m ≫= k).
Proof.
  intros Hm Hk w. destruct (Hm w) as (l1 & Hl1 & HP1).
  unfold mbind, M_bind, bind. destruct (m w) as [[a|e] w1]; simpl in *.
  - destruct (Hk a w1) as (l2 & Hl2 & HP2). exists (l1 ++ l2).
    rewrite Hl2, Hl1, app_assoc. split; [reflexivity|by apply Forall_app].
  - by exists l1.
Qed.

Lemma calls_only_fmap {A B} P (f : A -> B) (m : M A) :
  Calls.calls_only P m -> Calls.calls_only P (f <$> m).
Proof.
  intros Hm. unfold fmap, M_fmap.
  apply (calls_only_bind P m (fun a => ret (f a))); [exact Hm|].
  intros a. apply calls_only_ret.
Qed.

Lemma calls_only_try {A} P (m : M A) catches (h : exn -> M A) :
  Calls.calls_only P m -> (forall e, Calls.calls_only P (h e)) ->
  Calls.calls_only P (try_except m catches h).
Proof.
  intros Hm Hh w. destruct (Hm w) as (l1 & Hl1 & HP1).
  unfold try_except. destruct (m w) as [[a|e] w1]; simpl in *.
  - by exists l1.
  - destruct (catches e); [|by exists l1].
    destruct (Hh e w1) as (l2 & Hl2 & HP2). exists (l1 ++ l2).
    rewrite Hl2, Hl1, app_assoc. split; [reflexivity|by apply Forall_app].
Qed.

(** Takes a function of the module apart, down to the calls it sends;
    what is left is to show that each of these satisfies the predicate. *)
Ltac calls :=
  repeat first
    [ apply calls_only_ret
    | apply calls_only_raise
    | apply calls_only_get
    | apply calls_only_send
    | apply calls_only_fmap
    | apply calls_only_bind; [|intros ?]
    | apply calls_only_try; [|intros ?]
    | match goal with
      | |- Calls.calls_only _ (if ?b then _ else _) => destruct b eqn:?
      | |- Calls.calls_only _ (match ?x with _ => _ end) => destruct x eqn:?
      end ].

Ltac setters :=
  unfold vs_exists, vs_create, vs_remove, set_rules, set_profiles, set_policies,
    set_enabled_vlans, set_snat, set_pool, set_destination, set_port, set_state,
    set_description, set_default_persistence_profiles,
    set_fallback_persistence_profile, set_route_advertisement_state,
    get_route_advertisement_status, get_rules, get_profiles, get_policies,
    get_vlan, get_snat_type, get_snat_pool, get_pool, get_destination, get_state,
    get_description, get_persistence_profiles, get_fallback_persistence_profile,
    fail_json.

Lemma calls_only_arguments P module :
  Calls.calls_only P (main_try api str_is module) ->
  Calls.calls_only P (main api str_is (arguments module)).
Proof. intros H w. rewrite main_arguments. apply H. Qed.

Lemma main_calls_only P module :
  (forall c,
     Calls.on_server (vs_name module)
       (fq_name (p_partition module) (p_destination module)) c -> P c) ->
  Calls.calls_only P (main api str_is (arguments module)).
Proof.
  intros HP. apply calls_only_arguments. unfold main_try. cbv zeta. setters.
  calls; apply HP; simpl; done.
Qed.


(** X1.  Every mutating call of a run (the log holds those, not the
    queries) addresses the virtual server the task names, its virtual
    address, or the transaction: the module never changes another object of
    the device. *)
Theorem main_touches_only_the_named_virtual_server module d :
  Forall (Calls.on_server (vs_name module)
            (fq_name (p_partition module) (p_destination module)))
         (log (snd (run_main api str_is module d))).
Proof.
  destruct (main_calls_only _ module (fun c H => H) (World d [])) as (l & Hl & HP).
  unfold run_main. by rewrite Hl.
Qed.

(** X2.  A run deletes only when the task says [state=absent], and then it
    does nothing else: every call it issues is a delete if and only if the
    state asked for is [absent]. *)
Theorem only_state_absent_deletes module d :
  Forall (fun c => Calls.is_delete c = true <-> p_state module = "absent")
         (log (snd (run_main api str_is module d))).
Proof.
  assert (H : Calls.calls_only
                (fun c => Calls.is_delete c = true <-> p_state module = "absent")
                (main api str_is (arguments module))).
  { apply calls_only_arguments. unfold main_try. cbv zeta. setters.
    calls; simpl;
      repeat match goal with
        | H : String.eqb _ _ = true |- _ => apply String.eqb_eq in H
        | H : String.eqb _ _ = false |- _ => apply String.eqb_neq in H
        end;
      split; congruence. }
  destruct (H (World d [])) as (l & Hl & HP). unfold run_main. by rewrite Hl.
Qed.

(** A virtual server is never created without a profile: the create call
    carries the profiles of the task or, when it has none, [tcp], all of them
    in the context [PROFILE_CONTEXT_TYPE_ALL]. *)
Theorem created_server_has_a_profile module d :
  Forall (fun c => forall ps, Calls.created_profiles c = Some ps ->
            ps ≠ []
            ∧ Forall (fun p => profile_context p = PROFILE_CONTEXT_TYPE_ALL) ps)
         (log (snd (run_main api str_is module d))).
Proof.
  assert (H : Calls.calls_only
                (fun c => forall ps, Calls.created_profiles c = Some ps ->
                   ps ≠ []
                   ∧ Forall (fun p => profile_context p = PROFILE_CONTEXT_TYPE_ALL) ps)
                (main api str_is (arguments module))).
  { apply calls_only_arguments. unfold main_try. cbv zeta. setters.
    calls; simpl; try (intros ps [=]; fail).
    intros ps [= <-].
    destruct (fq_list_names _ _) as [[|x l]|]; simpl;
      (split; [discriminate|]); repeat constructor.
    apply Forall_map, Forall_true. reflexivity. }
  destruct (H (World d [])) as (l & Hl & HP). unfold run_main. by rewrite Hl.
Qed.


(** *** How a run ends *)

(** X3.  When the server is not on the device and the task lacks a
    destination or a port, the run fails before any call, in check mode as
    in a real run. *)
Theorem creation_needs_destination_and_port module d found :
  p_state module ≠ "absent" ->
  API.ask api (API.get_object_status (vs_name module)) d
  = Raise (OperationFailed found) ->
  contains "was not found" found = true ->
  truthy_str (p_destination module) = false ∨ p_port module = None ->
  run_main api str_is module d
  = (Raise (SystemExit "both destination and port must be supplied to create a VS"),
     World d []).
Proof.
  intros Hstate Hask Hfound Hlacks.
  change d with (dev (World d ([] : list API.call))) in Hask.
  unfold run_main. generalize dependent (World d ([] : list API.call)). intros w Hask.
  rewrite main_arguments.
  unfold main_try, vs_exists, get, fail_json, try_except, observe,
    raise, mbind, M_bind, bind, mret, M_ret, ret.
  simpl.
  apply String.eqb_neq in Hstate. rewrite Hstate, Hask. simpl. rewrite Hfound. simpl.
  destruct Hlacks as [->| ->]; [reflexivity|].
  by destruct (truthy_str _), (p_destination module).
Qed.

Lemma raises_only_ret {A} P (a : A) : Calls.raises_only P (mret a : M A).
Proof. intros w e [=]. Qed.

Lemma raises_only_raise {A} (P : exn -> Prop) e :
  P e -> Calls.raises_only P (raise e : M A).
Proof. by intros He w e' [= <-]. Qed.

Lemma raises_only_bind {A B} P (m : M A) (k : A -> M B) :
  Calls.raises_only P m -> (forall a, Calls.raises_only P (k a)) ->
  Calls.raises_only P (m ≫= k).
Proof.
  intros Hm Hk w e. specialize (Hm w). unfold mbind, M_bind, bind.
  destruct (m w) as [[a|e'] w1]; simpl in *; [apply Hk|].
  intros [= <-]. by apply Hm.
Qed.

Lemma raises_only_fmap {A B} P (f : A -> B) (m : M A) :
  Calls.raises_only P m -> Calls.raises_only P (f <$> m).
Proof.
  intros Hm. unfold fmap, M_fmap.
  apply (raises_only_bind P m (fun a => ret (f a))); [exact Hm|].
  intros a. apply raises_only_ret.
Qed.

Lemma raises_only_try {A} P (m : M A) catches (h : exn -> M A) :
  Calls.raises_only P m -> (forall e, P e -> Calls.raises_only P (h e)) ->
  Calls.raises_only P (try_except m catches h).
Proof.
  intros Hm Hh w e. specialize (Hm w). unfold try_except.
  destruct (m w) as [[a|e'] w1]; simpl in *; [discriminate|].
  destruct (catches e'); [by apply Hh, Hm|].
  intros [= <-]. by apply Hm.
Qed.

Lemma raises_only_handled {A} (Q P : exn -> Prop) (m : M A) catches
    (h : exn -> M A) :
  Calls.raises_only Q m ->
  (forall e, Q e -> catches e = true -> Calls.raises_only P (h e)) ->
  (forall e, Q e -> catches e = false -> P e) ->
  Calls.raises_only P (try_except m catches h).
Proof.
  intros Hm Hh Hpass w e. specialize (Hm w). unfold try_except.
  destruct (m w) as [[a|e'] w1]; simpl in *; [discriminate|].
  destruct (catches e') eqn:Hc; [by apply Hh; [apply Hm|]|].
  intros [= <-]. by apply Hpass; [apply Hm|].
Qed.

Section Device.
(** The device raises nothing but exceptions of the class [Exception], as
    bigsuds does ([OperationFailed], connection errors). *)
Hypothesis ask_raises : forall A (q : API.query A) d e,
  API.ask api q d = Raise e -> is_Exception e = true.
Hypothesis tell_raises : forall c d e,
  fst (API.tell api c d) = Raise e -> is_Exception e = true.

Local Abbreviation exits e := (is_Exception e = true ∨ exists msg, e = SystemExit msg).

Lemma raises_only_get {A} (q : API.query A) :
  Calls.raises_only (fun e => exits e) (get api q).
Proof. intros w e He. left. exact (ask_raises _ q (dev w) e He). Qed.

Lemma raises_only_send c : Calls.raises_only (fun e => exits e) (send api c).
Proof.
  intros w e. unfold send, mutate. pose proof (tell_raises c (dev w) e) as H.
  destruct (API.tell api c (dev w)). simpl in *. intros He. left. by apply H.
Qed.

Ltac raises :=
  repeat first
    [ apply raises_only_ret
    | apply raises_only_get
    | apply raises_only_send
    | apply raises_only_fmap
    | apply raises_only_bind; [|intros ?]
    | apply raises_only_try; [|intros ? ?]
    | apply raises_only_raise
    | match goal with
      | |- Calls.raises_only _ (if ?b then _ else _) => destruct b eqn:?
      | |- Calls.raises_only _ (match ?x with _ => _ end) => destruct x eqn:?
      end ].

Lemma main_try_exits_or_fails (module : params) :
  Calls.raises_only (fun e => exists msg, e = SystemExit msg)
    (main_try api str_is module).
Proof.
  unfold main_try. cbv zeta.
  apply (raises_only_handled (fun e => exits e)).
  - setters; raises; assumption || (by left) || (right; by eexists).
  - intros e _ _. apply raises_only_raise. by eexists.
  - intros e [Hexc|[msg ->]] Hcatch; [|by eexists].
    unfold catch_Exception in Hcatch. congruence.
Qed.

Lemma read_port_raises_ValueError port e :
  read_port port = Raise e -> exists msg, e = ValueError msg.
Proof.
  destruct port as [s|]; [|discriminate]. simpl.
  destruct (String.eqb s ""); [discriminate|].
  destruct (int_of_str s) as [n|e'] eqn:E; [discriminate|]. intros [= <-].
  unfold int_of_str in E.
  repeat match type of E with
    | match ?x with _ => _ end = _ => destruct x
    | (if ?b then _ else _) = _ => destruct b
    end; try discriminate; injection E as <-; by eexists.
Qed.

(** X4.  On a device that raises nothing but exceptions of the class
    [Exception], one exception leaves [main], and no other: the [ValueError]
    of [int(port)], raised before the [try:] and before any call, when the
    port is a string that is neither empty nor an integer.  With any other
    port, the run ends in [exit_json] or in [fail_json]. *)
Theorem only_a_malformed_port_escapes_main (module : module_params) d :
  let run := main api str_is module (World d []) in
  (forall port, read_port (m_port module) = Ok port ->
     (exists r, fst run = Ok r) ∨ (exists msg, fst run = Raise (SystemExit msg)))
  ∧ (forall e, read_port (m_port module) = Raise e ->
       (exists msg, e = ValueError msg) ∧ run = (Raise e, World d [])).
Proof.
  intros run. subst run. unfold main. split.
  - intros port ->. unfold mbind, M_bind, bind, lift. cbn.
    rewrite port_out_of_range_false. cbn.
    match goal with
    | |- context [main_try api str_is ?p ?w] =>
        pose proof (main_try_exits_or_fails p w) as H;
        destruct (fst (main_try api str_is p w)) as [r|e]
    end; [left; by eexists|].
    right. destruct (H e eq_refl) as [msg ->]. by eexists.
  - intros e He. split; [by eapply read_port_raises_ValueError|].
    unfold mbind, M_bind, bind, lift. by rewrite He.
Qed.

End Device.


(** *** The setters, one by one *)

Ltac run :=
  unfold set_snat, set_state, set_destination, set_port, set_rules,
    set_route_advertisement_state, get_route_advertisement_status,
    set_default_persistence_profiles, get_snat_type, get_snat_pool, get_state,
    get_destination, get_rules, get_persistence_profiles, get, send, try_except,
    observe, mutate, raise, mbind, M_bind, bind, fmap, M_fmap, mret, M_ret, ret in *;
  simpl in *.

(** X5.  Asking for a SNAT pool never counts as a change: whatever the
    device holds, [set_snat] does not return true for a pool name, and when
    the device is not yet on that pool it issues the call all the same. *)
Theorem snat_pool_change_is_never_reported name snat w :
  snat ≠ "None" -> snat ≠ "Automap" ->
  fst (set_snat api name (Some snat) w) ≠ Ok true
  ∧ (forall current_state current_snat_pool,
       API.ask api (API.get_source_address_translation_type name) (dev w)
       = Ok current_state ->
       API.ask api (API.get_source_address_translation_snat_pool name) (dev w)
       = Ok current_snat_pool ->
       snat ≠ "" ->
       current_state ≠ "SRC_TRANS_SNATPOOL" ∨ current_snat_pool ≠ snat ->
       log (snd (set_snat api name (Some snat) w))
       = log w ++ [API.set_source_address_translation_snat_pool name snat]).
Proof.
  intros Hnone Hauto.
  apply String.eqb_neq in Hnone, Hauto. split.
  - run. destruct (API.ask api _ (dev w)) as [st|e]; simpl;
      [|destruct (catch_OperationFailed e); simpl; congruence].
    destruct (API.ask api _ (dev w)) as [pool|e]; simpl;
      [|destruct (catch_OperationFailed e); simpl; congruence].
    rewrite Hnone, Hauto. simpl.
    unfold snat_settings_need_updating. rewrite Hnone, Hauto. simpl.
    repeat match goal with
      | |- context [if ?b then _ else _] => destruct b eqn:?; simpl
      | |- context [API.tell api ?c ?d] => destruct (API.tell api c d) as [[[]|?] ?]; simpl
      end; congruence.
  - intros st pool Hst Hpool Hne Hdiffers. run. rewrite Hst. simpl. rewrite Hpool. simpl.
    rewrite Hnone, Hauto. simpl.
    unfold snat_settings_need_updating. rewrite Hnone, Hauto. simpl.
    destruct snat as [|c snat]; [done|]. simpl.
    assert (Hneed : negb (String.eqb st "SRC_TRANS_SNATPOOL")
                    || String.eqb st "SRC_TRANS_SNATPOOL"
                       && negb (String.eqb pool (String c snat)) = true).
    { destruct Hdiffers as [H|H]; apply String.eqb_neq in H; rewrite H; simpl;
        [reflexivity|]. by destruct (String.eqb st _). }
    destruct (negb (String.eqb st "SRC_TRANS_SNATPOOL")); simpl in *.
    + destruct (API.tell api _ (dev w)) as [[[]|e] d']; simpl; [reflexivity|].
      by destruct (catch_OperationFailed e).
    + rewrite Hneed.
      destruct (API.tell api _ (dev w)) as [[[]|e] d']; simpl; [reflexivity|].
      by destruct (catch_OperationFailed e).
Qed.

(** X6.  [state=present] is [state=enabled]: on a server the device reports
    in another state than [STATE_ENABLED] (a disabled one), the enabling
    call is issued; on an enabled one, nothing is. *)
Theorem present_enables_the_server name state current w :
  state = "present" ∨ state = "enabled" ->
  API.ask api (API.get_enabled_state name) (dev w) = Ok current ->
  (current = "STATE_ENABLED" -> set_state api name state w = (Ok false, w))
  ∧ (current ≠ "STATE_ENABLED" ->
     log (snd (set_state api name state w))
     = log w ++ [API.set_enabled_state name "STATE_ENABLED"]
     ∧ (fst (API.tell api (API.set_enabled_state name "STATE_ENABLED") (dev w)) = Ok tt ->
        fst (set_state api name state w) = Ok true)).
Proof.
  intros Hstate Hask. split.
  - intros ->. run. rewrite Hask. by destruct Hstate as [-> | ->].
  - intros Hcur. apply String.eqb_neq in Hcur. rewrite String.eqb_sym in Hcur.
    run. rewrite Hask. simpl.
    destruct Hstate as [-> | ->]; simpl; rewrite Hcur; simpl;
      destruct (API.tell api _ (dev w)) as [[[]|e] d']; simpl;
      (split; [try reflexivity; by destruct (catch_OperationFailed e)|done]).
Qed.

(** X7.  [set_destination] changes the address and keeps the port,
    [set_port] changes the port and keeps the address: the other half of the
    destination they send is the one the device has just reported. *)
Theorem destination_and_port_keep_the_other_half name current w :
  API.ask api (API.get_destination_v2 name) (dev w) = Ok current ->
  (forall destination, destination ≠ address current ->
     log (snd (set_destination api name (Some destination) w))
     = log w ++ [API.set_destination_v2 name
                   (AddressPort destination (port current))])
  ∧ (forall port_, port_ ≠ port current ->
       log (snd (set_port api name (Some port_) w))
       = log w ++ [API.set_destination_v2 name
                     (AddressPort (address current) port_)])
  ∧ set_destination api name (Some (address current)) w = (Ok false, w)
  ∧ set_port api name (Some (port current)) w = (Ok false, w).
Proof.
  intros Hask. repeat apply conj.
  - intros destination Hd. apply String.eqb_neq in Hd. run. rewrite Hask. simpl.
    rewrite Hd. simpl.
    destruct (API.tell api _ (dev w)) as [[[]|e] d']; simpl; [reflexivity|].
    by destruct (catch_OperationFailed e).
  - intros port_ Hp. apply Z.eqb_neq in Hp. run. rewrite Hask. simpl.
    rewrite Hp. simpl.
    destruct (API.tell api _ (dev w)) as [[[]|e] d']; simpl; [reflexivity|].
    by destruct (catch_OperationFailed e).
  - run. rewrite Hask. simpl. by rewrite String.eqb_refl.
  - run. rewrite Hask. simpl. by rewrite Z.eqb_refl.
Qed.


(** X8.  What [set_route_advertisement_state] sends for a state is read back
    as that state: when the device reports the string sent for [s], asking
    for [s] again issues nothing; when it reports another state, or none,
    the call is issued. *)
Theorem route_advertisement_state_round_trip destination partition s w :
  s = "enabled" ∨ s = "disabled" ->
  let address_ := fq_name partition destination in
  let sent := "STATE_" +:+ upper (strip s) in
  let call := API.set_route_advertisement_state address_ sent in
  (API.ask api (API.get_route_advertisement_state address_) (dev w) = Ok [sent] ->
   set_route_advertisement_state api destination partition (Some s) w = (Ok false, w))
  ∧ (forall reported,
       API.ask api (API.get_route_advertisement_state address_) (dev w) = Ok reported ->
       lower (last_piece (split "STATE_" (List.hd "" reported))) ≠ s ∨ reported = [] ->
       log (snd (set_route_advertisement_state api destination partition (Some s) w))
       = log w ++ [call]
       ∧ (fst (API.tell api call (dev w)) = Ok tt ->
          fst (set_route_advertisement_state api destination partition (Some s) w)
          = Ok true)).
Proof.
  intros Hs address_ sent call. split.
  - intros Hask. run. fold address_. rewrite Hask.
    by destruct Hs as [-> | ->].
  - intros reported Hask Hother. run. fold address_. rewrite Hask. simpl.
    assert (Hdiffers :
      bool_decide (match reported with
                   | [] => None
                   | result :: _ => Some (lower (last_piece (split "STATE_" result)))
                   end = Some s) = false).
    { apply bool_decide_eq_false. destruct reported as [|result l]; [done|].
      destruct Hother as [Hother|[=]]. simpl in Hother. congruence. }
    destruct reported as [|result l]; simpl in *; try rewrite Hdiffers; simpl;
      fold sent; fold call;
      destruct (API.tell api call (dev w)) as [[[]|e] d']; simpl;
      (split; [try reflexivity; by destruct (catch_OperationFailed e)|done]).
Qed.

(** *** Rules *)

Lemma filter_all_in {A} `{EqDecision A} (l k : list A) :
  (forall x, x ∈ l -> x ∈ k) ->
  List.filter (fun x => negb (bool_decide (x ∈ k))) l = [].
Proof.
  intros Hin. induction l as [|x l IH]; [reflexivity|]. simpl.
  rewrite bool_decide_eq_true_2 by (apply Hin; left). simpl.
  apply IH. intros y Hy. apply Hin. by right.
Qed.

Lemma filter_none_in {A} `{EqDecision A} (l k : list A) :
  (forall x, x ∈ l -> x ∉ k) ->
  List.filter (fun x => negb (bool_decide (x ∈ k))) l = l.
Proof.
  intros Hin. induction l as [|x l IH]; [reflexivity|]. simpl.
  rewrite bool_decide_eq_false_2 by (apply Hin; left). simpl. f_equal.
  apply IH. intros y Hy. apply Hin. by right.
Qed.

(** X9.  Rules are reconciled with their position as priority. When the
    device holds the wanted rules at the priorities of their positions, in
    whatever order it lists them, nothing is issued; the same two rules at
    swapped priorities are both removed and both added again. *)
Theorem rules_are_reconciled_by_position name w :
  (forall l rs,
     API.ask api (API.get_rule name) (dev w) = Ok rs ->
     map (fun x => (priority x, rule_name x)) rs ≡ₚ enumerate l ->
     set_rules api name (Some l) w = (Ok false, w))
  ∧ (forall a b d1,
       a ≠ b ->
       API.ask api (API.get_rule name) (dev w) = Ok [Rule 0 b; Rule 1 a] ->
       API.tell api (API.remove_rule name [Rule 0 b; Rule 1 a]) (dev w) = (Ok tt, d1) ->
       log (snd (set_rules api name (Some [a; b]) w))
       = log w ++ [API.remove_rule name [Rule 0 b; Rule 1 a];
                   API.add_rule name [Rule 0 a; Rule 1 b]]).
Proof.
  split.
  - intros l rs Hask Hperm. unfold set_rules.
    generalize dependent (enumerate l). intros wanted Hperm.
    run. rewrite Hask. simpl.
    set (current := map (fun x => (priority x, rule_name x)) rs) in *.
    rewrite (filter_all_in current wanted) by (intros x Hx; by rewrite <- Hperm).
    rewrite (filter_all_in wanted current) by (intros x Hx; by rewrite Hperm).
    reflexivity.
  - intros a b d1 Hab Hask Hremove. run. rewrite Hask. simpl.
    change (enumerate [a; b]) with [(0%Z, a); (1%Z, b)].
    change (Z.of_nat 0) with 0%Z. change (Z.of_nat 1) with 1%Z.
    rewrite !bool_decide_eq_false_2
      by (rewrite ?elem_of_cons, ?elem_of_nil; intros [?|[?|[]]]; congruence).
    simpl. rewrite Hremove. simpl.
    destruct (API.tell api _ d1) as [[[]|e] d']; simpl; rewrite <- app_assoc;
      [reflexivity|]. by destruct (catch_OperationFailed e).
Qed.


(** *** The update of a server that exists *)

(** Unfolds a setter on a run that has returned and splits on what the
    device answered; what is left is to read the calls off the log. *)
Ltac account :=
  intros w b w' Hrun;
  unfold set_rules, set_profiles, set_policies, set_enabled_vlans, set_snat,
    set_pool, set_destination, set_port, set_state, set_description,
    set_default_persistence_profiles, set_fallback_persistence_profile,
    set_route_advertisement_state, get_route_advertisement_status, get_rules,
    get_profiles, get_policies, get_vlan, get_snat_type, get_snat_pool, get_pool,
    get_destination, get_state, get_description, get_persistence_profiles,
    get_fallback_persistence_profile, get, send, try_except, observe, mutate,
    raise, mbind, M_bind, bind, fmap, M_fmap, bind, mret, M_ret, ret in Hrun;
  simpl in Hrun;
  repeat first
    [ match type of Hrun with
      | context [API.ask api ?q ?d] =>
          destruct (API.ask api q d) eqn:?; simpl in Hrun
      | context [API.tell api ?c ?d] =>
          destruct (API.tell api c d) as [[[]|?] ?] eqn:?; simpl in Hrun
      end
    | match type of Hrun with
      | context [match ?x with _ => _ end] =>
          lazymatch type of x with
          | prod _ _ => fail
          | result _ => fail
          | _ => destruct x eqn:?; simpl in Hrun
          end
      end ];
  simplify_eq/=; rewrite <- ?app_assoc;
  first [ exists []; split; [by rewrite app_nil_r|reflexivity]
        | eexists; split; reflexivity
        | exfalso;
          repeat match goal with
            | H : negb _ = true |- _ => apply negb_true_iff in H
            | H : negb _ = false |- _ => apply negb_false_iff in H
            | H : bool_decide _ = true |- _ => apply bool_decide_eq_true in H
            | H : String.eqb _ _ = false |- _ => apply String.eqb_neq in H
            end; congruence ].

Lemma reports_set_destination name destination :
  Calls.reports_its_calls Calls.loud (set_destination api name destination).
Proof. account. Qed.

Lemma reports_set_port name port_ :
  Calls.reports_its_calls Calls.loud (set_port api name port_).
Proof. account. Qed.

Lemma reports_set_pool name pool :
  Calls.reports_its_calls Calls.loud (set_pool api name pool).
Proof. account. Qed.

Lemma reports_set_description name description :
  Calls.reports_its_calls Calls.loud (set_description api name description).
Proof. account. Qed.

Lemma reports_set_snat name snat :
  Calls.reports_its_calls Calls.loud (set_snat api name snat).
Proof. account. Qed.

Lemma reports_set_profiles name profiles_list :
  Calls.reports_its_calls Calls.loud (set_profiles api name profiles_list).
Proof. account. Qed.

Lemma reports_set_policies name policies_list :
  Calls.reports_its_calls Calls.loud (set_policies api name policies_list).
Proof. account. Qed.

Lemma reports_set_enabled_vlans name vlans_enabled_list :
  Calls.reports_its_calls Calls.loud
    (set_enabled_vlans api str_is name vlans_enabled_list).
Proof. account. Qed.

Lemma reports_set_rules name rules_list :
  Calls.reports_its_calls Calls.loud (set_rules api name rules_list).
Proof. account. Qed.

Lemma reports_set_default_persistence_profiles name persistence_profile :
  Calls.reports_its_calls Calls.loud
    (set_default_persistence_profiles api name persistence_profile).
Proof. account. Qed.

Lemma reports_set_fallback_persistence_profile partition name persistence_profile :
  Calls.reports_its_calls Calls.loud
    (set_fallback_persistence_profile api partition name persistence_profile).
Proof. account. Qed.

Lemma reports_set_state name state :
  Calls.reports_its_calls Calls.loud (set_state api name state).
Proof. account. Qed.

Lemma reports_set_route_advertisement_state destination partition state :
  Calls.reports_its_calls Calls.loud
    (set_route_advertisement_state api destination partition state).
Proof. account. Qed.


Lemma bind_Ok_inv {A B} (m : M A) (k : A -> M B) w r w' :
  (m ≫= k) w = (Ok r, w') ->
  exists a w1, m w = (Ok a, w1) ∧ k a w1 = (Ok r, w').
Proof.
  unfold mbind, M_bind, bind. destruct (m w) as [[a|e] w1]; [|discriminate].
  intros Hk. by exists a, w1.
Qed.

Lemma try_except_Ok_inv {A} (m : M A) catches (f : exn -> exn) w r w' :
  try_except m catches (fun e => raise (f e)) w = (Ok r, w') ->
  m w = (Ok r, w').
Proof.
  unfold try_except, raise. destruct (m w) as [[a|e] w1]; [done|].
  by destruct (catches e).
Qed.

Lemma send_log c w r w' : send api c w = (r, w') -> log w' = log w ++ [c].
Proof.
  unfold send, mutate. destruct (API.tell api c (dev w)). by intros [= _ <-].
Qed.

Lemma vs_exists_found name w :
  API.ask api (API.get_object_status name) (dev w) = Ok tt ->
  vs_exists api name w = (Ok true, w).
Proof.
  intros Hask. unfold vs_exists, get, try_except, observe, mbind, M_bind, bind.
  by rewrite Hask.
Qed.

Local Abbreviation accounts_from c0 k :=
  (forall w r w', k w = (Ok r, w') ->
     exists l, log w' = log w ++ l ∧ changed r = c0 || existsb Calls.loud l).

Lemma accounts_first (m : M bool) (k : bool -> M result_dict) :
  Calls.reports_its_calls Calls.loud m ->
  (forall c, accounts_from c (k c)) ->
  accounts_from false (m ≫= k).
Proof.
  intros Hm Hk w r w' Hrun.
  apply bind_Ok_inv in Hrun as (b & w1 & Em & Hrun).
  destruct (Hm _ _ _ Em) as (l1 & Hl1 & Hb).
  destruct (Hk _ _ _ _ Hrun) as (l2 & Hl2 & Hc). exists (l1 ++ l2).
  rewrite Hl2, Hl1, app_assoc. split; [done|].
  by rewrite Hc, Hb, existsb_app.
Qed.

Lemma accounts_step c0 (m : M bool) (k : bool -> M result_dict) :
  Calls.reports_its_calls Calls.loud m ->
  (forall c, accounts_from c (k c)) ->
  accounts_from c0 ((orb c0 <$> m) ≫= k).
Proof.
  intros Hm Hk w r w' Hrun.
  apply bind_Ok_inv in Hrun as (c & w1 & Em & Hrun).
  unfold fmap, M_fmap in Em. apply bind_Ok_inv in Em as (b & w2 & Em & [= <- <-]).
  destruct (Hm _ _ _ Em) as (l1 & Hl1 & Hb).
  destruct (Hk _ _ _ _ Hrun) as (l2 & Hl2 & Hc). exists (l1 ++ l2).
  rewrite Hl2, Hl1, app_assoc. split; [done|].
  by rewrite Hc, Hb, existsb_app, orb_assoc.
Qed.

Lemma accounts_last c :
  accounts_from c (send api API.submit_transaction ≫= fun _ => mret (Result c None)).
Proof.
  intros w r w' Hrun.
  apply bind_Ok_inv in Hrun as ([] & w1 & Hsend & [= <- <-]).
  apply send_log in Hsend. exists [API.submit_transaction]. split; [done|].
  simpl. by rewrite orb_false_r.
Qed.

(** Walks into [main] on a real run that finds the server and returns, up
    to the calls between the two transaction calls. *)
Ltac enter Hstate Hcheck Hexists Hrun :=
  unfold run_main in Hrun; rewrite main_arguments in Hrun;
  unfold main_try, fail_json in Hrun; cbv zeta in Hrun;
  apply String.eqb_neq in Hstate; rewrite Hstate, Hcheck in Hrun;
  cbv beta iota delta [negb] in Hrun;
  apply try_except_Ok_inv in Hrun;
  apply bind_Ok_inv in Hrun as (? & ? & Hfound & Hrun);
  rewrite vs_exists_found in Hfound by exact Hexists;
  injection Hfound as <- <-;
  cbv beta iota delta [negb] in Hrun;
  apply try_except_Ok_inv in Hrun.

(** X10.  On a real run against a server that exists, [changed] tells
    whether a call that changes the server was issued: it is true exactly
    when the log holds a call other than the two transaction calls and the
    SNAT-pool call. *)
Theorem changed_accounts_for_the_calls module d r w' :
  p_state module ≠ "absent" ->
  check_mode module = false ->
  API.ask api (API.get_object_status (vs_name module)) d = Ok tt ->
  run_main api str_is module d = (Ok r, w') ->
  changed r = existsb Calls.loud (log w').
Proof.
  intros Hstate Hcheck Hexists Hrun.
  enter Hstate Hcheck Hexists Hrun.
  apply bind_Ok_inv in Hrun as ([] & w1 & Hstart & Hrun).
  apply send_log in Hstart. simpl in Hstart.
  match type of Hrun with
  | ?chain w1 = _ => assert (Hchain : accounts_from false chain)
  end.
  { apply accounts_first; [apply reports_set_destination|intros c].
    repeat first
      [ apply accounts_last
      | apply accounts_step;
        [ first [ apply reports_set_port | apply reports_set_pool
                | apply reports_set_description | apply reports_set_snat
                | apply reports_set_profiles | apply reports_set_policies
                | apply reports_set_enabled_vlans | apply reports_set_rules
                | apply reports_set_default_persistence_profiles
                | apply reports_set_fallback_persistence_profile
                | apply reports_set_state
                | apply reports_set_route_advertisement_state ]
        | intros ? ] ]. }
  destruct (Hchain _ _ _ Hrun) as (l & Hl & Hc).
  rewrite Hl, Hstart, Hc. reflexivity.
Qed.


(** The log of [x], a run from [w], is that of [w], then calls that are
    not transaction calls, then the submit, unless [x] has failed. *)
Local Abbreviation closes w x :=
  (exists l,
     Forall (fun c => Calls.is_transaction c = false) l
     ∧ (log (snd x) = log w ++ l ++ [API.submit_transaction]
        ∨ (log (snd x) = log w ++ l ∧ exists e, fst x = Raise e))).

Local Abbreviation brackets w x :=
  (exists l,
     Forall (fun c => Calls.is_transaction c = false) l
     ∧ (log (snd x) = log w ++ API.start_transaction :: l ++ [API.submit_transaction]
        ∨ (log (snd x) = log w ++ API.start_transaction :: l
           ∧ exists e, fst x = Raise e))).

Lemma closes_bind {A B} (m : M A) (k : A -> M B) :
  Calls.calls_only (fun c => Calls.is_transaction c = false) m ->
  (forall a w1, closes w1 (k a w1)) ->
  forall w, closes w ((m ≫= k) w).
Proof.
  intros Hm Hk w. destruct (Hm w) as (l1 & Hl1 & HP1).
  unfold mbind, M_bind, bind. destruct (m w) as [[a|e] w1]; simpl in *.
  - destruct (Hk a w1) as (l2 & HP2 & Hl2). exists (l1 ++ l2).
    split; [by apply Forall_app|]. rewrite Hl1 in Hl2.
    rewrite <- !app_assoc in *. exact Hl2.
  - exists l1. split; [done|]. right. split; [done|by eexists].
Qed.

Lemma closes_last {A} (r : A) (w : world D API.call) :
  closes w ((send api API.submit_transaction ≫= fun _ => mret r) w).
Proof.
  exists []. split; [constructor|]. simpl. unfold mbind, M_bind, bind.
  destruct (send api API.submit_transaction w) as [[[]|e] w1] eqn:Hsend;
    apply send_log in Hsend; simpl; [by left|].
  left. exact Hsend.
Qed.

Lemma brackets_try {A} (m : M A) catches (f : exn -> exn)
    (w0 w : world D API.call) :
  brackets w0 (m w) -> brackets w0 (try_except m catches (fun e => raise (f e)) w).
Proof.
  intros (l & HP & Hl). exists l. split; [done|].
  unfold try_except, raise. destruct (m w) as [[a|e] w1]; simpl in *; [done|].
  destruct (catches e); simpl; [|done].
  destruct Hl as [Hl|[Hl _]]; [by left|]. right. split; [done|by eexists].
Qed.

Lemma brackets_start {A} (k : M A) (w : world D API.call) :
  (forall w1, closes w1 (k w1)) ->
  brackets w ((send api API.start_transaction ≫= fun _ => k) w).
Proof.
  intros Hk. unfold mbind, M_bind, bind.
  destruct (send api API.start_transaction w) as [[[]|e] w1] eqn:Hsend;
    apply send_log in Hsend; simpl.
  - destruct (Hk w1) as (l & HP & Hl). exists l. split; [done|].
    rewrite Hsend in Hl. rewrite <- !app_assoc in Hl. exact Hl.
  - exists []. split; [constructor|]. right. split; [done|by eexists].
Qed.

Lemma bind_Ok {A B} (m : M A) (k : A -> M B) w a w1 :
  m w = (Ok a, w1) -> (m ≫= k) w = k a w1.
Proof. intros Hm. unfold mbind, M_bind, bind. by rewrite Hm. Qed.

Lemma try_except_at {A} (m m' : M A) catches h w :
  m w = m' w -> try_except m catches h w = try_except m' catches h w.
Proof. intros Hm. unfold try_except. by rewrite Hm. Qed.

(** X11.  The update of a server that exists is one transaction: the first
    call is the start of the transaction, the calls that follow are not
    transaction calls, and the submit comes last; a run whose log does not
    end with the submit has failed. *)
Theorem update_is_one_transaction module d :
  p_state module ≠ "absent" ->
  check_mode module = false ->
  API.ask api (API.get_object_status (vs_name module)) d = Ok tt ->
  exists l,
    Forall (fun c => Calls.is_transaction c = false) l
    ∧ (log (snd (run_main api str_is module d))
       = API.start_transaction :: l ++ [API.submit_transaction]
       ∨ (log (snd (run_main api str_is module d)) = API.start_transaction :: l
          ∧ exists e, fst (run_main api str_is module d) = Raise e)).
Proof.
  intros Hstate Hcheck Hexists.
  change d with (dev (World d ([] : list API.call))) in Hexists.
  unfold run_main.
  change (API.start_transaction :: ?l)
    with (log (World d ([] : list API.call)) ++ API.start_transaction :: l).
  generalize dependent (World d ([] : list API.call)). intros w Hexists.
  rewrite main_arguments.
  unfold main_try, fail_json. cbv zeta.
  apply String.eqb_neq in Hstate. rewrite Hstate, Hcheck.
  cbv beta iota delta [negb].
  apply brackets_try.
  rewrite (bind_Ok _ _ w true w) by (by apply vs_exists_found).
  cbv beta iota delta [negb].
  apply brackets_try, brackets_start.
  apply closes_bind; [unfold set_destination, get_destination; calls; reflexivity|].
  intros c.
  repeat first
    [ apply closes_last
    | apply closes_bind; [setters; calls; reflexivity|intros ?] ].
Qed.

End Runs.

(** ** The comparisons of the node module *)

Section Comparisons.

Ltac diff :=
  unfold Node.Difference_state, Node.Difference_monitors, Node.Difference_monitor_type,
    Node.__default, Node.compare_monitors, Node.compare_monitor_type,
    Node.self_want, Node.self_want_, try_except, mbind, M_bind, bind, fmap, M_fmap,
    bind, Effect.get_state, modify_state, lift, mret, M_ret, ret, raise in *;
  simpl in *.

(** X12.  [Difference.state] reads the wanted state and changes nothing; the
    pair of session and state it returns settles the node: once the node
    carries that pair, the same comparison finds nothing to change. *)
Theorem state_change_settles (have want : Node.Parameters) :
  (exists change, Node.Difference_state have want = (Ok change, want))
  ∧ (forall session_ state_ offline,
       fst (Node.Difference_state have want) = Ok (Some (session_, state_)) ->
       fst (Node.Difference_state
              (Node.update_session_state (Some session_) (Some state_) offline have)
              want)
       = Ok None).
Proof.
  split.
  - diff. repeat case_match; by eexists.
  - intros session_ state_ offline. diff.
    repeat case_bool_decide; simpl; intros [= <- <-]; simpl;
      repeat case_bool_decide; simpl; congruence.
Qed.


(** *** The rendered monitor expression *)

Lemma prefix_slash (x : string) :
  String.prefix "/" x = true -> exists r, x = String "/" r.
Proof.
  destruct x as [|c x]; [simpl; discriminate|].
  change (String.prefix "/" (String c x))
    with (if ascii_dec "/" c then String.prefix "" x else false).
  destruct (ascii_dec "/" c) as [<-|]; [|discriminate]. by eexists.
Qed.

Lemma fqdn_name_head (p : Node.Parameters) (x : string) :
  exists r, Node._fqdn_name p x = String "/" r.
Proof.
  unfold Node._fqdn_name, startswith.
  destruct (String.prefix "/" x) eqn:Hx; simpl; [by apply prefix_slash|by eexists].
Qed.

Lemma strip_head (c : ascii) (s : string) :
  isspace c = false -> exists r, strip (String c s) = String c r.
Proof.
  intros Hc. unfold strip. simpl. rewrite Hc. simpl.
  destruct (rstrip s); rewrite ?Hc; by eexists.
Qed.

Lemma join_cons_head (sep : string) (c : ascii) (x : string) (l : list string) :
  exists r, join sep (String c x :: l) = String c r.
Proof. unfold join. destruct l; simpl; by eexists. Qed.

(** An object that lists a monitor renders an expression that is not
    empty. *)
Lemma rendered_monitors_are_not_empty (p : Node.Parameters) m :
  Node.monitors_list p ≠ [] -> Node.monitors p = Ok m -> truthy_str m = true.
Proof.
  intros Hlist. unfold Node.monitors.
  destruct (Node.v_monitors p) eqn:Hv;
    [|unfold Node.monitors_list in Hlist; by rewrite Hv in Hlist].
  destruct (Node.monitor_type p) as [mt|e]; simpl; [|discriminate].
  destruct (bool_decide (mt = Some "m_of_n")).
  - destruct (Node.quorum p); simpl; [|discriminate]. by intros [= <-].
  - intros [= <-].
    destruct (Node.monitors_list p) as [|x l]; [done|].
    change (map (Node._fqdn_name p) (x :: l))
      with (Node._fqdn_name p x :: map (Node._fqdn_name p) l).
    destruct (fqdn_name_head p x) as [r ->].
    destruct (join_cons_head " and " "/" r (map (Node._fqdn_name p) l)) as [r' ->].
    by destruct (strip_head "/" r' eq_refl) as [r'' ->].
Qed.



(** The properties of [Parameters] raise nothing but the [TypeError] of
    [re] on a list. *)
Lemma properties_raise_TypeError (p : Node.Parameters) e :
  Node.monitor_type p = Raise e ∨ Node.quorum p = Raise e ∨ Node.monitors p = Raise e ->
  e = TypeError "expected string or buffer".
Proof.
  assert (Hmt : Node.monitor_type p = Raise e -> e = TypeError "expected string or buffer").
  { unfold Node.monitor_type, Node.re_type_error.
    repeat case_match; intros [=]; done. }
  assert (Hq : Node.quorum p = Raise e -> e = TypeError "expected string or buffer").
  { unfold Node.quorum, Node.re_type_error.
    repeat case_match; intros [=]; done. }
  intros [H|[H|H]]; [by apply Hmt|by apply Hq|].
  unfold Node.monitors, Node.bind_result in H.
  destruct (Node.v_monitors p); [|discriminate].
  destruct (Node.monitor_type p) as [mt|e'] eqn:Emt; [|apply Hmt; congruence].
  destruct (bool_decide _); [|discriminate].
  destruct (Node.quorum p) as [q|e'] eqn:Eq; [discriminate|apply Hq; congruence].
Qed.

(** X14.  The guard of [Difference.monitors] against an empty [monitors]
    never fires: the comparison never ends in its error. When no monitor is
    wanted the assignment before the guard raises [AttributeError]; when one
    is, the expression rendered is not empty. *)
Theorem empty_monitors_guard_never_fires (have want : Node.Parameters) :
  fst (Node.Difference_monitors have want)
  ≠ Raise (F5ModuleError
      "The 'monitors' parameter cannot be empty when 'monitor_type' parameter is specified").
Proof.
  unfold Node.Difference_monitors, Node.self_want, Node.self_want_.
  unfold mbind, M_bind, bind, fmap, M_fmap, bind, Effect.get_state, modify_state, lift,
    mret, M_ret, ret, raise.
  assert (Hnot : forall p e,
            Node.monitor_type p = Raise e ∨ Node.quorum p = Raise e
            ∨ Node.monitors p = Raise e ->
            Raise (A:=option string) e
            ≠ Raise (F5ModuleError
                "The 'monitors' parameter cannot be empty when 'monitor_type' parameter is specified")).
  { intros p e H. rewrite (properties_raise_TypeError p e H). discriminate. }
  destruct (Node.monitor_type want) as [mt|e] eqn:Emt; simpl; [|eapply Hnot; eauto].
  set (want' := if bool_decide (mt = None)
                then match Node.monitor_type have with
                     | Ok hmt => Node.update_monitor_type hmt want
                     | Raise _ => want
                     end
                else want).
  destruct (bool_decide (mt = None)); simpl.
  - destruct (Node.monitor_type have) as [hmt|e] eqn:Ehmt; simpl;
      [|eapply Hnot; eauto].
    simpl in want'. fold want'.
    destruct (nonempty (Node.monitors_list want')) eqn:Hne; simpl; [|discriminate].
    assert (Hne' : Node.monitors_list want' ≠ [])
      by (intros H; rewrite H in Hne; discriminate).
    destruct (Node.monitors want') as [wm|e] eqn:Hwm; simpl; [|eapply Hnot; eauto].
    rewrite (rendered_monitors_are_not_empty want' wm Hne' Hwm). simpl.
    rewrite Hwm. simpl.
    destruct (Node.monitors have) eqn:Ehm; simpl; [|eapply Hnot; eauto].
    destruct (bool_decide _); simpl; [discriminate|].
    rewrite Hwm. discriminate.
  - simpl in want'. fold want'.
    destruct (nonempty (Node.monitors_list want')) eqn:Hne; simpl; [|discriminate].
    assert (Hne' : Node.monitors_list want' ≠ [])
      by (intros H; rewrite H in Hne; discriminate).
    destruct (Node.monitors want') as [wm|e] eqn:Hwm; simpl; [|eapply Hnot; eauto].
    rewrite (rendered_monitors_are_not_empty want' wm Hne' Hwm). simpl.
    rewrite Hwm. simpl.
    destruct (Node.monitors have) eqn:Ehm; simpl; [|eapply Hnot; eauto].
    destruct (bool_decide _); simpl; [discriminate|].
    rewrite Hwm. discriminate.
Qed.

End Comparisons.

(** ** Whole runs of the node module *)

Section NodeRuns.
Context {D : Type} (api : Node.API.f5sdk D).

Local Abbreviation M := (Effect.M (Node.run (D:=D))).

Ltac step :=
  unfold Node.run_main, Node.main, Node.exec_module, Node.present, Node.absent,
    Node.update, Node.remove, Node.create, Node.read_current_from_device,
    Node.should_update, Node.fail_json in *;
  unfold mbind, M_bind, bind, try_except, mret, M_ret, ret, raise in *;
  repeat (rewrite ?run_the_want, ?run_check_mode, ?run_exists, ?run_load in *;
          simpl in * ).

Ltac on_state :=
  unfold Node.the_want, Node.client_check_mode, Node.on_want, Node.on_self,
    Node.on_device, Node.self_want, Node.self_want_, zoom, observe, mutate, lift,
    get_state, modify_state, fmap, M_fmap, mbind, M_bind, bind, mret, M_ret, ret,
    raise in *;
  simpl in *.

(** X15.  A node whose monitor rule is [m_of_n] cannot be updated by a task
    that gives no quorum: the type is taken from the node, the quorum cannot
    be, and the run fails before any call, in check mode as in a real run. *)
Theorem m_of_n_node_needs_the_quorum fuel params cm d r expression :
  mem_opt (Node.state params) ["present"; "enabled"; "disabled"; "offline"] = true ->
  Node.API.exists_ api (Node.name params) (Node.partition params) d = Ok true ->
  Node.API.load api (Node.name params) (Node.partition params) d = Ok r ->
  Node.API.r_kind r = Some Node.node_kind ->
  Node.API.r_monitor r = Some expression ->
  is_Some (Re.search_quorum expression) ->
  Node.kind params = None ->
  Node.v_monitor_type params = None ∨ Node.v_monitor_type params = Some "m_of_n" ->
  Node.v_quorum params = None ->
  fst (Node.run_main api fuel params cm d)
  = Raise (SystemExit "Quorum value must be specified with monitor_type 'm_of_n'.")
  ∧ Node.device (snd (Node.run_main api fuel params cm d)) = World d [].
Proof.
  intros Hstate Hexists Hload Hkind Hmonitor Hquorum Hwant Htype Hq.
  assert (Hhave : Node.monitor_type (Node.Parameters_of_attrs r) = Ok (Some "m_of_n")
                  ∧ Node.quorum (Node.Parameters_of_attrs r) = Ok None).
  { unfold Node.monitor_type, Node.quorum, Node.Parameters_of_attrs. simpl.
    rewrite Hkind, Hmonitor. simpl. by rewrite bool_decide_eq_true_2. }
  destruct Hhave as [Hhmt Hhq].
  assert (Hraise : exists want',
    Node.Difference_monitor_type (Node.Parameters_of_attrs r) params
    = (Raise (F5ModuleError "Quorum value must be specified with monitor_type 'm_of_n'."),
       want')).
  { destruct params as [k n p a f de mt q ms st se off]. simpl in *. subst k q.
    unfold Node.Difference_monitor_type, Node.self_want, Node.self_want_.
    unfold mbind, M_bind, bind, fmap, M_fmap, bind, Effect.get_state, lift,
      modify_state, mret, M_ret, ret, raise.
    unfold Node.monitor_type at 1, Node.quorum at 1. simpl.
    destruct Htype as [-> | ->]; simpl; rewrite ?Hhmt, ?Hhq; simpl; by eexists. }
  destruct Hraise as [want' Hraise].
  step. rewrite Hstate. step. rewrite Hexists. step. rewrite Hload. step.
  unfold Node._update_changed_options, Node.compare_monitor_type. on_state.
  unfold try_except. rewrite Hraise. simpl. by split.
Qed.


(** X16.  A node is created from an address or from an FQDN, not from
    neither and not from both: otherwise the run fails before any call, in
    check mode as in a real run. *)
Theorem creation_needs_one_of_address_and_fqdn fuel params cm d :
  mem_opt (Node.state params) ["present"; "enabled"; "disabled"; "offline"] = true ->
  Node.API.exists_ api (Node.name params) (Node.partition params) d = Ok false ->
  bool_decide (Node.address params = None) = bool_decide (Node.v_fqdn params = None) ->
  fst (Node.run_main api fuel params cm d)
  = Raise (SystemExit
      (if bool_decide (Node.address params = None)
       then "At least one of 'address' or 'fqdn' is required when creating a node"
       else "Only one of 'address' or 'fqdn' can be provided when creating a node"))
  ∧ Node.device (snd (Node.run_main api fuel params cm d)) = World d [].
Proof.
  intros Hstate Hexists Hboth.
  step. rewrite Hstate. step. rewrite Hexists. step.
  unfold Node._check_required_creation_vars, Node.fqdn. on_state.
  destruct (Node.address params), (Node.v_fqdn params); simpl in *; done.
Qed.


(** *** Creation in the states other than [offline] *)

Local Abbreviation St d l wa ha ch cm :=
  (Node.Run (World d l)
     {| Node.want := wa; Node.have := ha; Node.changes := ch; Node.check_mode := cm |}).

Lemma run_munge_up (d : D) l wa ha ch cm st :
  Node.state wa = Some st ->
  st = "present" ∨ st = "enabled" ∨ st = "disabled" ->
  Node._munge_creation_state_for_device (St d l wa ha ch cm)
  = (Ok tt,
     St d l (Node.update_session_state
               (Some (if String.eqb st "disabled" then "user-disabled" else "user-enabled"))
               (Some "user-up") (Node.is_offline wa) wa) ha ch cm).
Proof.
  intros Hstate Hst. unfold Node._munge_creation_state_for_device. on_state.
  rewrite Hstate. by destruct Hst as [-> |[-> | ->]].
Qed.

#[local] Arguments Node._check_required_creation_vars : simpl never.
#[local] Arguments Node._munge_creation_state_for_device : simpl never.
#[local] Arguments Node._set_changed_options : simpl never.
#[local] Arguments Node.create_on_device : simpl never.
#[local] Arguments Node.update_node_offline_on_device : simpl never.
#[local] Arguments Node.exists_ : simpl never.
#[local] Arguments Node.the_want : simpl never.
#[local] Arguments Node.client_check_mode : simpl never.

(** X17.  Creating a node that is to be present, enabled or disabled: one
    call, the create, whose payload carries the session [user-enabled] (for
    [disabled], [user-disabled]) and the state [user-up]; no modify follows. *)
Theorem creation_sends_the_state fuel params st d payload resource d1 k d2 :
  let n := Node.name params in
  let p := Node.partition params in
  let wanted :=
    Node.update_session_state
      (Some (if String.eqb st "disabled" then "user-disabled" else "user-enabled"))
      (Some "user-up") None
      (if bool_decide (Node.v_fqdn params = None) then params
       else Node.update_address (Some "any6") params) in
  Node.state params = Some st ->
  st = "present" ∨ st = "enabled" ∨ st = "disabled" ->
  Node.kind params = None ->
  Node.is_offline params = None ->
  bool_decide (Node.address params = None)
  = negb (bool_decide (Node.v_fqdn params = None)) ->
  Node.API.exists_ api n p d = Ok false ->
  Node.api_params wanted = Ok payload ->
  Node.API.do_create api n p payload d = (Ok resource, d1) ->
  Node.leaves_checking api n p k resource d1 d2 ->
  k <= fuel ->
  Node.API.exists_ api n p d2 = Ok true ->
  Node.p_session payload
  = Some (if String.eqb st "disabled" then "user-disabled" else "user-enabled")
  ∧ Node.p_state payload = Some "user-up"
  ∧ fst (Node.run_main api fuel params false d) = Ok true
  ∧ Node.device (snd (Node.run_main api fuel params false d))
    = World d2 [Node.API.create n p payload].
Proof.
  intros n p wanted Hstate Hst Hkind Hoff Hone Hexists Hpayload Hcreate Hleaves Hfuel
    Hexists2.
  assert (Hsent : Node.p_session payload
                  = Some (if String.eqb st "disabled" then "user-disabled"
                          else "user-enabled")
                  ∧ Node.p_state payload = Some "user-up").
  { unfold Node.api_params, Node.bind_result in Hpayload.
    destruct (Node.monitors _); simplify_eq/=. by split. }
  destruct Hsent as [Hsession Hup]. refine (conj Hsession (conj Hup _)).
  assert (Hmem : mem_opt (Some st) ["present"; "enabled"; "disabled"; "offline"] = true)
    by (by destruct Hst as [-> |[-> | ->]]).
  unfold Node.run_main, Node.main, Node.exec_module, Node.present, Node.create,
    Node.ModuleManager, Node.fail_json.
  unfold mbind, M_bind, bind, try_except, mret, M_ret, ret.
  rewrite run_the_want. simpl. rewrite Hstate, Hmem.
  rewrite ?run_exists. simpl. fold n p. rewrite Hexists. simpl.
  unfold Node.set_want. simpl.
  rewrite run_check_required by exact Hone.
  rewrite (run_munge_up _ _ _ _ _ _ st)
    by (try exact Hst; destruct (bool_decide (Node.v_fqdn params = None)); exact Hstate).
  assert (Hwanted :
    Node.update_session_state
      (Some (if String.eqb st "disabled" then "user-disabled" else "user-enabled"))
      (Some "user-up")
      (Node.is_offline (if bool_decide (Node.v_fqdn params = None) then params
                        else Node.update_address (Some "any6") params))
      (if bool_decide (Node.v_fqdn params = None) then params
       else Node.update_address (Some "any6") params) = wanted).
  { unfold wanted. destruct (bool_decide (Node.v_fqdn params = None)); simpl;
      by rewrite Hoff. }
  rewrite Hwanted.
  assert (Hwant : Node.name wanted = n ∧ Node.partition wanted = p
                  ∧ Node.kind wanted = None ∧ Node.is_offline wanted = None).
  { unfold wanted. destruct (bool_decide (Node.v_fqdn params = None)); by repeat split. }
  destruct Hwant as (Hn & Hp & Hk & Hoff').
  clear Hwanted. generalize dependent wanted. intros want' Hpayload Hn Hp Hk Hoff'.
  destruct (run_set_changed_options d [] want' None (Node.empty "Common") false Hk)
    as [ch' ->].
  rewrite ?run_check_mode. simpl.
  rewrite (run_create_on_device api fuel d [] _ None ch' false payload resource d1 k d2)
    by (rewrite ?Hn, ?Hp; assumption).
  rewrite ?run_exists. simpl. rewrite Hn, Hp, Hexists2. simpl.
  rewrite ?run_the_want. simpl. unfold Node.set_want. simpl. rewrite Hoff'. simpl.
  rewrite ?Hn, ?Hp. split; reflexivity.
Qed.


(** *** Removal *)

(** X18.  A real run with [state=absent] that returns has seen the node
    absent on its last query. When it reports no change it has issued
    nothing; when it reports a change it has issued exactly one call, the
    delete. *)
Theorem absent_leaves_no_node fuel params d b s' :
  let n := Node.name params in
  let p := Node.partition params in
  Node.state params = Some "absent" ->
  Node.run_main api fuel params false d = (Ok b, s') ->
  Node.API.exists_ api n p (dev (Node.device s')) = Ok false
  ∧ (b = false -> Node.device s' = World d [])
  ∧ (b = true -> log (Node.device s') = [Node.API.delete n p]).
Proof.
  intros n p Hstate. subst n p. step. rewrite Hstate. step.
  destruct (Node.API.exists_ api _ _ d) as [[]|e] eqn:Hexists; simpl;
    try (repeat (destruct (_ e); simpl); discriminate).
  - step. unfold Node.remove_from_device, mbind, M_bind, bind. step.
    destruct (Node.API.load api _ _ d) as [r|e] eqn:Hload; simpl;
      try (repeat (destruct (_ e); simpl); discriminate).
    destruct (Node.API.r_truthy r) eqn:Htruthy; step.
    + unfold Node.on_device, zoom, mutate. simpl.
      destruct (Node.API.do_delete api _ _ d) as [[[]|e] d'] eqn:Hdelete; simpl;
        try (repeat (destruct (_ e); simpl); discriminate).
      step.
      destruct (Node.API.exists_ api _ _ d') as [[]|e] eqn:Hexists2; simpl;
        try (repeat (destruct (_ e); simpl); discriminate).
      intros [= <- <-]. simpl. refine (conj _ (conj _ _)); [done|discriminate|done].
    + rewrite Hexists. simpl. discriminate.
  - intros [= <- <-]. simpl. refine (conj _ (conj _ _)); [done|done|discriminate].
Qed.

(** *** Polling *)

(** X19.  The polling loop has no timeout: on a device that keeps the node
    in [fqdn-checking], it does not end, whatever the fuel, and it issues no
    call. *)
Theorem fqdn_polling_has_no_timeout fuel resource (s : Node.run (D:=D)) :
  let n := Node.name (Node.want (Node.self s)) in
  let p := Node.partition (Node.want (Node.self s)) in
  Node.API.r_state resource = Some "fqdn-checking" ->
  (forall d, exists resource' d',
     Node.API.refresh api n p d = (Ok resource', d')
     ∧ Node.API.r_state resource' = Some "fqdn-checking") ->
  fst (Node._wait_for_fqdn_checks api fuel resource s) = Raise Diverges
  ∧ log (Node.device (snd (Node._wait_for_fqdn_checks api fuel resource s)))
    = log (Node.device s)
  ∧ Node.self (snd (Node._wait_for_fqdn_checks api fuel resource s)) = Node.self s.
Proof.
  intros n p Hstate Hstuck. revert resource s n p Hstate Hstuck.
  induction fuel as [|fuel IH]; intros resource s n p Hstate Hstuck; simpl;
    rewrite bool_decide_eq_true_2 by done; [done|].
  unfold mbind, M_bind, bind. rewrite !run_the_want. simpl.
  unfold Node.on_device, zoom. simpl. fold n p.
  destruct (Hstuck (dev (Node.device s))) as (resource' & d' & Hrefresh & Hstate').
  rewrite Hrefresh. simpl.
  destruct (IH resource' (Node.Run (World d' (log (Node.device s))) (Node.self s))
              Hstate' Hstuck) as (Hr & Hl & Hs).
  by rewrite Hr, Hl, Hs.
Qed.


(** *** Update *)

#[local] Arguments Node.Difference_state : simpl never.

(** What the comparisons find on a node whose monitor rule is not
    [m_of_n], for a task that names no monitor, no monitor type and no
    quorum: the description, when the task gives one that differs, and the
    change of state [Difference.state] computes. *)
Lemma changes_of_a_plain_task r params change (s : Node.run (D:=D)) :
  let have := Node.Parameters_of_attrs r in
  let same := bool_decide (Node.description params = None)
              || bool_decide (Node.description params = Node.API.r_description r) in
  Node.want (Node.self s) = params ->
  Node.API.r_kind r = Some Node.node_kind ->
  Node.monitor_type have ≠ Ok (Some "m_of_n") ->
  (forall want, Node.state want = Node.state params ->
     Node.Difference_state have want = (Ok change, want)) ->
  Node.kind params = None ->
  Node.v_monitor_type params = None ->
  Node.v_quorum params = None ->
  Node.v_monitors params = None ->
  exists want',
    Node.state want' = Node.state params
    ∧ Node.name want' = Node.name params
    ∧ Node.partition want' = Node.partition params
    ∧ Node._update_changed_options have s
      = if same && bool_decide (change = None)
        then (Ok false, Node.Run (Node.device s) (Node.set_want want' (Node.self s)))
        else (Ok true,
              Node.Run (Node.device s)
                (Node.set_changes
                   (Node.Changes None None None
                      (if same then None else Node.description params) None
                      (fst <$> change) (snd <$> change))
                   (Node.set_want want' (Node.self s)))).
Proof.
  intros have same Hwant Hkind Hrule Hchange Hk Hmt Hq Hm.
  assert (Hhave : exists hmt hm,
    Node.monitor_type have = Ok hmt ∧ Node.quorum have = Ok None
    ∧ Node.monitors have = Ok hm ∧ hmt ≠ Some "m_of_n" ∧ hmt ≠ Some "single").
  { unfold have, Node.monitors, Node.monitor_type, Node.quorum, Node.Parameters_of_attrs
      in *. simpl in *. rewrite Hkind in *. simpl in *.
    destruct (Node.API.r_monitor r) as [e|]; simpl in *.
    - destruct (bool_decide (is_Some (Re.search_quorum e))); [done|].
      simpl. by eexists _, _.
    - by eexists _, _. }
  destruct Hhave as (hmt & hm & Hhmt & Hhq & Hhm & Hnot & Hsingle).
  assert (Hde : Node.description have = Node.API.r_description r) by reflexivity.
  subst same. rewrite <- Hde. clearbody have. clear Hde Hkind Hrule.
  exists (Node.update_quorum None (Node.update_monitor_type hmt params)).
  refine (conj _ (conj _ (conj _ _))); [done..|].
  destruct s as [w [wa ha ch cm]]. simpl in Hwant. subst wa.
  destruct params as [k n p a f de mt q ms st se off]. simpl in *. subst k mt q ms.
  unfold Node._update_changed_options, Node.compare_monitor_type, Node.compare_quorum,
    Node.compare_monitors, Node.compare_description, Node.compare_state,
    Node.Difference_monitor_type, Node.Difference_monitors,
    Node.__default, Node.on_want, Node.on_self, Node.self_want, Node.self_want_, zoom,
    try_except, lift, Effect.get_state, modify_state, fmap, M_fmap, mbind, M_bind, bind,
    mret, M_ret, ret, raise.
  unfold Node.monitor_type at 1, Node.quorum at 1. simpl.
  rewrite Hhmt, Hhq. simpl.
  rewrite (bool_decide_eq_false_2 (hmt = Some "m_of_n")) by done.
  rewrite (bool_decide_eq_false_2 (hmt = Some "single")) by done. simpl.
  unfold Node.monitor_type at 1. simpl.
  rewrite bool_decide_eq_true_2 by done. simpl.
  destruct (bool_decide (hmt = None)); simpl;
    rewrite Hhm; simpl; destruct (bool_decide (None = hm)); simpl;
    destruct (bool_decide (de = Node.description have)) eqn:Hde; simpl;
    rewrite Hchange by reflexivity; simpl;
    rewrite ?orb_true_r; simpl;
    destruct change as [[? ?]|]; simpl; try reflexivity;
    destruct de; reflexivity.
Qed.

Lemma enabled_node_stays r params :
  Node.API.r_session r = Some "user-enabled" ->
  Node.state params = Some "present" ∨ Node.state params = Some "enabled" ->
  forall want, Node.state want = Node.state params ->
    Node.Difference_state (Node.Parameters_of_attrs r) want = (Ok None, want).
Proof.
  intros Hsession Hstate want Hwant.
  unfold Node.Difference_state, Node.self_want_, fmap, M_fmap, mbind, M_bind, bind,
    Effect.get_state, mret, M_ret, ret. simpl.
  rewrite Hwant, Hsession. by destruct Hstate as [-> | ->].
Qed.

Lemma enabled_node_goes_offline r params :
  Node.API.r_state r ≠ Some "user-down" ->
  Node.state params = Some "offline" ->
  forall want, Node.state want = Node.state params ->
    Node.Difference_state (Node.Parameters_of_attrs r) want
    = (Ok (Some ("user-disabled", "user-down")), want).
Proof.
  intros Hup Hstate want Hwant.
  unfold Node.Difference_state, Node.self_want_, fmap, M_fmap, mbind, M_bind, bind,
    Effect.get_state, mret, M_ret, ret. simpl.
  rewrite Hwant, Hstate. simpl. by rewrite bool_decide_eq_false_2.
Qed.

#[local] Arguments Node._update_changed_options : simpl never.

(** X20.  On an enabled node whose monitor rule is not [m_of_n], a task that
    names the node and at most the description it already has changes
    nothing and issues no call, in check mode as in a real run. *)
Theorem plain_task_changes_nothing fuel params cm d r :
  Node.state params = Some "present" ∨ Node.state params = Some "enabled" ->
  Node.API.exists_ api (Node.name params) (Node.partition params) d = Ok true ->
  Node.API.load api (Node.name params) (Node.partition params) d = Ok r ->
  Node.API.r_kind r = Some Node.node_kind ->
  Node.API.r_session r = Some "user-enabled" ->
  Node.monitor_type (Node.Parameters_of_attrs r) ≠ Ok (Some "m_of_n") ->
  Node.kind params = None ->
  Node.v_monitor_type params = None ->
  Node.v_quorum params = None ->
  Node.v_monitors params = None ->
  Node.description params = None ∨ Node.description params = Node.API.r_description r ->
  fst (Node.run_main api fuel params cm d) = Ok false
  ∧ Node.device (snd (Node.run_main api fuel params cm d)) = World d [].
Proof.
  intros Hstate Hexists Hload Hkind Hsession Hrule Hk Hmt Hq Hm Hde.
  assert (Hmem : mem_opt (Node.state params) ["present"; "enabled"; "disabled"; "offline"]
                 = true) by (by destruct Hstate as [-> | ->]).
  step. rewrite Hmem. step. rewrite Hexists. step. rewrite Hload. step.
  match goal with
  | |- context [Node._update_changed_options ?h ?s] =>
      destruct (changes_of_a_plain_task r params None s eq_refl Hkind Hrule
                  (enabled_node_stays r params Hsession Hstate)
                  Hk Hmt Hq Hm) as (want' & _ & _ & _ & ->)
  end.
  assert (Hsame : bool_decide (Node.description params = None)
                  || bool_decide (Node.description params = Node.API.r_description r)
                  = true).
  { destruct Hde as [-> | ->]; [done|].
    rewrite (bool_decide_eq_true_2 (_ = Node.API.r_description r)) by done.
    apply orb_true_r. }
  rewrite Hsame. simpl. by split.
Qed.

(** X21.  On such a node a task that gives another description sends one
    call: a modify whose payload holds the description and nothing else. *)
Theorem update_sends_only_the_description fuel params d r text d' :
  let payload := Node.Payload None (Some text) None None None None in
  Node.state params = Some "present" ∨ Node.state params = Some "enabled" ->
  Node.API.exists_ api (Node.name params) (Node.partition params) d = Ok true ->
  Node.API.load api (Node.name params) (Node.partition params) d = Ok r ->
  Node.API.r_kind r = Some Node.node_kind ->
  Node.API.r_session r = Some "user-enabled" ->
  Node.monitor_type (Node.Parameters_of_attrs r) ≠ Ok (Some "m_of_n") ->
  Node.kind params = None ->
  Node.v_monitor_type params = None ->
  Node.v_quorum params = None ->
  Node.v_monitors params = None ->
  Node.description params = Some text ->
  Node.API.r_description r ≠ Some text ->
  Node.API.do_modify api (Node.name params) (Node.partition params) payload d
  = (Ok tt, d') ->
  fst (Node.run_main api fuel params false d) = Ok true
  ∧ Node.device (snd (Node.run_main api fuel params false d))
    = World d' [Node.API.modify (Node.name params) (Node.partition params) payload].
Proof.
  intros payload Hstate Hexists Hload Hkind Hsession Hrule Hk Hmt Hq Hm Hde Hother
    Hmodify.
  assert (Hmem : mem_opt (Node.state params) ["present"; "enabled"; "disabled"; "offline"]
                 = true) by (by destruct Hstate as [-> | ->]).
  assert (Hnot : bool_decide (Node.state params = Some "offline") = false)
    by (by destruct Hstate as [-> | ->]).
  step. rewrite Hmem. step. rewrite Hexists. step. rewrite Hload. step.
  match goal with
  | |- context [Node._update_changed_options ?h ?s] =>
      destruct (changes_of_a_plain_task r params None s eq_refl Hkind Hrule
                  (enabled_node_stays r params Hsession Hstate)
                  Hk Hmt Hq Hm) as (want' & Hst & Hn & Hp & ->)
  end.
  rewrite Hde. rewrite (bool_decide_eq_false_2 (Some text = None)) by done.
  rewrite (bool_decide_eq_false_2 (Some text = Node.API.r_description r)) by done.
  simpl. step.
  unfold Node.update_on_device, Node.modify_loaded, Node.load.
  unfold mbind, M_bind, bind. on_state.
  rewrite Hn, Hp, Hload. simpl.
  change (Node.fqdn (Node.Changes None None None (Some text) None None None))
    with (@None Node.fqdn_value).
  fold payload. rewrite Hmodify. simpl.
  rewrite Hst, Hnot. simpl. by split.
Qed.


(** X22.  Taking offline a node that is not yet [user-down] and whose
    monitor rule is not [m_of_n], by a task that gives nothing but the state,
    sends the same modify twice: the update sends the pair of session and
    state the comparison found, and the step that follows for
    [state=offline] sends that pair again. *)
Theorem offline_update_modifies_twice fuel params d r d1 d2 :
  let n := Node.name params in
  let p := Node.partition params in
  Node.state params = Some "offline" ->
  Node.API.exists_ api n p d = Ok true ->
  Node.API.load api n p d = Ok r ->
  Node.API.r_kind r = Some Node.node_kind ->
  Node.API.r_state r ≠ Some "user-down" ->
  Node.monitor_type (Node.Parameters_of_attrs r) ≠ Ok (Some "m_of_n") ->
  Node.kind params = None ->
  Node.v_monitor_type params = None ->
  Node.v_quorum params = None ->
  Node.v_monitors params = None ->
  Node.description params = None ->
  Node.API.do_modify api n p Node.offline_payload d = (Ok tt, d1) ->
  (exists r1, Node.API.load api n p d1 = Ok r1) ->
  Node.API.do_modify api n p Node.offline_payload d1 = (Ok tt, d2) ->
  fst (Node.run_main api fuel params false d) = Ok true
  ∧ Node.device (snd (Node.run_main api fuel params false d))
    = World d2 [Node.API.modify n p Node.offline_payload;
                Node.API.modify n p Node.offline_payload].
Proof.
  intros n p Hstate Hexists Hload Hkind Hup Hrule Hk Hmt Hq Hm Hde Hmodify [r1 Hload1]
    Hmodify1.
  subst n p.
  assert (Hmem : mem_opt (Node.state params) ["present"; "enabled"; "disabled"; "offline"]
                 = true) by (by rewrite Hstate).
  step. rewrite Hmem. step. rewrite Hexists. step. rewrite Hload. step.
  match goal with
  | |- context [Node._update_changed_options ?h ?s] =>
      destruct (changes_of_a_plain_task r params (Some ("user-disabled", "user-down")) s
                  eq_refl Hkind Hrule (enabled_node_goes_offline r params Hup Hstate)
                  Hk Hmt Hq Hm) as (want' & Hst & Hn & Hp & ->)
  end.
  rewrite Hde. simpl. step.
  unfold Node.update_on_device, Node.update_node_offline_on_device, Node.modify_loaded,
    Node.load.
  unfold mbind, M_bind, bind. on_state.
  rewrite Hn, Hp, Hload. simpl.
  change (Node.fqdn (Node.Changes None None None None None (Some "user-disabled")
                       (Some "user-down")))
    with (@None Node.fqdn_value).
  fold Node.offline_payload. rewrite Hmodify. simpl.
  rewrite Hst, Hstate. simpl. rewrite Hn, Hp, Hload1. simpl. rewrite Hmodify1. simpl.
  by split.
Qed.

End NodeRuns.

(** ** The node a run touches *)

Section NodeTargets.
Context {D : Type} (api : Node.API.f5sdk D).

Local Abbreviation M := (Effect.M (Node.run (D:=D))).
Local Abbreviation W := (Effect.M Node.Parameters).

(** *** Steps on [self.want] *)

Lemma keeps_ret {A} (a : A) : Calls.keeps_the_name (mret a : W A).
Proof. by intros w. Qed.

Lemma keeps_raise {A} (e : exn) : Calls.keeps_the_name (raise e : W A).
Proof. by intros w. Qed.

Lemma keeps_lift {A} (r : result A) : Calls.keeps_the_name (lift r : W A).
Proof. by intros w. Qed.

Lemma keeps_get_state : Calls.keeps_the_name (Effect.get_state : W Node.Parameters).
Proof. by intros w. Qed.

Lemma keeps_modify_state (f : Node.Parameters -> Node.Parameters) :
  (forall w, Node.name (f w) = Node.name w ∧ Node.partition (f w) = Node.partition w) ->
  Calls.keeps_the_name (modify_state f).
Proof. intros Hf w. apply Hf. Qed.

Lemma keeps_bind {A B} (m : W A) (k : A -> W B) :
  Calls.keeps_the_name m -> (forall a, Calls.keeps_the_name (k a)) ->
  Calls.keeps_the_name (m ≫= k).
Proof.
  intros Hm Hk w. destruct (Hm w) as [Hn Hp].
  unfold mbind, M_bind, bind. destruct (m w) as [[a|e] w1]; simpl in *; [|done].
  destruct (Hk a w1) as [Hn' Hp']. split; congruence.
Qed.

Lemma keeps_fmap {A B} (f : A -> B) (m : W A) :
  Calls.keeps_the_name m -> Calls.keeps_the_name (f <$> m).
Proof.
  intros Hm. unfold fmap, M_fmap.
  apply (keeps_bind m (fun a => ret (f a))); [exact Hm|]. intros a. apply keeps_ret.
Qed.

Lemma keeps_try {A} (m : W A) catches (h : exn -> W A) :
  Calls.keeps_the_name m -> (forall e, Calls.keeps_the_name (h e)) ->
  Calls.keeps_the_name (try_except m catches h).
Proof.
  intros Hm Hh w. destruct (Hm w) as [Hn Hp].
  unfold try_except. destruct (m w) as [[a|e] w1]; simpl in *; [done|].
  destruct (catches e); [|done].
  destruct (Hh e w1) as [Hn' Hp']. split; congruence.
Qed.

Ltac keeps :=
  repeat first
    [ apply keeps_ret
    | apply keeps_raise
    | apply keeps_lift
    | apply keeps_get_state
    | apply keeps_modify_state; intros ?; split; reflexivity
    | apply keeps_fmap
    | apply keeps_bind; [|intros ?]
    | apply keeps_try; [|intros ?]
    | match goal with
      | |- Calls.keeps_the_name (if ?b then _ else _) => destruct b
      | |- Calls.keeps_the_name (match ?x with _ => _ end) => destruct x
      end ].

Lemma keeps_comparisons have :
  Calls.keeps_the_name (Node.compare_monitor_type have)
  ∧ Calls.keeps_the_name (Node.compare_quorum have)
  ∧ Calls.keeps_the_name (Node.compare_monitors have)
  ∧ Calls.keeps_the_name (Node.compare_description have)
  ∧ Calls.keeps_the_name (Node.compare_state have).
Proof.
  repeat apply conj;
    unfold Node.compare_monitor_type, Node.compare_quorum, Node.compare_monitors,
      Node.compare_description, Node.compare_state, Node.Difference_monitor_type,
      Node.Difference_monitors, Node.Difference_state, Node.__default, Node.self_want,
      Node.self_want_;
    keeps.
Qed.

(** *** Steps of the module manager *)

Lemma node_ret {A} n p (a : A) : Calls.on_the_node (D:=D) n p (mret a : M A).
Proof. intros s Hn Hp. repeat split; [done..|]. exists []. by rewrite app_nil_r. Qed.

Lemma node_raise {A} n p (e : exn) : Calls.on_the_node (D:=D) n p (raise e : M A).
Proof. intros s Hn Hp. repeat split; [done..|]. exists []. by rewrite app_nil_r. Qed.

Lemma node_bind {A B} n p (m : M A) (k : A -> M B) :
  Calls.on_the_node (D:=D) n p m -> (forall a, Calls.on_the_node (D:=D) n p (k a)) ->
  Calls.on_the_node (D:=D) n p (m ≫= k).
Proof.
  intros Hm Hk s Hn Hp. destruct (Hm s Hn Hp) as (Hn1 & Hp1 & l1 & Hl1 & HP1).
  unfold mbind, M_bind, bind. destruct (m s) as [[a|e] s1]; simpl in *.
  - destruct (Hk a s1 Hn1 Hp1) as (Hn2 & Hp2 & l2 & Hl2 & HP2).
    repeat split; [done..|]. exists (l1 ++ l2).
    rewrite Hl2, Hl1, app_assoc. split; [done|by apply Forall_app].
  - repeat split; [done..|]. by exists l1.
Qed.

Lemma node_try {A} n p (m : M A) catches (h : exn -> M A) :
  Calls.on_the_node (D:=D) n p m -> (forall e, Calls.on_the_node (D:=D) n p (h e)) ->
  Calls.on_the_node (D:=D) n p (try_except m catches h).
Proof.
  intros Hm Hh s Hn Hp. destruct (Hm s Hn Hp) as (Hn1 & Hp1 & l1 & Hl1 & HP1).
  unfold try_except. destruct (m s) as [[a|e] s1]; simpl in *.
  - repeat split; [done..|]. by exists l1.
  - destruct (catches e).
    + destruct (Hh e s1 Hn1 Hp1) as (Hn2 & Hp2 & l2 & Hl2 & HP2).
      repeat split; [done..|]. exists (l1 ++ l2).
      rewrite Hl2, Hl1, app_assoc. split; [done|by apply Forall_app].
    + repeat split; [done..|]. by exists l1.
Qed.

Lemma node_on_want {A} n p (m : W A) :
  Calls.keeps_the_name m -> Calls.on_the_node (D:=D) n p (Node.on_want m).
Proof.
  intros Hm s Hn Hp. unfold Node.on_want, Node.on_self, zoom.
  destruct s as [w [wa ha ch cm]]. simpl in *. destruct (Hm wa) as [Hn' Hp'].
  destruct (m wa) as [r wa']. simpl in *.
  repeat split; [congruence..|]. exists []. by rewrite app_nil_r.
Qed.

Lemma node_on_self {A} n p (m : Effect.M Node.Self A) :
  (forall s, Node.want (snd (m s)) = Node.want s) ->
  Calls.on_the_node (D:=D) n p (Node.on_self m).
Proof.
  intros Hm s Hn Hp. unfold Node.on_self, zoom.
  destruct s as [w sf]. simpl in *. specialize (Hm sf).
  destruct (m sf) as [r sf']. simpl in *. rewrite Hm.
  repeat split; [done..|]. exists []. by rewrite app_nil_r.
Qed.

Lemma node_observe {A} n p (q : D -> result A) :
  Calls.on_the_node (D:=D) n p (Node.on_device (observe q)).
Proof.
  intros s Hn Hp. destruct s as [[d l] sf]. simpl in *.
  repeat split; [done..|]. exists []. by rewrite app_nil_r.
Qed.

Lemma node_mutate {A} n p c (f : D -> result A * D) :
  Calls.on_node n p c -> Calls.on_the_node (D:=D) n p (Node.on_device (mutate c f)).
Proof.
  intros Hc s Hn Hp. destruct s as [[d l] sf]. unfold Node.on_device, zoom, mutate.
  simpl in *. destruct (f d) as [r d']. simpl.
  repeat split; [done..|]. exists [c]. split; [done|by constructor].
Qed.

(** Reading the name or the partition of [self.want] gives the node the
    run is about. *)
Lemma node_the_name {B} n p (k : option string -> M B) :
  Calls.on_the_node (D:=D) n p (k n) -> Calls.on_the_node (D:=D) n p (Node.the_want Node.name ≫= k).
Proof.
  intros Hk s Hn Hp. unfold mbind, M_bind, bind. rewrite run_the_want. rewrite Hn.
  by apply Hk.
Qed.

Lemma node_the_partition {B} n p (k : string -> M B) :
  Calls.on_the_node (D:=D) n p (k p) ->
  Calls.on_the_node (D:=D) n p (Node.the_want Node.partition ≫= k).
Proof.
  intros Hk s Hn Hp. unfold mbind, M_bind, bind. rewrite run_the_want. rewrite Hp.
  by apply Hk.
Qed.

Lemma node_the_want {A} n p (f : Node.Parameters -> A) :
  Calls.on_the_node (D:=D) n p (Node.the_want f).
Proof. apply node_on_want. unfold Node.self_want_. keeps. Qed.

Lemma node_check_mode n p : Calls.on_the_node (D:=D) n p (Node.client_check_mode (D:=D)).
Proof. apply node_on_self. intros s. by destruct s. Qed.

Lemma node_wait n p fuel resource :
  Calls.on_the_node (D:=D) n p (Node._wait_for_fqdn_checks api fuel resource).
Proof.
  revert resource. induction fuel as [|fuel IH]; intros resource; simpl;
    destruct (bool_decide _); try apply node_ret; try apply node_raise.
  apply node_the_name, node_the_partition.
  apply node_bind; [|intros r; apply IH].
  intros s Hn Hp. destruct s as [[d l] sf]. unfold Node.on_device, zoom. simpl in *.
  destruct (Node.API.refresh api n p d) as [r d']. simpl.
  repeat split; [done..|]. exists []. by rewrite app_nil_r.
Qed.

Ltac node :=
  repeat first
    [ apply node_ret
    | apply node_raise
    | apply node_wait
    | apply node_check_mode
    | apply node_the_name
    | apply node_the_partition
    | apply node_the_want
    | apply node_observe
    | apply node_mutate; by split
    | apply node_on_want; first [ apply keeps_comparisons | keeps ]
    | apply node_on_self; intros []; reflexivity
    | apply node_bind; [|intros ?]
    | apply node_try; [|intros ?]
    | match goal with
      | |- Calls.on_the_node _ _ (if ?b then _ else _) => destruct b
      | |- Calls.on_the_node _ _ (match ?x with _ => _ end) => destruct x
      end ].

Lemma node_main n p fuel : Calls.on_the_node (D:=D) n p (Node.main api fuel).
Proof.
  unfold Node.main, Node.exec_module, Node.present, Node.absent, Node.create,
    Node.update, Node.remove, Node.should_update, Node._update_changed_options,
    Node._set_changed_options, Node._check_required_creation_vars,
    Node._munge_creation_state_for_device, Node.create_on_device,
    Node.update_on_device, Node.update_node_offline_on_device, Node.modify_loaded,
    Node.remove_from_device, Node.read_current_from_device, Node.load, Node.exists_,
    Node.fail_json, Node.self_want, Node.self_want_.
  node.
Qed.

(** X23.  Every call of a run addresses the node the task names, in the
    partition it names: the module never touches another node. *)
Theorem main_touches_only_the_named_node fuel params cm d :
  Forall (Calls.on_node (Node.name params) (Node.partition params))
         (log (Node.device (snd (Node.run_main api fuel params cm d)))).
Proof.
  destruct (node_main (Node.name params) (Node.partition params) fuel
              (Node.Run (World d []) (Node.ModuleManager params cm)) eq_refl eq_refl)
    as (_ & _ & l & Hl & HP).
  unfold Node.run_main. by rewrite Hl.
Qed.

End NodeTargets.

(** ** Instances

    The properties above that have a precondition, each on one of the
    devices of [Scenario]. *)

(** No server on the device, and a task that gives neither destination nor
    port. *)
Lemma creation_needs_destination_and_port_witness :
  run_main bigip_api fresh_strings (task "present" false) no_vs
  = (Raise (SystemExit "both destination and port must be supplied to create a VS"),
     World no_vs []).
Proof.
  apply (creation_needs_destination_and_port bigip_api fresh_strings
           (task "present" false) no_vs
           "01020036:3: The requested virtual server was not found.").
  - discriminate.
  - reflexivity.
  - reflexivity.
  - left. reflexivity.
Defined.

Lemma bigip_ask_raises A (q : API.query A) d e :
  API.ask bigip_api q d = Raise e -> is_Exception e = true.
Proof.
  destruct q; simpl; try discriminate.
  destruct (vs_present d); [discriminate|]. by intros [= <-].
Qed.

Lemma bigip_tell_raises c d e :
  fst (API.tell bigip_api c d) = Raise e -> is_Exception e = true.
Proof.
  destruct c; simpl; try discriminate.
  - destruct (create_error d); simpl; [|discriminate]. by intros [= <-].
  - destruct (delete_error d); simpl; [|discriminate]. by intros [= <-].
Qed.

(** The task whose port is [http]: the [ValueError] leaves [main] and
    nothing has been issued.  The task whose port is 443, on the device
    whose create call is refused: the run ends in [fail_json]. *)
Lemma only_a_malformed_port_escapes_main_witness :
  main bigip_api fresh_strings http_port_task (World vs1 [])
  = (Raise (ValueError "invalid literal for int() with base 10: 'http'"),
     World vs1 [])
  ∧ ((exists r, fst (run_main bigip_api fresh_strings (create_task false) raced_create)
                = Ok r)
     ∨ (exists msg, fst (run_main bigip_api fresh_strings (create_task false)
                           raced_create)
                    = Raise (SystemExit msg))).
Proof.
  split.
  - destruct (only_a_malformed_port_escapes_main bigip_api fresh_strings
                bigip_ask_raises bigip_tell_raises http_port_task vs1) as [_ Hbad].
    by destruct (Hbad (ValueError "invalid literal for int() with base 10: 'http'")
                   eq_refl) as [_ ->].
  - destruct (only_a_malformed_port_escapes_main bigip_api fresh_strings
                bigip_ask_raises bigip_tell_raises (arguments (create_task false))
                raced_create) as [Hgood _].
    exact (Hgood (Some 443%Z) eq_refl).
Defined.

(** A server without source address translation, asked to use the pool
    [/Common/pool1]: the call is issued, and no change is reported. *)
Lemma snat_pool_change_is_never_reported_witness :
  fst (set_snat bigip_api "/Common/vs1" (Some "/Common/pool1") (World vs1 [])) ≠ Ok true
  ∧ log (snd (set_snat bigip_api "/Common/vs1" (Some "/Common/pool1") (World vs1 [])))
    = [API.set_source_address_translation_snat_pool "/Common/vs1" "/Common/pool1"].
Proof.
  destruct (snat_pool_change_is_never_reported bigip_api "/Common/vs1" "/Common/pool1"
              (World vs1 [])) as [Hnever Hcall]; [discriminate..|].
  split; [exact Hnever|].
  apply (Hcall "SRC_TRANS_NONE" ""); [reflexivity|reflexivity|discriminate|].
  left. discriminate.
Defined.

(** A disabled server and a task with [state=present]: the server is
    enabled. *)
Lemma present_enables_the_server_witness :
  log (snd (set_state disabled_vs "/Common/vs1" "present" (World tt [])))
  = [API.set_enabled_state "/Common/vs1" "STATE_ENABLED"]
  ∧ fst (set_state disabled_vs "/Common/vs1" "present" (World tt [])) = Ok true.
Proof.
  destruct (present_enables_the_server disabled_vs "/Common/vs1" "present"
              "STATE_DISABLED" (World tt [])) as [_ Hdisabled].
  - left. reflexivity.
  - reflexivity.
  - destruct Hdisabled as [Hlog Hresult]; [discriminate|].
    split; [exact Hlog|]. apply Hresult. reflexivity.
Defined.

(** The server at [/Common/10.0.0.5:443], moved to another address, then
    to another port. *)
Lemma destination_and_port_keep_the_other_half_witness :
  log (snd (set_destination bigip_api "/Common/vs1" (Some "/Common/10.0.0.6")
              (World vs1 [])))
  = [API.set_destination_v2 "/Common/vs1" (AddressPort "/Common/10.0.0.6" 443)]
  ∧ log (snd (set_port bigip_api "/Common/vs1" (Some 8443%Z) (World vs1 [])))
    = [API.set_destination_v2 "/Common/vs1" (AddressPort "/Common/10.0.0.5" 8443)].
Proof.
  destruct (destination_and_port_keep_the_other_half bigip_api "/Common/vs1"
              (AddressPort "/Common/10.0.0.5" 443) (World vs1 []) eq_refl)
    as (Hdestination & Hport & _).
  split; [apply Hdestination|apply Hport]; discriminate.
Defined.

(** The device reports [STATE_DISABLED]: asking for [disabled] issues
    nothing, asking for [enabled] issues the call. *)
Lemma route_advertisement_state_round_trip_witness :
  set_route_advertisement_state bigip_api (Some "10.0.0.5") "Common" (Some "disabled")
    (World vs1 [])
  = (Ok false, World vs1 [])
  ∧ log (snd (set_route_advertisement_state bigip_api (Some "10.0.0.5") "Common"
                (Some "enabled") (World vs1 [])))
    = [API.set_route_advertisement_state (Some "/Common/10.0.0.5") "STATE_ENABLED"].
Proof.
  split.
  - apply (route_advertisement_state_round_trip bigip_api (Some "10.0.0.5") "Common"
             "disabled" (World vs1 [])); [by right|reflexivity].
  - destruct (route_advertisement_state_round_trip bigip_api (Some "10.0.0.5") "Common"
                "enabled" (World vs1 [])) as [_ Hother]; [by left|].
    destruct (Hother ["STATE_DISABLED"] eq_refl) as [Hlog _]; [|exact Hlog].
    left. vm_compute. discriminate.
Defined.

(** The device holds the rule [b] at priority 0 and [a] at priority 1.
    The task that lists [b] then [a] changes nothing; the task that lists [a]
    then [b] removes both and adds both. *)
Lemma rules_are_reconciled_by_position_witness :
  set_rules disabled_vs "/Common/vs1" (Some ["/Common/b"; "/Common/a"]) (World tt [])
  = (Ok false, World tt [])
  ∧ log (snd (set_rules disabled_vs "/Common/vs1" (Some ["/Common/a"; "/Common/b"])
                (World tt [])))
    = [API.remove_rule "/Common/vs1" [Rule 0 "/Common/b"; Rule 1 "/Common/a"];
       API.add_rule "/Common/vs1" [Rule 0 "/Common/a"; Rule 1 "/Common/b"]].
Proof.
  destruct (rules_are_reconciled_by_position disabled_vs "/Common/vs1" (World tt []))
    as [Hsame Hswapped].
  split.
  - apply (Hsame ["/Common/b"; "/Common/a"] [Rule 0 "/Common/b"; Rule 1 "/Common/a"]);
      reflexivity.
  - apply (Hswapped "/Common/a" "/Common/b" tt); [discriminate|reflexivity..].
Defined.

(** The server of [vs1] and a task that gives a description: one call
    between the two transaction calls, and [changed] is true. *)
Lemma changed_accounts_for_the_calls_witness :
  run_main bigip_api fresh_strings (described_task "web") vs1
  = (Ok (Result true None),
     World vs1 [API.start_transaction; API.set_description "/Common/vs1" "web";
                API.submit_transaction])
  ∧ changed (Result true None)
    = existsb Calls.loud
        [API.start_transaction; API.set_description "/Common/vs1" "web";
         API.submit_transaction].
Proof.
  assert (Hrun : run_main bigip_api fresh_strings (described_task "web") vs1
                 = (Ok (Result true None),
                    World vs1 [API.start_transaction;
                               API.set_description "/Common/vs1" "web";
                               API.submit_transaction]))
    by (vm_compute; reflexivity).
  split; [exact Hrun|].
  apply (changed_accounts_for_the_calls bigip_api fresh_strings (described_task "web")
           vs1 _ (World vs1 _)); [discriminate|reflexivity|reflexivity|exact Hrun].
Defined.

Lemma update_is_one_transaction_witness :
  exists l,
    Forall (fun c => Calls.is_transaction c = false) l
    ∧ (log (snd (run_main bigip_api fresh_strings (described_task "web") vs1))
       = API.start_transaction :: l ++ [API.submit_transaction]
       ∨ (log (snd (run_main bigip_api fresh_strings (described_task "web") vs1))
          = API.start_transaction :: l
          ∧ exists e, fst (run_main bigip_api fresh_strings (described_task "web") vs1)
                      = Raise e)).
Proof.
  apply (update_is_one_transaction bigip_api fresh_strings (described_task "web") vs1);
    [discriminate|reflexivity|reflexivity].
Defined.

(** The node of [node1], which is enabled, and a task with
    [state=offline]: the comparison asks for [user-disabled] and [user-down],
    and asks for nothing once the node has them. *)
Lemma state_change_settles_witness :
  let have := Node.Parameters_of_attrs (the_node node1) in
  let want := node_task "offline" None None in
  fst (Node.Difference_state have want) = Ok (Some ("user-disabled", "user-down"))
  ∧ fst (Node.Difference_state
           (Node.update_session_state (Some "user-disabled") (Some "user-down") None
              have) want)
    = Ok None.
Proof.
  intros have want.
  destruct (state_change_settles have want) as [_ Hsettles].
  split; [reflexivity|]. apply Hsettles. reflexivity.
Defined.


(** The node of [m_of_n_node] and a task that names it and nothing
    else. *)
Lemma m_of_n_node_needs_the_quorum_witness :
  fst (Node.run_main rest_api 5 (described_node_task "db") false m_of_n_node)
  = Raise (SystemExit "Quorum value must be specified with monitor_type 'm_of_n'.")
  ∧ Node.device (snd (Node.run_main rest_api 5 (described_node_task "db") false
                        m_of_n_node))
    = World m_of_n_node [].
Proof.
  apply (m_of_n_node_needs_the_quorum rest_api 5 (described_node_task "db") false
           m_of_n_node (the_node m_of_n_node) "min 1 of { /Common/icmp /Common/tcp }");
    try reflexivity.
  - vm_compute. by eexists.
  - left. reflexivity.
Defined.

(** No node on the device, and a task with neither address nor FQDN. *)
Lemma creation_needs_one_of_address_and_fqdn_witness :
  fst (Node.run_main rest_api 5 (described_node_task "db") false no_node)
  = Raise (SystemExit
             "At least one of 'address' or 'fqdn' is required when creating a node")
  ∧ Node.device (snd (Node.run_main rest_api 5 (described_node_task "db") false no_node))
    = World no_node [].
Proof.
  apply (creation_needs_one_of_address_and_fqdn rest_api 5 (described_node_task "db")
           false no_node); reflexivity.
Defined.

(** No node on the device, and the task
    [name=node1 address=10.0.0.1 state=disabled]. *)
Lemma creation_sends_the_state_witness :
  let payload :=
    Node.Payload None None (Some "10.0.0.1") None (Some "user-disabled")
      (Some "user-up") in
  let created :=
    BigIPRest true (a_node None (Some "user-disabled") (Some "unchecked")) 0 None None in
  Node.p_session payload = Some "user-disabled"
  ∧ Node.p_state payload = Some "user-up"
  ∧ fst (Node.run_main rest_api 5 (node_task "disabled" None None) false no_node)
    = Ok true
  ∧ Node.device (snd (Node.run_main rest_api 5 (node_task "disabled" None None) false
                        no_node))
    = World created [Node.API.create (Some "node1") "Common" payload].
Proof.
  intros payload created.
  apply (creation_sends_the_state rest_api 5 (node_task "disabled" None None) "disabled"
           no_node payload (the_node created) created 0 created); try reflexivity.
  - right. right. reflexivity.
  - apply Node.leaves_now. discriminate.
  - lia.
Defined.

(** The node of [node1] and a task with [state=absent]: one delete, and
    the node is gone. *)
Lemma absent_leaves_no_node_witness :
  Node.API.exists_ rest_api (Some "node1") "Common"
    (dev (Node.device (snd (Node.run_main rest_api 5 (node_task "absent" None None)
                              false node1))))
  = Ok false
  ∧ log (Node.device (snd (Node.run_main rest_api 5 (node_task "absent" None None)
                             false node1)))
    = [Node.API.delete (Some "node1") "Common"].
Proof.
  destruct (absent_leaves_no_node rest_api 5 (node_task "absent" None None) node1 true
              (snd (Node.run_main rest_api 5 (node_task "absent" None None) false node1))
              eq_refl) as (Hgone & _ & Hdelete).
  - vm_compute. reflexivity.
  - split; [exact Hgone|]. apply Hdelete. reflexivity.
Defined.

(** The device of [stuck_api], polled with a fuel of a thousand. *)
Lemma fqdn_polling_has_no_timeout_witness :
  let s := Node.Run (World tt []) (Node.ModuleManager offline_fqdn_task false) in
  let resource := a_node None None (Some "fqdn-checking") in
  fst (Node._wait_for_fqdn_checks stuck_api 1000 resource s) = Raise Diverges
  ∧ log (Node.device (snd (Node._wait_for_fqdn_checks stuck_api 1000 resource s))) = []
  ∧ Node.self (snd (Node._wait_for_fqdn_checks stuck_api 1000 resource s)) = Node.self s.
Proof.
  intros s resource.
  apply (fqdn_polling_has_no_timeout stuck_api 1000 resource s); [reflexivity|].
  intros d. exists resource, d. split; reflexivity.
Defined.

(** The node of [node1] and the task that names it and nothing else. *)
Lemma plain_task_changes_nothing_witness :
  fst (Node.run_main rest_api 5 (node_task "present" None None) false node1) = Ok false
  ∧ Node.device (snd (Node.run_main rest_api 5 (node_task "present" None None) false
                        node1))
    = World node1 [].
Proof.
  apply (plain_task_changes_nothing rest_api 5 (node_task "present" None None) false
           node1 (the_node node1)); try reflexivity.
  - left. reflexivity.
  - vm_compute. discriminate.
  - left. reflexivity.
Defined.

(** The node of [node1], which has no description, and the task
    [description=db]. *)
Lemma update_sends_only_the_description_witness :
  let described :=
    BigIPRest true
      (Node.API.Resource (Some Node.node_kind) (Some "node1") "Common" (Some "10.0.0.1")
         (Some "/Common/icmp and /Common/tcp") (Some "db") (Some "user-enabled")
         (Some "unchecked") None true) 0 None None in
  fst (Node.run_main rest_api 5 (described_node_task "db") false node1) = Ok true
  ∧ Node.device (snd (Node.run_main rest_api 5 (described_node_task "db") false node1))
    = World described
        [Node.API.modify (Some "node1") "Common"
           (Node.Payload None (Some "db") None None None None)].
Proof.
  intros described.
  apply (update_sends_only_the_description rest_api 5 (described_node_task "db") node1
           (the_node node1) "db" described); try reflexivity.
  - left. reflexivity.
  - vm_compute. discriminate.
  - discriminate.
Defined.

(** The node of [node1] and a task with [state=offline]. *)
Lemma offline_update_modifies_twice_witness :
  let down :=
    BigIPRest true
      (a_node (Some "/Common/icmp and /Common/tcp") (Some "user-disabled")
         (Some "user-down")) 0 None None in
  fst (Node.run_main rest_api 5 (node_task "offline" None None) false node1) = Ok true
  ∧ Node.device (snd (Node.run_main rest_api 5 (node_task "offline" None None) false
                        node1))
    = World down [Node.API.modify (Some "node1") "Common" Node.offline_payload;
                  Node.API.modify (Some "node1") "Common" Node.offline_payload].
Proof.
  intros down.
  apply (offline_update_modifies_twice rest_api 5 (node_task "offline" None None) node1
           (the_node node1) down down); try reflexivity.
  - discriminate.
  - vm_compute. discriminate.
  - exists (the_node down). reflexivity.
Defined.

Lemma icmp_and_tcp_qualified : Forall Node.qualified ["/Common/icmp"; "/Common/tcp"].
Proof.
  apply Forall_cons_2; [|apply Forall_cons_2; [|apply Forall_nil_2]].
  - exists "Common", "icmp". by repeat split.
  - exists "Common", "tcp". by repeat split.
Qed.

(** The task [monitor_type=m_of_n quorum=1 monitors=[/Common/icmp,
    /Common/tcp]], and the node of [m_of_n_node]. *)
Lemma m_of_n_round_trip_on_a_node_witness :
  let task :=
    Node.update_quorum (Some 1%Z)
      (node_task "present" (Some "m_of_n") (Some ["/Common/icmp"; "/Common/tcp"])) in
  Node.monitors task = Ok (Some "min 1 of { /Common/icmp /Common/tcp }")
  ∧ Node.monitors_list (Node.Parameters_of_attrs (the_node m_of_n_node))
    = ["/Common/icmp"; "/Common/tcp"]
  ∧ Node.monitor_type (Node.Parameters_of_attrs (the_node m_of_n_node))
    = Ok (Some "m_of_n")
  ∧ Node.quorum (Node.Parameters_of_attrs (the_node m_of_n_node)) = Ok None.
Proof.
  intros task.
  destruct (m_of_n_round_trip_on_a_node task 1 ["/Common/icmp"; "/Common/tcp"]
              (the_node m_of_n_node) task) as (Hrendered & Hnode & _);
    try reflexivity; [lia|exact icmp_and_tcp_qualified|].
  split; [exact Hrendered|]. apply Hnode; reflexivity.
Defined.

(** The task [monitor_type=and_list monitors=[/Common/icmp, /Common/tcp]],
    and the node of [node1]. *)
Lemma and_list_round_trip_witness :
  let task := node_task "present" (Some "and_list") (Some ["/Common/icmp"; "/Common/tcp"]) in
  Node.monitors task = Ok (Some "/Common/icmp and /Common/tcp")
  ∧ Node.monitors_list (Node.Parameters_of_attrs (the_node node1))
    = ["/Common/icmp"; "/Common/tcp"]
  ∧ Node.monitor_type (Node.Parameters_of_attrs (the_node node1)) = Ok (Some "and_list")
  ∧ Node.quorum (Node.Parameters_of_attrs (the_node node1)) = Ok None.
Proof.
  intros task.
  destruct (and_list_round_trip task ["/Common/icmp"; "/Common/tcp"] (the_node node1))
    as (Hrendered & Hnode); try reflexivity; [exact icmp_and_tcp_qualified|].
  split; [exact Hrendered|]. apply Hnode; reflexivity.
Defined.
